(** * convert_health_data.py: a shallow embedding and its properties

    The converter reads three Apple Health export formats, projects every
    observation onto one five-field record, removes duplicates through a
    shared set of identity keys, sorts by [startDate] and writes a CSV file.

    Conventions of the embedding.
    - A Python [str] is a [string]; a character is a code point below 256,
      so [String.length] is Python's [len] and the bytewise order
      [String.leb] is Python's [<=] on [str].
    - A value that may be [None] is an [option string].
    - An exception is a value of [exn]; code that can raise returns a
      [result].  The two shared objects of [main] ([records], [seen_keys])
      and the console live in [state], which survives a raised exception,
      as a mutated Python list or set does.
    - The library calls are those of CPython 3.11 on Linux: [strftime]
      is the one of glibc, paths are POSIX paths.
    - The two XML files, when they exist, can be read and are in an
      encoding the XML parser supports; writing to the console and to
      the output file succeeds. *)

From Stdlib Require Import Strings.String Strings.Ascii Arith.PeanoNat NArith Lia.
From stdpp Require Import base option list gmap strings sorting.

Local Open Scope string_scope.
Local Open Scope nat_scope.
Local Open Scope list_scope.

(** ** Exceptions and results *)

Inductive exn : Type :=
  | ValueError (msg : string)
  | ParseError (msg : string)
  | OSError (msg : string)
  | UnicodeDecodeError (msg : string).

Inductive result (A : Type) : Type :=
  | Return (a : A)
  | Raise (e : exn).
Arguments Return {A} a.
Arguments Raise {A} e.

#[global] Instance result_ret : MRet result := fun _ a => Return a.
#[global] Instance result_bind : MBind result := fun _ _ f r =>
  match r with
  | Return a => f a
  | Raise e => Raise e
  end.

(** [try: body except ValueError: handler]. *)
Definition try_except_ValueError {A} (body : result A) (handler : result A) : result A :=
  match body with
  | Raise (ValueError _) => handler
  | r => r
  end.

(** ** Python string primitives *)

Module Py.

(** Truth value of a [str]: empty is false. *)
Definition truthy (s : string) : bool :=
  match s with
  | EmptyString => false
  | String _ _ => true
  end.

Definition len (s : string) : nat := String.length s.

(** [s[:n]] and [s[n:]] for a non-negative [n]. *)
Fixpoint slice_to (n : nat) (s : string) : string :=
  match n, s with
  | S n', String c s' => String c (slice_to n' s')
  | _, _ => EmptyString
  end.

Fixpoint slice_from (n : nat) (s : string) : string :=
  match n, s with
  | S n', String _ s' => slice_from n' s'
  | _, _ => s
  end.

Definition is_digit (c : ascii) : bool :=
  ((48 <=? N_of_ascii c) && (N_of_ascii c <=? 57))%N.

Definition in_range (lo hi : ascii) (c : ascii) : bool :=
  ((N_of_ascii lo <=? N_of_ascii c) && (N_of_ascii c <=? N_of_ascii hi))%N.

Definition is_char (x : ascii) (c : ascii) : bool := Ascii.eqb x c.

(** [str.isspace] on code points below 256. *)
Definition isspace (c : ascii) : bool :=
  let n := N_of_ascii c in
  (((9 <=? n) && (n <=? 13)) || ((28 <=? n) && (n <=? 32))
   || (n =? 133) || (n =? 160))%N.

Fixpoint lstrip_by (p : ascii -> bool) (s : string) : string :=
  match s with
  | EmptyString => EmptyString
  | String c s' => if p c then lstrip_by p s' else s
  end.

(** Drops the trailing characters satisfying [p]. *)
Fixpoint rstrip_by (p : ascii -> bool) (s : string) : string :=
  match s with
  | EmptyString => EmptyString
  | String c s' =>
      match rstrip_by p s' with
      | EmptyString => if p c then EmptyString else String c EmptyString
      | r => String c r
      end
  end.

Definition strip_by (p : ascii -> bool) (s : string) : string :=
  rstrip_by p (lstrip_by p s).

(** [s.strip()] *)
Definition strip (s : string) : string := strip_by isspace s.

(** [s.strip(chars)] *)
Definition strip_chars (chars : string) (s : string) : string :=
  strip_by (fun c => bool_decide (c ∈ list_ascii_of_string chars)) s.

(** [x in s] for a one-character [x]. *)
Fixpoint contains_char (x : ascii) (s : string) : bool :=
  match s with
  | EmptyString => false
  | String c s' => Ascii.eqb x c || contains_char x s'
  end.

(** [s.split(sep, 1)] for a one-character [sep]: the text before the
    first [sep] and the text after it, or the whole string alone. *)
Fixpoint split1 (sep : ascii) (s : string) : list string :=
  match s with
  | EmptyString => [EmptyString]
  | String c s' =>
      if Ascii.eqb sep c then [EmptyString; s']
      else match split1 sep s' with
           | h :: t => String c h :: t
           | [] => [String c EmptyString]
           end
  end.

(** [sep.join(parts)] *)
Fixpoint join (sep : string) (parts : list string) : string :=
  match parts with
  | [] => EmptyString
  | [p] => p
  | p :: rest => p +:+ sep +:+ join sep rest
  end.

(** [os.path.join(a, b)] for a relative [b]. *)
Definition path_join (a b : string) : string :=
  match String.get (String.length a - 1) a with
  | Some "/"%char => a +:+ b
  | Some _ => a +:+ "/" +:+ b
  | None => b
  end.

Definition digit_value (c : ascii) : N := (N_of_ascii c - 48)%N.

Fixpoint digits_value (acc : N) (s : string) : option N :=
  match s with
  | EmptyString => Some acc
  | String c s' =>
      if is_digit c then digits_value (10 * acc + digit_value c)%N s' else None
  end.

(** [int(s)] for the texts [strptime] passes to it: decimal digits,
    possibly surrounded by white space, which is ignored; any other text
    raises [ValueError] (signs and underscores, which no directive of the
    format matches, are not modelled). *)
Definition int (s : string) : result N :=
  match strip s with
  | EmptyString => Raise (ValueError "invalid literal for int()")
  | t => match digits_value 0%N t with
         | Some n => Return n
         | None => Raise (ValueError "invalid literal for int()")
         end
  end.

Definition digit_char (n : N) : ascii := ascii_of_N (48 + n mod 10)%N.

(** The last [w] decimal digits of [n], zero filled: what [%02d]
    prints for a number that fits. *)
Fixpoint zfill (w : nat) (n : N) : string :=
  match w with
  | 0 => EmptyString
  | S w' => zfill w' (n / 10)%N +:+ String (digit_char n) EmptyString
  end.

(** The decimal numeral of [n] without leading zeros, what [%d] prints;
    [fuel] bounds the number of digits. *)
Fixpoint decimal_digits (fuel : nat) (n : N) : string :=
  match fuel with
  | 0 => EmptyString
  | S fuel' =>
      (if (n <? 10)%N then EmptyString else decimal_digits fuel' (n / 10)%N)
      +:+ String (digit_char n) EmptyString
  end.

(** A number has no more decimal digits than binary digits, so the
    fuel is never used up ([decimal_unfold] below). *)
Definition decimal (n : N) : string := decimal_digits (S (N.to_nat (N.log2 n))) n.

End Py.

(** ** [datetime.strptime] and [datetime.strftime]

    The two library calls of [format_cda_date], after CPython's
    [_strptime.py]: a format directive is a regular expression, a list of
    alternatives tried in order; the directives of a format are matched one
    after the other from the start of the text, backtracking into earlier
    alternatives; text left over after the match is an error; the fields
    are then converted with [int] and checked by the [datetime]
    constructor. *)

Module Datetime.

Record datetime : Type := mkDatetime {
  year : N; month : N; day : N;
  hour : N; minute : N; second : N
}.

(** One alternative: a sequence of one-character classes. *)
Definition alternative : Type := list (ascii -> bool).
Definition directive : Type := list alternative.

Definition d : ascii -> bool := Py.is_digit.
Definition r (lo hi : ascii) : ascii -> bool := Py.in_range lo hi.
Definition c (x : ascii) : ascii -> bool := Py.is_char x.

(** [\d\d\d\d] *)
Definition re_Y : directive := [[d; d; d; d]].
(** [1[0-2]|0[1-9]|[1-9]] *)
Definition re_m : directive :=
  [[c "1"; r "0" "2"]; [c "0"; r "1" "9"]; [r "1" "9"]]%char.
(** [3[0-1]|[1-2]\d|0[1-9]|[1-9]| [1-9]] *)
Definition re_d : directive :=
  [[c "3"; r "0" "1"]; [r "1" "2"; d]; [c "0"; r "1" "9"]; [r "1" "9"];
   [c " "; r "1" "9"]]%char.
(** [2[0-3]|[0-1]\d|\d] *)
Definition re_H : directive :=
  [[c "2"; r "0" "3"]; [r "0" "1"; d]; [d]]%char.
(** [[0-5]\d|\d] *)
Definition re_M : directive := [[r "0" "5"; d]; [d]]%char.
(** [6[0-1]|[0-5]\d|\d] *)
Definition re_S : directive :=
  [[c "6"; r "0" "1"]; [r "0" "5"; d]; [d]]%char.

(** The format ['%Y%m%d%H%M%S']. *)
Definition format_YmdHMS : list directive :=
  [re_Y; re_m; re_d; re_H; re_M; re_S].

(** Matches one alternative at the start of [s]: the matched text and
    the rest. *)
Fixpoint match_alternative (a : alternative) (s : string) : option (string * string) :=
  match a with
  | [] => Some (EmptyString, s)
  | p :: a' =>
      match s with
      | String x s' =>
          if p x then
            match match_alternative a' s' with
            | Some (m, rest) => Some (String x m, rest)
            | None => None
            end
          else None
      | EmptyString => None
      end
  end.

(** The first alternative, in order, for which [k] succeeds. *)
Fixpoint first_alternative {A} (k : alternative -> option A) (alts : directive) : option A :=
  match alts with
  | [] => None
  | a :: alts' =>
      match k a with
      | Some x => Some x
      | None => first_alternative k alts'
      end
  end.

(** [format_regex.match]: the groups of the first match in backtracking
    order, and the unmatched rest of the text. *)
Fixpoint regex_match (ds : list directive) (s : string) : option (list string * string) :=
  match ds with
  | [] => Some ([], s)
  | dir :: ds' =>
      first_alternative
        (fun a =>
           match match_alternative a s with
           | Some (m, rest) =>
               match regex_match ds' rest with
               | Some (groups, rest') => Some (m :: groups, rest')
               | None => None
               end
           | None => None
           end)
        dir
  end.

Definition is_leap (y : N) : bool :=
  ((y mod 4 =? 0) && (negb (y mod 100 =? 0) || (y mod 400 =? 0)))%N.

Definition days_in_month (y m : N) : N :=
  match m with
  | 2 => if is_leap y then 29 else 28
  | 4 | 6 | 9 | 11 => 30
  | _ => 31
  end%N.

(** The range checks of the [date] and [datetime] constructors. *)
Definition check_date_fields (y m dd : N) : result unit :=
  if negb ((1 <=? y) && (y <=? 9999))%N then Raise (ValueError "year is out of range")
  else if negb ((1 <=? m) && (m <=? 12))%N then Raise (ValueError "month must be in 1..12")
  else if negb ((1 <=? dd) && (dd <=? days_in_month y m))%N then
    Raise (ValueError "day is out of range for month")
  else Return ().

Definition check_time_fields (h mi s : N) : result unit :=
  if negb (h <=? 23)%N then Raise (ValueError "hour must be in 0..23")
  else if negb (mi <=? 59)%N then Raise (ValueError "minute must be in 0..59")
  else if negb (s <=? 59)%N then Raise (ValueError "second must be in 0..59")
  else Return ().

(** [datetime.strptime(data_string, '%Y%m%d%H%M%S')] *)
Definition strptime (data_string : string) : result datetime :=
  match regex_match format_YmdHMS data_string with
  | None => Raise (ValueError "time data does not match format")
  | Some (groups, rest) =>
      if Py.truthy rest then Raise (ValueError "unconverted data remains")
      else
        match groups with
        | [gY; gm; gd; gH; gM; gS] =>
            y ← Py.int gY; m ← Py.int gm; dd ← Py.int gd;
            h ← Py.int gH; mi ← Py.int gM; s ← Py.int gS;
            _ ← check_date_fields y m dd;
            _ ← check_time_fields h mi s;
            mret (mkDatetime y m dd h mi s)
        | _ => Raise (ValueError "time data does not match format")
        end
  end.

(** [dt.strftime('%Y-%m-%d %H:%M:%S')].  CPython 3.11 hands the format
    to [strftime] of the C library.  With glibc, [%Y] is the decimal
    numeral of the year with no padding, and [%m], [%d], [%H], [%M] and
    [%S] are zero filled to two digits: the year 999 prints as [999], not
    as the [0999] of the range 0001 ... 9999 that the library
    documentation gives for [%Y].  (A C library, or a later CPython, that
    fills the year to four digits prints the same text for every year
    from 1000 on.) *)
Definition strftime (dt : datetime) : string :=
  Py.decimal (year dt) +:+ "-" +:+ Py.zfill 2 (month dt) +:+ "-" +:+
  Py.zfill 2 (day dt) +:+ " " +:+ Py.zfill 2 (hour dt) +:+ ":" +:+
  Py.zfill 2 (minute dt) +:+ ":" +:+ Py.zfill 2 (second dt).

End Datetime.

(** ** Date Normalizer: [format_cda_date] (lines 167-182) *)

(** The body of the [try] block: [Some v] when it executes [return v],
    [None] when control falls out of the [if]. *)
Definition format_cda_date_try (date_str : string) : result (option string) :=
  if 14 <=? Py.len date_str then
    let base := Py.slice_to 14 date_str in
    let tz := if 14 <? Py.len date_str then Py.slice_from 14 date_str else "" in
    dt ← Datetime.strptime base;
    let formatted := Datetime.strftime dt in
    let formatted := if Py.truthy tz then formatted +:+ " " +:+ tz else formatted in
    mret (Some formatted)
  else mret None.

Definition format_cda_date (date_str : string) : result string :=
  if negb (Py.truthy date_str) then Return ""
  else
    r ← try_except_ValueError (format_cda_date_try date_str) (Return None);
    match r with
    | Some formatted => Return formatted
    | None => Return date_str
    end.

(** ** Data model *)

(** An [xml.etree.ElementTree.Element] as the loops see it when its [end]
    event is delivered: the tag, the attribute dictionary, the text
    ([None] when the element has no character data before its first
    child) and the children already parsed. *)
#[warnings="-register-all"] Inductive Element : Type := mkElement {
  tag : string;
  attrib : gmap string string;
  text : option string;
  children : list Element
}.

(** [elem.get(key)] and [elem.get(key, default)] *)
Definition get (elem : Element) (key : string) : option string := attrib elem !! key.
Definition get_default (elem : Element) (key dflt : string) : string :=
  default dflt (attrib elem !! key).

(** [elem.find('cda:<name>', ns)]: the first child with the qualified tag. *)
Definition cda (name : string) : string := "{urn:hl7-org:v3}" +:+ name.
Definition find (elem : Element) (qname : string) : option Element :=
  List.find (fun ch => String.eqb (tag ch) qname) (children elem).

(** What [ET.iterparse(filepath, events=('end',))] yields for a file
    that can be read and is in an encoding the parser supports: the
    elements in the order of their end tags and then, for a document
    that is not well formed, a [ParseError].  (A file that cannot be
    opened or read, or that declares an encoding the parser does not
    support, makes [iterparse] raise another exception, which neither
    parser catches; such files are outside the embedding.) *)
Record xml_source : Type := mkXml {
  events : list Element;
  syntax_error : option string
}.

(** A text file opened with [open(filepath, 'r', encoding='utf-8')], as
    the loop over it sees it: [open] may raise; iterating delivers
    [file_lines], in order, and then the read that follows them raises
    [read_error] if there is one.  The text layer reads and decodes the
    file a block at a time, so an undecodable byte raises when its block
    is decoded, before any line of that block is delivered: for a small
    file with such a byte anywhere, [file_lines] is empty. *)
Record text_file : Type := mkFile {
  open_error : option exn;
  file_lines : list string;
  read_error : option exn
}.

(** The normalized observation: the dictionary with the five keys. *)
Record record : Type := mkRecord {
  creationDate : string;
  startDate : string;
  endDate : string;
  type : string;
  value : option string
}.

(** The identity key, a 5-tuple. *)
Definition key : Type := string * string * string * string * option string.

Definition key_of (rec : record) : key :=
  (creationDate rec, startDate rec, endDate rec, type rec, value rec).

Definition TARGET_TYPES : gset string :=
  {[ "HKQuantityTypeIdentifierStepCount";
     "HKQuantityTypeIdentifierActiveEnergyBurned";
     "HKQuantityTypeIdentifierHeartRate";
     "HKQuantityTypeIdentifierRestingHeartRate";
     "HKQuantityTypeIdentifierHeartRateVariabilitySDNN";
     "HKCategoryTypeIdentifierSleepAnalysis";
     "HKQuantityTypeIdentifierBodyMass";
     "HKQuantityTypeIdentifierBodyFatPercentage";
     "HKQuantityTypeIdentifierVO2Max";
     "HKQuantityTypeIdentifierRespiratoryRate";
     "HKCategoryTypeIdentifierAppleStandHour" ]}.

(** [x in TARGET_TYPES] for an [x] that is a [str] or [None]. *)
Definition in_TARGET_TYPES (x : option string) : bool :=
  match x with
  | Some s => bool_decide (s ∈ TARGET_TYPES)
  | None => false
  end.

(** Console lines: one constructor for each [print] of the parsers and
    for the warnings and status lines of [main], with the values the
    line interpolates.  The banner of [main] and its closing tally by
    type are not modelled. *)
Inductive message : Type :=
  | MsgProcessing (filepath : string)
  | MsgProgress (n : nat)
  | MsgExtractedXml (local_count workout_count : nat) (filepath : string)
  | MsgCdaMalformed (e : string)
  | MsgCdaSameData
  | MsgExtractedCda (local_count : nat) (filepath : string)
  | MsgProcessingEcg (ecg_dir : string)
  | MsgEcgWarning (filepath : string) (e : exn)
  | MsgExtractedEcg (count : nat)
  | MsgNotFound (path : string)
  | MsgSorting (n : nat)
  | MsgWriting (path : string)
  | MsgTotal (n : nat).

(** The objects shared by reference between [main] and the parsers. *)
Record state : Type := mkState {
  records : list record;
  seen_keys : gset key;
  console : list message
}.

Definition print (m : message) (st : state) : state :=
  mkState (records st) (seen_keys st) (console st ++ [m]).

(** [seen_keys.add(key)] followed by [records.append({...})]. *)
Definition add_and_append (k : key) (rec : record) (st : state) : state :=
  mkState (records st ++ [rec]) ({[ k ]} ∪ seen_keys st) (console st).

(** [n % 50000 == 0] *)
Definition milestone (n : nat) : bool := (N.of_nat n mod 50000 =? 0)%N.

Definition progress (n : nat) (st : state) : state :=
  if milestone n then print (MsgProgress n) st else st.

(** ** Loops over a stream of elements

    A loop body works on its local variables [L] and on the shared state;
    it may raise.  The locals and the state keep the values they had when
    the exception left the loop. *)

Section Loops.
Context {L : Type}.
Variable body : Element -> L -> state -> L * state * option exn.

Fixpoint for_each (elems : list Element) (l : L) (st : state) : L * state * option exn :=
  match elems with
  | [] => (l, st, None)
  | elem :: elems' =>
      match body elem l st with
      | (l', st', None) => for_each elems' l' st'
      | stop => stop
      end
  end.

(** [for event, elem in ET.iterparse(...)] *)
Definition for_iterparse (src : xml_source) (l : L) (st : state) : L * state * option exn :=
  match for_each (events src) l st with
  | (l', st', None) =>
      match syntax_error src with
      | Some msg => (l', st', Some (ParseError msg))
      | None => (l', st', None)
      end
  | stop => stop
  end.
End Loops.

(** ** Attribute-XML parser: [parse_export_xml] (lines 31-103) *)

Record xml_counts : Type := mkXmlCounts {
  xc_count : nat;
  xc_local_count : nat;
  xc_workout_count : nat
}.

(** The synthesized [value] of a workout (lines 72-82). *)
Definition workout_value (elem : Element) : string :=
  let duration := get_default elem "duration" "" in
  let duration_unit := get_default elem "durationUnit" "min" in
  let total_energy := get_default elem "totalEnergyBurned" "" in
  let energy_unit := get_default elem "totalEnergyBurnedUnit" "Cal" in
  let value_parts := [] in
  let value_parts :=
    if Py.truthy duration
    then value_parts ++ ["duration:" +:+ duration +:+ " " +:+ duration_unit]
    else value_parts in
  let value_parts :=
    if Py.truthy total_energy
    then value_parts ++ ["calories:" +:+ total_energy +:+ " " +:+ energy_unit]
    else value_parts in
  match value_parts with
  | [] => ""
  | _ => Py.join "; " value_parts
  end.

(** The body of the [for] loop (lines 41-100); [elem.clear()] only frees
    the subtree of an element that is not looked at again. *)
Definition parse_export_xml_body (elem : Element) (cnt : xml_counts) (st : state)
  : xml_counts * state * option exn :=
  if String.eqb (tag elem) "Record" then
    match get elem "type" with
    | Some record_type =>
        if in_TARGET_TYPES (Some record_type) then
          let creation_date := get_default elem "creationDate" "" in
          let start_date := get_default elem "startDate" "" in
          let end_date := get_default elem "endDate" "" in
          let value := get_default elem "value" "" in
          let k : key := (creation_date, start_date, end_date, record_type, Some value) in
          if bool_decide (k ∉ seen_keys st) then
            let st := add_and_append k
              (mkRecord creation_date start_date end_date record_type (Some value)) st in
            let cnt := mkXmlCounts (xc_count cnt + 1) (xc_local_count cnt + 1)
                                   (xc_workout_count cnt) in
            (cnt, progress (xc_count cnt) st, None)
          else (cnt, st, None)
        else (cnt, st, None)
    | None => (cnt, st, None)
    end
  else if String.eqb (tag elem) "Workout" then
    let workout_type := get_default elem "workoutActivityType" "" in
    let creation_date := get_default elem "creationDate" "" in
    let start_date := get_default elem "startDate" "" in
    let end_date := get_default elem "endDate" "" in
    let value := workout_value elem in
    let k : key := (creation_date, start_date, end_date, workout_type, Some value) in
    if bool_decide (k ∉ seen_keys st) then
      let st := add_and_append k
        (mkRecord creation_date start_date end_date workout_type (Some value)) st in
      let cnt := mkXmlCounts (xc_count cnt + 1) (xc_local_count cnt)
                             (xc_workout_count cnt + 1) in
      (cnt, progress (xc_count cnt) st, None)
    else (cnt, st, None)
  else (cnt, st, None).

Definition parse_export_xml (filepath : string) (src : xml_source) (st : state)
  : state * result nat :=
  let st := print (MsgProcessing filepath) st in
  match for_iterparse parse_export_xml_body src (mkXmlCounts 0 0 0) st with
  | (cnt, st, None) =>
      let st := print (MsgExtractedXml (xc_local_count cnt) (xc_workout_count cnt) filepath) st in
      (st, Return (xc_count cnt))
  | (_, st, Some e) => (st, Raise e)
  end.

(** ** Clinical-document parser: [parse_export_cda_xml] (lines 105-165) *)

Record cda_counts : Type := mkCdaCounts {
  cc_count : nat;
  cc_local_count : nat
}.

(** Lines 128-139: the start and end dates of an observation. *)
Definition cda_dates (elem : Element) : result (string * string) :=
  match find elem (cda "effectiveTime") with
  | Some effective_time =>
      let low := find effective_time (cda "low") in
      let high := find effective_time (cda "high") in
      start_date ← match low with
                   | Some low => format_cda_date (get_default low "value" "")
                   | None => Return ""
                   end;
      end_date ← match high with
                 | Some high => format_cda_date (get_default high "value" "")
                 | None => Return ""
                 end;
      mret (start_date, end_date)
  | None => Return ("", "")
  end.

Definition parse_export_cda_xml_body (total_count : nat)
    (elem : Element) (cnt : cda_counts) (st : state)
  : cda_counts * state * option exn :=
  if String.eqb (tag elem) (cda "observation") then
    match find elem (cda "text") with
    | Some text_elem =>
        match find text_elem (cda "type") with
        | Some type_elem =>
            match text type_elem with
            | Some record_type =>
                if in_TARGET_TYPES (Some record_type) then
                  let value := match find text_elem (cda "value") with
                               | Some value_elem => text value_elem
                               | None => Some ""
                               end in
                  match cda_dates elem with
                  | Raise e => (cnt, st, Some e)
                  | Return (start_date, end_date) =>
                      let creation_date := start_date in
                      let k : key := (creation_date, start_date, end_date, record_type, value) in
                      if bool_decide (k ∉ seen_keys st) then
                        let st := add_and_append k
                          (mkRecord creation_date start_date end_date record_type value) st in
                        let cnt := mkCdaCounts (cc_count cnt + 1) (cc_local_count cnt + 1) in
                        (cnt, progress (total_count + cc_count cnt) st, None)
                      else (cnt, st, None)
                  end
                else (cnt, st, None)
            | None => (cnt, st, None)
            end
        | None => (cnt, st, None)
        end
    | None => (cnt, st, None)
    end
  else (cnt, st, None).

Definition parse_export_cda_xml (filepath : string) (src : xml_source) (st : state)
  : state * result nat :=
  let st := print (MsgProcessing filepath) st in
  let total_count := length (records st) in
  match for_iterparse (parse_export_cda_xml_body total_count) src (mkCdaCounts 0 0) st with
  | (cnt, st, None) =>
      let st := print (MsgExtractedCda (cc_local_count cnt) filepath) st in
      (st, Return (cc_count cnt))
  | (cnt, st, Some (ParseError e)) =>
      let st := print (MsgCdaMalformed e) st in
      let st := print MsgCdaSameData st in
      let st := print (MsgExtractedCda (cc_local_count cnt) filepath) st in
      (st, Return (cc_count cnt))
  | (_, st, Some e) => (st, Raise e)
  end.

(** ** Session-metadata parser: [parse_ecg_files] (lines 184-231) *)

Definition dquote : string := String "034"%char EmptyString.

(** Lines 195-199: the stripped lines with index 0 to 10. *)
Fixpoint read_header (i : nat) (f_lines : list string) (err : option exn)
    (lines : list string) : result (list string) :=
  match f_lines with
  | [] => match err with
          | Some e => Raise e
          | None => Return lines
          end
  | line :: f_lines' =>
      let lines := lines ++ [Py.strip line] in
      if 10 <=? i then Return lines
      else read_header (S i) f_lines' err lines
  end.

(** Lines 201-207: the dictionary of the [key,value] lines. *)
Definition parse_metadata (lines : list string) : gmap string string :=
  fold_left
    (fun (metadata : gmap string string) line =>
       if Py.contains_char "," line then
         match Py.split1 "," line with
         | [part0; part1] =>
             <[ Py.strip part0 := Py.strip_chars dquote (Py.strip part1) ]> metadata
         | _ => metadata
         end
       else metadata)
    lines ∅.

(** Lines 194-207, the part of the [try] block that can raise. *)
Definition read_metadata (f : text_file) : result (gmap string string) :=
  match open_error f with
  | Some e => Raise e
  | None =>
      lines ← read_header 0 (file_lines f) (read_error f) [];
      mret (parse_metadata lines)
  end.

(** The body of [for filepath in ecg_files]; every constructor of [exn] is
    a subclass of [Exception]. *)
Definition parse_ecg_files_body (total_count : nat)
    (filepath : string) (f : text_file) (count : nat) (st : state) : nat * state :=
  match read_metadata f with
  | Return metadata =>
      let recorded_date := default "" (metadata !! "Recorded Date") in
      let classification := default "" (metadata !! "Classification") in
      if Py.truthy recorded_date then
        let record_key : key :=
          (recorded_date, recorded_date, recorded_date, "ECG", Some classification) in
        if bool_decide (record_key ∉ seen_keys st) then
          let st := add_and_append record_key
            (mkRecord recorded_date recorded_date recorded_date "ECG" (Some classification)) st in
          let count := count + 1 in
          (count, progress (total_count + count) st)
        else (count, st)
      else (count, st)
  | Raise e => (count, print (MsgEcgWarning filepath e) st)
  end.

Fixpoint parse_ecg_files_loop (total_count : nat) (ecg_files : list (string * text_file))
    (count : nat) (st : state) : nat * state :=
  match ecg_files with
  | [] => (count, st)
  | (filepath, f) :: ecg_files' =>
      let '(count, st) := parse_ecg_files_body total_count filepath f count st in
      parse_ecg_files_loop total_count ecg_files' count st
  end.

(** [fnmatch(name, 'ecg_*.csv')] *)
Definition fnmatch_ecg (name : string) : bool :=
  (8 <=? Py.len name) && String.prefix "ecg_" name
  && String.eqb (Py.slice_from (Py.len name - 4) name) ".csv".

(** [glob.glob(os.path.join(ecg_dir, 'ecg_*.csv'))] over the entries of
    the directory, in listing order, for a directory path that [glob]
    takes literally: one without the characters [*], [?] and [[].  With
    one of them [glob] reads the directory part as a pattern too and
    lists the files of the directories that match it; [Glob.glob] below
    is the call in full. *)
Definition glob_ecg (ecg_dir : string) (entries : list (string * text_file))
  : list (string * text_file) :=
  map (fun '(name, f) => (Py.path_join ecg_dir name, f))
      (List.filter (fun '(name, _) => fnmatch_ecg name) entries).

Definition parse_ecg_files (ecg_dir : string) (entries : list (string * text_file))
    (st : state) : state * result nat :=
  let st := print (MsgProcessingEcg ecg_dir) st in
  let count := 0 in
  let total_count := length (records st) in
  let ecg_files := glob_ecg ecg_dir entries in
  let '(count, st) := parse_ecg_files_loop total_count ecg_files count st in
  let st := print (MsgExtractedEcg count) st in
  (st, Return count).

(** ** Pipeline driver: [main] (lines 233-291) *)

(** [records.sort(key=lambda x: x['startDate'])]: the sort is stable, so
    its result is the one of inserting each record before the first
    record with a greater or equal key to its right. *)
Fixpoint sort_insert (x : record) (l : list record) : list record :=
  match l with
  | [] => [x]
  | y :: l' =>
      if String.leb (startDate x) (startDate y) then x :: y :: l'
      else y :: sort_insert x l'
  end.

Fixpoint sort_by_startDate (l : list record) : list record :=
  match l with
  | [] => []
  | x :: l' => sort_insert x (sort_by_startDate l')
  end.

(** What [csv.DictWriter] writes, as rows of cell texts before quoting;
    the writer turns [None] into the empty text. *)
Definition fieldnames : list string :=
  ["creationDate"; "startDate"; "endDate"; "type"; "value"].

Definition csv_cell (v : option string) : string := default "" v.

Definition csv_row (rec : record) : list string :=
  [creationDate rec; startDate rec; endDate rec; type rec; csv_cell (value rec)].

Definition csv_rows (recs : list record) : list (list string) :=
  fieldnames :: map csv_row recs.

(** The files [main] looks for under its base directory; [None] is a
    path that does not exist.  The path of the base directory has none
    of the characters that [glob] reads as a pattern ([Glob.has_magic]
    below), and the output file can be written. *)
Record filesystem : Type := mkFs {
  base_dir : string;
  export_xml : option xml_source;
  export_cda_xml : option xml_source;
  electrocardiograms : option (list (string * text_file))
}.

Record output : Type := mkOutput {
  total_count : nat;
  full_health_data_csv : list (list string)
}.

(** [records = []] and [seen_keys = set()] (lines 241-242), nothing
    printed yet. *)
Definition initial : state := mkState [] ∅ [].

(** A call into a parser when the source exists, a warning otherwise
    (lines 251-264). *)
Definition if_exists {A} (path : string) (source : option A)
    (parse : string -> A -> state -> state * result nat) (st : state) : state * result nat :=
  match source with
  | Some src => parse path src st
  | None => (print (MsgNotFound path) st, Return 0)
  end.

Definition main (fs : filesystem) : state * result output :=
  let export_xml_path := Py.path_join (base_dir fs) "export.xml" in
  let export_cda_xml_path := Py.path_join (base_dir fs) "export_cda.xml" in
  let ecg_dir := Py.path_join (base_dir fs) "electrocardiograms" in
  let output_csv := Py.path_join (base_dir fs) "full_health_data.csv" in
  let st := initial in
  let total_count := 0 in
  match if_exists export_xml_path (export_xml fs) parse_export_xml st with
  | (st, Raise e) => (st, Raise e)
  | (st, Return n1) =>
      let total_count := total_count + n1 in
      match if_exists export_cda_xml_path (export_cda_xml fs) parse_export_cda_xml st with
      | (st, Raise e) => (st, Raise e)
      | (st, Return n2) =>
          let total_count := total_count + n2 in
          match if_exists ecg_dir (electrocardiograms fs) parse_ecg_files st with
          | (st, Raise e) => (st, Raise e)
          | (st, Return n3) =>
              let total_count := total_count + n3 in
              let st := print (MsgSorting (length (records st))) st in
              let st := mkState (sort_by_startDate (records st)) (seen_keys st) (console st) in
              let st := print (MsgWriting output_csv) st in
              let file := csv_rows (records st) in
              let st := print (MsgTotal (length (records st))) st in
              (st, Return (mkOutput total_count file))
          end
      end
  end.

(** ** Auxiliary definitions for the statements *)

(** A result that raises nothing but [ValueError]. *)
Definition raises_only_ValueError {A} (r : result A) : Prop :=
  ∀ e, r = Raise e → ∃ msg, e = ValueError msg.

(** Texts of two and of four given characters. *)
Definition two (a b : ascii) : string := String a (String b "").
Definition four (a b c d : ascii) : string :=
  String a (String b (String c (String d ""))).

(** One observable change of the shared state during a run: a [print],
    one turn of the loop of one of the three parsers, or the final sort. *)
Inductive step : state → state → Prop :=
  | step_print m st :
      step st (print m st)
  | step_export_xml elem cnt st :
      step st (parse_export_xml_body elem cnt st).1.2
  | step_export_cda_xml total_count elem cnt st :
      step st (parse_export_cda_xml_body total_count elem cnt st).1.2
  | step_ecg_file total_count filepath f count st :
      step st (parse_ecg_files_body total_count filepath f count st).2
  | step_sort st :
      step st (mkState (sort_by_startDate (records st)) (seen_keys st) (console st)).

(** The states a run can be in. *)
Definition reachable (st : state) : Prop := rtc step initial st.


(** The records and the index hold the same keys, each key once. *)
Definition consistent (st : state) : Prop :=
  NoDup (key_of <$> records st) ∧
  ∀ k, k ∈ seen_keys st ↔ k ∈ key_of <$> records st.

(** How a step may change the two shared objects: not at all, by one new
    key together with its record, or by reordering the records. *)
Definition paired_change (st st' : state) : Prop :=
  (records st' = records st ∧ seen_keys st' = seen_keys st) ∨
  (∃ rec, (key_of rec ∉ seen_keys st) ∧
          records st' = records st ++ [rec] ∧
          seen_keys st' = {[ key_of rec ]} ∪ seen_keys st) ∨
  (records st' ≡ₚ records st ∧ seen_keys st' = seen_keys st).

(** A parser call that only takes steps and whose returned count is the
    number of records it appended. *)
Definition counts_what_it_adds (parse : state → state * result nat) : Prop :=
  ∀ st st' r, parse st = (st', r) →
    rtc step st st' ∧
    ∀ n, r = Return n → ∃ added, records st' = records st ++ added ∧ length added = n.

(** The order of the final sort: Python's [<=] on the [startDate] texts. *)
Definition startDate_le (a b : record) : Prop :=
  String.leb (startDate a) (startDate b) = true.

(** ** Sample inputs *)

Module Sample.

Definition element (tag : string) (attributes : list (string * string))
    (text : option string) (children : list Element) : Element :=
  mkElement tag (list_to_map attributes) text children.

(** [<Record type="HKQuantityTypeIdentifierHeartRate" .../>] *)
Definition heart_rate : Element :=
  element "Record"
    [("type", "HKQuantityTypeIdentifierHeartRate");
     ("creationDate", "2023-06-15 14:30:00 -0500");
     ("startDate", "2023-06-15 14:30:00 -0500");
     ("endDate", "2023-06-15 14:30:00 -0500");
     ("value", "61")] None [].

(** A point observation of a type outside the allow-list. *)
Definition headphone_audio : Element :=
  element "Record"
    [("type", "HKQuantityTypeIdentifierHeadphoneAudioExposure");
     ("creationDate", "2023-06-15 14:31:00 -0500");
     ("startDate", "2023-06-15 14:31:00 -0500");
     ("endDate", "2023-06-15 14:32:00 -0500");
     ("value", "70.5")] None [].

Definition running : Element :=
  element "Workout"
    [("workoutActivityType", "HKWorkoutActivityTypeRunning");
     ("creationDate", "2023-06-14 08:05:00 -0500");
     ("startDate", "2023-06-14 07:30:00 -0500");
     ("endDate", "2023-06-14 08:00:00 -0500");
     ("duration", "30"); ("durationUnit", "min");
     ("totalEnergyBurned", "250"); ("totalEnergyBurnedUnit", "Cal")] None [].

(** A workout whose [duration] attribute is there and empty. *)
Definition empty_duration : Element :=
  element "Workout"
    [("workoutActivityType", "HKWorkoutActivityTypeYoga"); ("duration", "")] None [].

(** An [observation] of the clinical document with the given children of
    its [text] element and the given [low] and [high] times. *)
Definition observation (text_children : list Element) (low high : string) : Element :=
  element (cda "observation") [] None
    [element (cda "text") [] None text_children;
     element (cda "effectiveTime") [] None
       [element (cda "low") [("value", low)] None [];
        element (cda "high") [("value", high)] None []]].

Definition type_elem (t : string) : Element := element (cda "type") [] (Some t) [].

(** [<value>61</value>] *)
Definition value_elem (v : string) : Element := element (cda "value") [] (Some v) [].
(** [<value></value>]: no character data, so [text] is [None]. *)
Definition empty_value_elem : Element := element (cda "value") [] None [].

(** The heart rate of [heart_rate], as the clinical document has it. *)
Definition cda_heart_rate : Element :=
  observation [type_elem "HKQuantityTypeIdentifierHeartRate"; value_elem "61"]
    "20230615143000-0500" "20230615143000-0500".

Definition cda_body_mass : Element :=
  observation [type_elem "HKQuantityTypeIdentifierBodyMass"; value_elem "70"]
    "20230101080000+0000" "20230101080000+0000".

(** Two observations that differ only in that the first has an empty
    [value] element and the second has none. *)
Definition cda_empty_value : Element :=
  observation [type_elem "HKQuantityTypeIdentifierHeartRate"; empty_value_elem]
    "20230615150000-0500" "20230615150000-0500".

Definition cda_no_value : Element :=
  observation [type_elem "HKQuantityTypeIdentifierHeartRate"]
    "20230615150000-0500" "20230615150000-0500".

Definition ecg_sinus : text_file :=
  mkFile None
    ["Name,Test"; "Recorded Date,2023-06-16 09:00:00 +0000";
     "Classification,Sinus Rhythm"; "Device,Watch"] None.

(** A header with a recorded date and no classification. *)
Definition ecg_unclassified : text_file :=
  mkFile None ["Name,Test"; "Recorded Date,2023-06-17 09:00:00 +0000"] None.

(** A header whose recorded date is there and empty. *)
Definition ecg_empty_date : text_file :=
  mkFile None ["Name,Test"; "Recorded Date,"; "Classification,Sinus Rhythm"] None.

Definition ecg_unreadable : text_file :=
  mkFile (Some (OSError "Permission denied")) [] None.

Definition export_xml : xml_source :=
  mkXml [heart_rate; headphone_audio; running; heart_rate] None.

(** A clinical document that stops being well formed after two
    observations. *)
Definition export_cda_xml : xml_source :=
  mkXml [cda_heart_rate; cda_body_mass] (Some "mismatched tag: line 9, column 2").

Definition fs : filesystem :=
  mkFs "/home/user/apple_health_export" (Some export_xml) (Some export_cda_xml)
    (Some [("ecg_2023-06-16.csv", ecg_sinus); ("ecg_2023-06-15.csv", ecg_unreadable);
           ("ecg_2023-06-17.csv", ecg_unclassified); ("notes.txt", ecg_sinus)]).

End Sample.

Module SampleRun.

(** What [main] returns on the sample: five records are written. *)
Definition out : output :=
  mkOutput 5
    [fieldnames;
     ["2023-01-01 08:00:00 +0000"; "2023-01-01 08:00:00 +0000";
      "2023-01-01 08:00:00 +0000"; "HKQuantityTypeIdentifierBodyMass"; "70"];
     ["2023-06-14 08:05:00 -0500"; "2023-06-14 07:30:00 -0500";
      "2023-06-14 08:00:00 -0500"; "HKWorkoutActivityTypeRunning";
      "duration:30 min; calories:250 Cal"];
     ["2023-06-15 14:30:00 -0500"; "2023-06-15 14:30:00 -0500";
      "2023-06-15 14:30:00 -0500"; "HKQuantityTypeIdentifierHeartRate"; "61"];
     ["2023-06-16 09:00:00 +0000"; "2023-06-16 09:00:00 +0000";
      "2023-06-16 09:00:00 +0000"; "ECG"; "Sinus Rhythm"];
     ["2023-06-17 09:00:00 +0000"; "2023-06-17 09:00:00 +0000";
      "2023-06-17 09:00:00 +0000"; "ECG"; ""]].


End SampleRun.


(** The record a workout element stands for (lines 68-93). *)
Definition workout_record (elem : Element) : record :=
  mkRecord (get_default elem "creationDate" "") (get_default elem "startDate" "")
           (get_default elem "endDate" "") (get_default elem "workoutActivityType" "")
           (Some (workout_value elem)).

(** The workout value in the words of the specification: a part for each
    of the two attributes that is present, the parts joined by ['; ']. *)
Definition workout_value_by_presence (elem : Element) : string :=
  let duration_part :=
    match get elem "duration" with
    | Some duration =>
        ["duration:" +:+ duration +:+ " " +:+ get_default elem "durationUnit" "min"]
    | None => []
    end in
  let energy_part :=
    match get elem "totalEnergyBurned" with
    | Some total_energy =>
        ["calories:" +:+ total_energy +:+ " " +:+ get_default elem "totalEnergyBurnedUnit" "Cal"]
    | None => []
    end in
  Py.join "; " (duration_part ++ energy_part).

(** The record a session file with the given header stands for
    (lines 209-222). *)
Definition ecg_record (metadata : gmap string string) : record :=
  let recorded_date := default "" (metadata !! "Recorded Date") in
  let classification := default "" (metadata !! "Classification") in
  mkRecord recorded_date recorded_date recorded_date "ECG" (Some classification).

(** An observation the clinical-document loop accepts: its [text] child,
    the [type] child of that with an allow-listed text, and its dates. *)
Record accepted_observation (elem text_elem : Element) (record_type : string)
    (start_date end_date : string) : Prop := mkAccepted {
  acc_tag : tag elem = cda "observation";
  acc_text : find elem (cda "text") = Some text_elem;
  acc_type : ∃ type_elem, find text_elem (cda "type") = Some type_elem ∧
                          text type_elem = Some record_type;
  acc_allowed : record_type ∈ TARGET_TYPES;
  acc_dates : cda_dates elem = Return (start_date, end_date)
}.

(** ** Auxiliary definitions for the further properties *)

(** The header line [line] carries the field [key]: the text before its
    first comma, stripped, is [key]. *)
Definition has_field (key line : string) : Prop :=
  ∃ name text, line = name +:+ "," +:+ text ∧
               Py.contains_char "," name = false ∧ Py.strip name = key.

(** The record the attribute-XML loop builds for an element that passes
    its tests (lines 41-47 and 67-82), before the key is looked up. *)
Definition xml_candidate (elem : Element) : option record :=
  if String.eqb (tag elem) "Record" then
    match get elem "type" with
    | Some record_type =>
        if in_TARGET_TYPES (Some record_type) then
          Some (mkRecord (get_default elem "creationDate" "") (get_default elem "startDate" "")
                         (get_default elem "endDate" "") record_type
                         (Some (get_default elem "value" "")))
        else None
    | None => None
    end
  else if String.eqb (tag elem) "Workout" then Some (workout_record elem)
  else None.

(** The record the clinical-document loop builds for an element that
    passes its tests (lines 118-141). *)
Definition cda_candidate (elem : Element) : option record :=
  if String.eqb (tag elem) (cda "observation") then
    match find elem (cda "text") with
    | Some text_elem =>
        match find text_elem (cda "type") with
        | Some type_elem =>
            match text type_elem with
            | Some record_type =>
                if in_TARGET_TYPES (Some record_type) then
                  let value := match find text_elem (cda "value") with
                               | Some value_elem => text value_elem
                               | None => Some ""
                               end in
                  match cda_dates elem with
                  | Return (start_date, end_date) =>
                      Some (mkRecord start_date start_date end_date record_type value)
                  | Raise _ => None
                  end
                else None
            | None => None
            end
        | None => None
        end
    | None => None
    end
  else None.

(** The record the session-metadata loop builds for a file that can be
    read and has a recorded date (lines 194-212). *)
Definition ecg_candidate (f : text_file) : option record :=
  match read_metadata f with
  | Return metadata =>
      if Py.truthy (default "" (metadata !! "Recorded Date"))
      then Some (ecg_record metadata)
      else None
  | Raise _ => None
  end.

(** [glob.glob] on the pattern of line 190, after CPython's [glob.py]
    and [posixpath.py]. *)
Module Glob.

(** [glob.has_magic]: one of [*], [?] and [[] occurs in the text. *)
Definition has_magic (s : string) : bool :=
  Py.contains_char "*" s || Py.contains_char "?" s || Py.contains_char "[" s.

(** [p.rfind('/') + 1]: the place after the last [/], 0 without one. *)
Fixpoint after_last_sep (p : string) : nat :=
  match p with
  | EmptyString => 0
  | String c p' =>
      match after_last_sep p' with
      | 0 => if Ascii.eqb c "/" then 1 else 0
      | S i => S (S i)
      end
  end.

(** [sep * n] *)
Fixpoint seps (n : nat) : string :=
  match n with
  | 0 => EmptyString
  | S n' => String "/" (seps n')
  end.

(** [os.path.split(p)] *)
Definition split (p : string) : string * string :=
  let i := after_last_sep p in
  let head := Py.slice_to i p in
  let tail := Py.slice_from i p in
  let head :=
    if Py.truthy head && negb (String.eqb head (seps (Py.len head)))
    then Py.rstrip_by (Py.is_char "/") head
    else head in
  (head, tail).

(** What [glob] asks of the file system.  [scandir path] is the content
    of the directory [path] in listing order ([os.scandir]), nothing
    when [path] is not a directory that can be listed; the empty path is
    the current directory.  [expand pattern] lists the directories whose
    path matches [pattern]: the expansion of a directory part that holds
    a magic character ([_iglob] on the directory part, directories
    only), which is left to the file system here. *)
Record file_system : Type := mkFileSystem {
  scandir : string → list (string * text_file);
  expand : string → list string
}.

(** [_ishidden(name)] *)
Definition ishidden (name : string) : bool :=
  match name with
  | String "."%char _ => true
  | _ => false
  end.

(** [_glob1(dirname, 'ecg_*.csv')]: the names of the directory, without
    the hidden ones, that match. *)
Definition glob1 (fs : file_system) (dirname : string) : list (string * text_file) :=
  List.filter (fun '(name, _) => fnmatch_ecg name)
    (List.filter (fun '(name, _) => negb (ishidden name)) (scandir fs dirname)).

(** [glob.glob(os.path.join(ecg_dir, 'ecg_*.csv'))] (line 190), each
    path with the file it names.  The last component of the pattern is
    [ecg_*.csv] whatever [ecg_dir] is, so the pattern always has a magic
    character and its last component is matched by [_glob1]. *)
Definition glob (fs : file_system) (ecg_dir : string) : list (string * text_file) :=
  let pathname := Py.path_join ecg_dir "ecg_*.csv" in
  let dirname := (split pathname).1 in
  let dirs :=
    if negb (String.eqb dirname pathname) && has_magic dirname
    then expand fs dirname
    else [dirname] in
  flat_map
    (fun dirname =>
       map (fun '(name, f) => (Py.path_join dirname name, f)) (glob1 fs dirname))
    dirs.

(** A directory path that [glob] takes as it is: no magic character in
    it, and no [/] at its end for [split] to remove. *)
Definition literal (ecg_dir : string) : Prop :=
  has_magic ecg_dir = false ∧
  String.get (String.length ecg_dir - 1) ecg_dir ≠ Some "/"%char.

End Glob.

(** A file system in which only the session directory of [Sample.fs]
    has entries. *)
Definition sample_file_system : Glob.file_system :=
  Glob.mkFileSystem
    (fun path =>
       if String.eqb path "/home/user/apple_health_export/electrocardiograms"
       then [("ecg_2023-06-16.csv", Sample.ecg_sinus); (".ecg_hidden.csv", Sample.ecg_sinus);
             ("notes.txt", Sample.ecg_sinus); ("ecg_2023-06-17.csv", Sample.ecg_unclassified)]
       else [])
    (fun _ => []).

(** Going through [cands] in order, each record whose key is not in the
    index is appended and its key added. *)
Fixpoint append_unseen (cands : list record) (recs : list record) (seen : gset key)
  : list record * gset key :=
  match cands with
  | [] => (recs, seen)
  | c :: cands' =>
      if bool_decide (key_of c ∈ seen) then append_unseen cands' recs seen
      else append_unseen cands' (recs ++ [c]) ({[ key_of c ]} ∪ seen)
  end.

(** The two shared objects of a state. *)
Definition shared (st : state) : list record * gset key := (records st, seen_keys st).

(** The closing tally of [main] (lines 284-287): how many of the records
    have each type. *)
Definition type_counts (records : list record) : gmap string nat :=
  fold_left
    (fun (type_counts : gmap string nat) r =>
       let t := type r in
       <[ t := default 0 (type_counts !! t) + 1 ]> type_counts)
    records ∅.

(** [sorted(...)] on texts. *)
Fixpoint sorted_insert (x : string) (l : list string) : list string :=
  match l with
  | [] => [x]
  | y :: l' => if String.leb x y then x :: y :: l' else y :: sorted_insert x l'
  end.

Definition sorted (l : list string) : list string := foldr sorted_insert [] l.

(** The lines of the tally (lines 290-291), each a type and its count:
    [for t in sorted(type_counts.keys())] with [type_counts[t]]. *)
Definition tally (records : list record) : list (string * nat) :=
  let type_counts := type_counts records in
  (fun t => (t, default 0 (type_counts !! t))) <$> sorted (map_to_list type_counts).*1.

(** The number of records of type [t]. *)
Definition count_type (t : string) (recs : list record) : nat :=
  length (List.filter (fun rec => String.eqb (type rec) t) recs).

(** * Properties *)

(** ** Date Normalizer *)

Section PyFacts.
Implicit Types (s t : string) (c : ascii) (n : nat).

Lemma slice_to_from n s : Py.slice_to n s +:+ Py.slice_from n s = s.
Proof.
  revert s; induction n as [|n IH]; intros [|c s]; simpl; try reflexivity.
  unfold String.append; simpl; fold String.append. by rewrite IH.
Qed.

Lemma len_slice_to n s : Py.len (Py.slice_to n s) = n `min` Py.len s.
Proof.
  revert s; induction n as [|n IH]; intros [|c s]; simpl; try reflexivity.
  unfold Py.len in *; simpl. by rewrite IH.
Qed.

Lemma slice_from_all n s : Py.len s ≤ n → Py.slice_from n s = "".
Proof.
  revert s; induction n as [|n IH]; intros [|c s]; unfold Py.len; simpl;
    intros; try reflexivity; try lia.
  apply IH. unfold Py.len; lia.
Qed.

Lemma truthy_len s : Py.truthy s = (0 <? Py.len s).
Proof. by destruct s. Qed.

Lemma len_slice_from n s : Py.len (Py.slice_from n s) = Py.len s - n.
Proof.
  revert s; induction n as [|n IH]; intros [|c s]; unfold Py.len in *; simpl;
    try reflexivity; try lia.
  apply IH.
Qed.

Lemma app_empty_r s : s +:+ "" = s.
Proof.
  induction s as [|c s IH]; [reflexivity|].
  unfold String.append; simpl; fold String.append. by rewrite IH.
Qed.

Lemma is_digit_not_space c : Py.is_digit c = true → Py.isspace c = false.
Proof.
  unfold Py.is_digit, Py.isspace. intros H.
  apply andb_true_iff in H as [H1 H2].
  apply N.leb_le in H1, H2. cbv zeta.
  repeat match goal with
         | |- context [(?a <=? ?b)%N] => destruct (N.leb_spec a b)
         | |- context [(?a =? ?b)%N] => destruct (N.eqb_spec a b)
         end; simpl; try reflexivity; lia.
Qed.
End PyFacts.

Section DatetimeFacts.
Import Datetime.

Lemma first_alternative_Some {A} (k : alternative → option A) alts x :
  first_alternative k alts = Some x → ∃ a, a ∈ alts ∧ k a = Some x.
Proof.
  induction alts as [|a alts IH]; simpl; [discriminate|].
  destruct (k a) eqn:Hk.
  - intros [= <-]. exists a. split; [left|done].
  - intros H. destruct (IH H) as (a' & Hin & Hk'). exists a'. split; [by right|done].
Qed.

Lemma match_alternative_sound a s m rest :
  match_alternative a s = Some (m, rest) →
  s = m +:+ rest ∧ String.length m = length a.
Proof.
  revert s m rest; induction a as [|p a IH]; intros s m rest; simpl.
  - intros [= <- <-]. done.
  - destruct s as [|x s]; [discriminate|].
    destruct (p x); [|discriminate].
    destruct (match_alternative a s) as [[m' rest']|] eqn:Hm; [|discriminate].
    intros [= <- <-]. destruct (IH _ _ _ Hm) as [-> Hl].
    split; [reflexivity|]. simpl. by rewrite Hl.
Qed.

(** A match splits the text into its groups and the rest, and every
    group was matched by an alternative of its directive. *)
Lemma regex_match_sound ds s groups rest :
  regex_match ds s = Some (groups, rest) →
  s = fold_right String.append rest groups ∧
  Forall2 (λ g dir, ∃ a, a ∈ dir ∧ String.length g = length a) groups ds.
Proof.
  revert s groups rest; induction ds as [|dir ds IH]; intros s groups rest; simpl.
  - intros [= <- <-]. split; [done|constructor].
  - intros H. apply first_alternative_Some in H as (a & Hin & H).
    destruct (match_alternative a s) as [[m r1]|] eqn:Hm; [|discriminate].
    destruct (regex_match ds r1) as [[gs r2]|] eqn:Hr; [|discriminate].
    injection H as <- <-.
    apply match_alternative_sound in Hm as [-> Hl].
    destruct (IH _ _ _ Hr) as [-> HF].
    split; [reflexivity|]. constructor; [|done]. by exists a.
Qed.

Lemma bind_raises_only_ValueError {A B} (r : result A) (k : A → result B) :
  raises_only_ValueError r →
  (∀ a, raises_only_ValueError (k a)) →
  raises_only_ValueError (r ≫= k).
Proof.
  intros Hr Hk e. destruct r as [a|e']; simpl.
  - apply Hk.
  - intros [= <-]. by apply Hr.
Qed.

Lemma int_raises_only_ValueError g : raises_only_ValueError (Py.int g).
Proof.
  unfold Py.int. intros e.
  destruct (Py.strip g); [intros [= <-]; eauto|].
  destruct (Py.digits_value _ _); [discriminate|intros [= <-]; eauto].
Qed.

Lemma check_date_raises_only_ValueError y m dd :
  raises_only_ValueError (check_date_fields y m dd).
Proof.
  unfold check_date_fields. intros e.
  repeat (destruct (negb _); [intros [= <-]; eauto|]). discriminate.
Qed.

Lemma check_time_raises_only_ValueError h mi s :
  raises_only_ValueError (check_time_fields h mi s).
Proof.
  unfold check_time_fields. intros e.
  repeat (destruct (negb _); [intros [= <-]; eauto|]). discriminate.
Qed.

Lemma strptime_raises_only_ValueError s : raises_only_ValueError (strptime s).
Proof.
  unfold strptime.
  destruct (regex_match format_YmdHMS s) as [[groups rest]|];
    [|intros e [= <-]; eauto].
  destruct (Py.truthy rest); [intros e [= <-]; eauto|].
  destruct groups as [|gY [|gm [|gd [|gH [|gM [|gS [|]]]]]]];
    try (intros e [= <-]; eauto).
  repeat (apply bind_raises_only_ValueError;
          [first [apply int_raises_only_ValueError
                 |apply check_date_raises_only_ValueError
                 |apply check_time_raises_only_ValueError]|intros ?]).
  intros e; discriminate.
Qed.
End DatetimeFacts.

Section DateNormalizer.
Import Datetime.

Lemma format_cda_date_short s : Py.len s < 14 → format_cda_date s = Return s.
Proof.
  intros Hlen. unfold format_cda_date, format_cda_date_try.
  destruct s as [|c s]; [reflexivity|]. cbn [Py.truthy negb].
  destruct (Nat.leb_spec 14 (Py.len (String c s))); [lia|]. reflexivity.
Qed.

Lemma format_cda_date_long s :
  14 ≤ Py.len s →
  format_cda_date s =
    match strptime (Py.slice_to 14 s) with
    | Return dt =>
        let tz := Py.slice_from 14 s in
        Return (if Py.truthy tz then strftime dt +:+ " " +:+ tz else strftime dt)
    | Raise _ => Return s
    end.
Proof.
  intros Hlen. unfold format_cda_date, format_cda_date_try.
  destruct s as [|c s]; [unfold Py.len in Hlen; simpl in Hlen; lia|].
  cbn [Py.truthy negb].
  destruct (Nat.leb_spec 14 (Py.len (String c s))); [|lia].
  assert ((if 14 <? Py.len (String c s) then Py.slice_from 14 (String c s) else "")
          = Py.slice_from 14 (String c s)) as ->.
  { destruct (Nat.ltb_spec 14 (Py.len (String c s))); [done|].
    symmetry. apply slice_from_all. lia. }
  destruct (strptime _) as [dt|e] eqn:Hp; simpl; [reflexivity|].
  destruct (strptime_raises_only_ValueError _ _ Hp) as [msg ->]. reflexivity.
Qed.

Lemma format_cda_date_total s : ∃ out, format_cda_date s = Return out.
Proof.
  destruct (Nat.lt_ge_cases (Py.len s) 14) as [H|H].
  - exists s. by apply format_cda_date_short.
  - rewrite format_cda_date_long by done. destruct (strptime _); eauto.
Qed.
End DateNormalizer.

Section Digits.
Import Datetime.
Implicit Types (a b c : ascii).

Lemma digit_value_lt c : Py.is_digit c = true → (Py.digit_value c < 10)%N.
Proof.
  unfold Py.is_digit, Py.digit_value. intros H.
  apply andb_true_iff in H as [H1%N.leb_le H2%N.leb_le]. lia.
Qed.

Lemma digit_char_value c v :
  Py.is_digit c = true → (v mod 10 = Py.digit_value c)%N → Py.digit_char v = c.
Proof.
  unfold Py.is_digit, Py.digit_value, Py.digit_char. intros H ->.
  apply andb_true_iff in H as [H1%N.leb_le H2%N.leb_le].
  replace (48 + (N_of_ascii c - 48))%N with (N_of_ascii c) by lia.
  apply ascii_N_embedding.
Qed.



Lemma int_digits4 a b c d :
  Py.is_digit a = true → Py.is_digit b = true →
  Py.is_digit c = true → Py.is_digit d = true →
  Py.int (String a (String b (String c (String d "")))) =
    Return (10 * (10 * (10 * (10 * 0 + Py.digit_value a) + Py.digit_value b)
                  + Py.digit_value c) + Py.digit_value d)%N.
Proof.
  intros Ha Hb Hc Hd. unfold Py.int, Py.strip, Py.strip_by. simpl.
  rewrite (is_digit_not_space _ Ha). simpl.
  rewrite (is_digit_not_space _ Hd). simpl.
  by rewrite Ha, Hb, Hc, Hd.
Qed.


End Digits.

Section Decimal.

Lemma N_div_10_lt (n P : N) : (n < 2 * P)%N → (n / 10 < P)%N.
Proof. intros H. zify; Z.to_euclidean_division_equations; lia. Qed.

Lemma N_div_10_pos (n : N) : (10 ≤ n)%N → (0 < n / 10)%N.
Proof. intros H. zify; Z.to_euclidean_division_equations; lia. Qed.

(** More fuel than the binary length of [n] changes nothing. *)
Lemma decimal_digits_enough f n :
  (n < 2 ^ N.of_nat (S f))%N → ∀ f', f ≤ f' →
  Py.decimal_digits (S f') n = Py.decimal_digits (S f) n.
Proof.
  revert n. induction f as [|f IH]; intros n Hn f' Hf'.
  - assert ((n <? 10)%N = true) as Hlt.
    { apply N.ltb_lt. eapply N.lt_trans; [exact Hn|done]. }
    cbn [Py.decimal_digits]. by rewrite Hlt.
  - destruct f' as [|f']; [exfalso; exact (Nat.nle_succ_0 _ Hf')|].
    cbn [Py.decimal_digits]. destruct (N.ltb_spec n 10) as [Hlt|Hge]; [done|].
    f_equal. change (Py.decimal_digits (S f') (n / 10) = Py.decimal_digits (S f) (n / 10)).
    apply IH; [|by apply Nat.succ_le_mono].
    apply N_div_10_lt. by rewrite <- N.pow_succ_r', <- Nat2N.inj_succ.
Qed.

(** The numeral of [n] is the numeral of [n / 10], if there is one,
    followed by the last digit: the fuel is enough. *)
Lemma decimal_unfold n :
  Py.decimal n =
    (if (n <? 10)%N then "" else Py.decimal (n / 10)%N) +:+ String (Py.digit_char n) "".
Proof.
  unfold Py.decimal at 1. cbn [Py.decimal_digits].
  destruct (N.ltb_spec n 10) as [Hlt|Hge]; [done|]. f_equal.
  pose proof (N_div_10_pos n Hge) as Hpos.
  assert (0 < n)%N as Hn by (eapply N.lt_le_trans; [|exact Hge]; done).
  destruct (N.log2_spec n Hn) as [_ Hhi].
  destruct (N.log2_spec (n / 10)%N Hpos) as [_ Hhi'].
  assert (N.log2 (n / 10) < N.log2 n)%N as Hlog.
  { apply N.log2_lt_pow2; [done|]. apply N_div_10_lt. by rewrite <- N.pow_succ_r'. }
  destruct (N.to_nat (N.log2 n)) as [|M] eqn:HM.
  { exfalso. apply (N.nlt_0_r (N.log2 (n / 10))).
    replace 0%N with (N.log2 n); [done|]. apply N2Nat.inj. by rewrite HM. }
  unfold Py.decimal. apply decimal_digits_enough.
  - by rewrite Nat2N.inj_succ, N2Nat.id.
  - apply Nat.succ_le_mono. rewrite <- HM. apply Nat.le_succ_l.
    revert Hlog. generalize (N.log2 (n / 10)) (N.log2 n). clear. intros a b H. lia.
Qed.

Lemma decimal_snoc (p : N) (c : ascii) :
  Py.is_digit c = true →
  Py.decimal (10 * p + Py.digit_value c)
  = (if (p =? 0)%N then "" else Py.decimal p) +:+ String c "".
Proof.
  intros Hc. pose proof (digit_value_lt c Hc) as Hlt.
  rewrite decimal_unfold.
  rewrite (digit_char_value c) by
    (try done; revert Hlt; generalize (Py.digit_value c); clear; intros v Hlt;
     zify; Z.to_euclidean_division_equations; lia).
  replace ((10 * p + Py.digit_value c) / 10)%N with p by
    (revert Hlt; generalize (Py.digit_value c); clear; intros v Hlt;
     zify; Z.to_euclidean_division_equations; lia).
  destruct (N.eqb_spec p 0) as [->|Hp].
  - rewrite N.mul_0_r, N.add_0_l. apply N.ltb_lt in Hlt. by rewrite Hlt.
  - assert ((10 * p + Py.digit_value c <? 10)%N = false) as ->; [|done].
    apply N.ltb_ge. revert Hp. generalize (Py.digit_value c). clear. intros v Hp. lia.
Qed.

Lemma digit_zero_or_positive (c : ascii) :
  Py.is_digit c = true →
  (c = "0"%char ∧ Py.digit_value c = 0%N) ∨
  (Py.is_char "0" c = false ∧ Py.digit_value c ≠ 0%N).
Proof.
  intros Hc. destruct (Ascii.eqb_spec "0" c) as [<-|Hne]; [by left|right].
  split; [by apply Ascii.eqb_neq|].
  unfold Py.is_digit, Py.digit_value in *.
  apply andb_true_iff in Hc as [H1%N.leb_le H2%N.leb_le].
  intros H0. apply Hne. rewrite <- (ascii_N_embedding c).
  replace (N_of_ascii c) with 48%N; [done|].
  revert H1 H0. generalize (N_of_ascii c). clear. intros v H1 H0. lia.
Qed.

(** The numeral of a year given by four digits is these digits without
    their leading zeros. *)
Lemma decimal_digits4 a b c d :
  Py.is_digit a = true → Py.is_digit b = true →
  Py.is_digit c = true → Py.is_digit d = true →
  let v := (10 * (10 * (10 * (10 * 0 + Py.digit_value a) + Py.digit_value b)
                  + Py.digit_value c) + Py.digit_value d)%N in
  (1 ≤ v)%N →
  Py.decimal v = Py.lstrip_by (Py.is_char "0") (four a b c d).
Proof.
  intros Ha Hb Hc Hd v Hv. subst v.
  rewrite !decimal_snoc by done. change (0 =? 0)%N with true. cbv iota.
  unfold four. cbn [Py.lstrip_by].
  destruct (digit_zero_or_positive a Ha) as [[-> Ea]|[-> Ea]].
  - change (Py.is_char "0" "0") with true. cbv iota.
    change (Py.digit_value "0") with 0%N in *. change (10 * 0 + 0)%N with 0%N in *.
    destruct (digit_zero_or_positive b Hb) as [[-> Eb]|[-> Eb]].
    + change (Py.is_char "0" "0") with true. cbv iota.
      change (Py.digit_value "0") with 0%N in *. change (10 * 0 + 0)%N with 0%N in *.
      destruct (digit_zero_or_positive c Hc) as [[-> Ec]|[-> Ec]].
      * change (Py.is_char "0" "0") with true. cbv iota.
        change (Py.digit_value "0") with 0%N in *. change (10 * 0 + 0)%N with 0%N in *.
        change (0 =? 0)%N with true. cbv iota.
        destruct (digit_zero_or_positive d Hd) as [[-> Ed]|[-> Ed]]; [|done].
        exfalso. revert Hv. clear. intros Hv. vm_compute in Hv. by apply Hv.
      * rewrite N.add_0_l. apply N.eqb_neq in Ec. by rewrite Ec.
    + rewrite N.add_0_l.
      assert ((10 * Py.digit_value b + Py.digit_value c =? 0)%N = false) as ->.
      { apply N.eqb_neq. revert Eb. generalize (Py.digit_value b) (Py.digit_value c).
        clear. intros vb vc Eb. lia. }
      apply N.eqb_neq in Eb. by rewrite Eb.
  - rewrite N.add_0_l.
    assert ((10 * Py.digit_value a + Py.digit_value b =? 0)%N = false) as ->.
    { apply N.eqb_neq. revert Ea. generalize (Py.digit_value a) (Py.digit_value b).
      clear. intros va vb Ea. lia. }
    assert ((10 * (10 * Py.digit_value a + Py.digit_value b) + Py.digit_value c =? 0)%N
            = false) as ->.
    { apply N.eqb_neq. revert Ea.
      generalize (Py.digit_value a) (Py.digit_value b) (Py.digit_value c).
      clear. intros va vb vc Ea. lia. }
    apply N.eqb_neq in Ea. by rewrite Ea.
Qed.
End Decimal.

Section FullWidth.
Import Datetime.

Lemma group_length_bounds (g : string) (dir : directive) lo hi :
  (∃ a, a ∈ dir ∧ String.length g = length a) →
  Forall (λ a : alternative, lo ≤ length a ≤ hi) dir →
  lo ≤ String.length g ≤ hi.
Proof.
  intros (a & Hin & ->) HF. by apply (proj1 (Forall_forall _ _) HF).
Qed.

Lemma length_fold_append rest groups :
  String.length (fold_right String.append rest groups)
  = foldr (λ g n, String.length g + n) (String.length rest) groups.
Proof.
  induction groups as [|g groups IH]; simpl; [done|].
  rewrite <- IH. clear IH. generalize (fold_right String.append rest groups).
  intros t. induction g as [|x g IH]; [done|].
  unfold String.append; simpl; fold String.append. by rewrite IH.
Qed.

(** On a text of 14 characters a match that leaves nothing over gives
    every field its full width. *)
Lemma regex_match_full_width c1 c2 c3 c4 c5 c6 c7 c8 c9 c10 c11 c12 c13 c14 groups :
  regex_match format_YmdHMS
    (String c1 (String c2 (String c3 (String c4 (String c5 (String c6 (String c7
    (String c8 (String c9 (String c10 (String c11 (String c12 (String c13
    (String c14 "")))))))))))))) = Some (groups, "") →
  groups = [String c1 (String c2 (String c3 (String c4 "")));
            String c5 (String c6 ""); String c7 (String c8 "");
            String c9 (String c10 ""); String c11 (String c12 "");
            String c13 (String c14 "")].
Proof.
  intros H. apply regex_match_sound in H as [Hs HF].
  unfold format_YmdHMS in HF.
  apply Forall2_cons_inv_r in HF as (gY & l1 & HY & HF & ->).
  apply Forall2_cons_inv_r in HF as (gm & l2 & Hm & HF & ->).
  apply Forall2_cons_inv_r in HF as (gd & l3 & Hd & HF & ->).
  apply Forall2_cons_inv_r in HF as (gH & l4 & HH & HF & ->).
  apply Forall2_cons_inv_r in HF as (gM & l5 & HM & HF & ->).
  apply Forall2_cons_inv_r in HF as (gS & l6 & HS & HF & ->).
  apply Forall2_nil_inv_r in HF as ->.
  apply (group_length_bounds _ _ 4 4) in HY; [|by repeat constructor].
  apply (group_length_bounds _ _ 1 2) in Hm; [|by repeat constructor].
  apply (group_length_bounds _ _ 1 2) in Hd; [|by repeat constructor].
  apply (group_length_bounds _ _ 1 2) in HH; [|by repeat constructor].
  apply (group_length_bounds _ _ 1 2) in HM; [|by repeat constructor].
  apply (group_length_bounds _ _ 1 2) in HS; [|by repeat constructor].
  pose proof (f_equal String.length Hs) as Hl.
  rewrite length_fold_append in Hl. simpl in Hl.
  assert (String.length gY = 4 ∧ String.length gm = 2 ∧ String.length gd = 2 ∧
          String.length gH = 2 ∧ String.length gM = 2 ∧ String.length gS = 2)
    as (EY & Em & Ed & EH & EM & ES) by lia.
  clear HY Hm Hd HH HM HS Hl.
  destruct gY as [|? [|? [|? [|? [|? ?]]]]]; try discriminate EY.
  destruct gm as [|? [|? [|? ?]]]; try discriminate Em.
  destruct gd as [|? [|? [|? ?]]]; try discriminate Ed.
  destruct gH as [|? [|? [|? ?]]]; try discriminate EH.
  destruct gM as [|? [|? [|? ?]]]; try discriminate EM.
  destruct gS as [|? [|? [|? ?]]]; try discriminate ES.
  cbv [fold_right String.append] in Hs. by simplify_eq.
Qed.
End FullWidth.

Section DigitsTheorem.
Import Datetime.

Lemma regex_match_year_digits c1 c2 c3 c4 t x :
  regex_match format_YmdHMS (String c1 (String c2 (String c3 (String c4 t)))) = Some x →
  Forall (λ c, Py.is_digit c = true) [c1; c2; c3; c4].
Proof.
  unfold format_YmdHMS, re_Y.
  cbn [regex_match first_alternative match_alternative]. unfold d.
  destruct (Py.is_digit c1) eqn:H1; [|done]. destruct (Py.is_digit c2) eqn:H2; [|done].
  destruct (Py.is_digit c3) eqn:H3; [|done]. destruct (Py.is_digit c4) eqn:H4; [|done].
  intros _. by repeat (constructor; [assumption|]).
Qed.

Lemma check_date_fields_year y m dd :
  check_date_fields y m dd = Return () → (1 ≤ y)%N ∧ (y ≤ 9999)%N.
Proof.
  unfold check_date_fields.
  destruct (N.leb_spec 1 y), (N.leb_spec y 9999); try discriminate. done.
Qed.

(** The year of a date parsed from 14 characters is the number its
    first four characters spell, and it is printed without their leading
    zeros. *)
Lemma strptime_year c1 c2 c3 c4 c5 c6 c7 c8 c9 c10 c11 c12 c13 c14 dt :
  strptime (String c1 (String c2 (String c3 (String c4 (String c5 (String c6 (String c7
           (String c8 (String c9 (String c10 (String c11 (String c12 (String c13
           (String c14 "")))))))))))))) = Return dt →
  Forall (λ c, Py.is_digit c = true) [c1; c2; c3; c4] ∧
  Py.decimal (year dt) = Py.lstrip_by (Py.is_char "0") (four c1 c2 c3 c4) ∧
  Py.int (two c5 c6) = Return (month dt) ∧ Py.int (two c7 c8) = Return (day dt) ∧
  Py.int (two c9 c10) = Return (hour dt) ∧ Py.int (two c11 c12) = Return (minute dt) ∧
  Py.int (two c13 c14) = Return (second dt).
Proof.
  unfold strptime.
  destruct (regex_match _ _) as [[groups rest]|] eqn:Hre; [|discriminate].
  destruct rest; [|discriminate]. cbn [Py.truthy].
  pose proof (regex_match_year_digits _ _ _ _ _ _ Hre) as Hdigits.
  apply regex_match_full_width in Hre as ->.
  intros Hp. split; [done|].
  apply Forall_cons in Hdigits as [H1 Hdigits]. apply Forall_cons in Hdigits as [H2 Hdigits].
  apply Forall_cons in Hdigits as [H3 Hdigits]. apply Forall_cons in Hdigits as [H4 _].
  rewrite int_digits4 in Hp by done. cbn [mbind result_bind] in Hp.
  fold (two c5 c6) (two c7 c8) (two c9 c10) (two c11 c12) (two c13 c14) in Hp.
  destruct (Py.int (two c5 c6)) as [m|]; [|discriminate]. cbn [mbind result_bind] in Hp.
  destruct (Py.int (two c7 c8)) as [dd|]; [|discriminate]. cbn [mbind result_bind] in Hp.
  destruct (Py.int (two c9 c10)) as [h|]; [|discriminate]. cbn [mbind result_bind] in Hp.
  destruct (Py.int (two c11 c12)) as [mi|]; [|discriminate]. cbn [mbind result_bind] in Hp.
  destruct (Py.int (two c13 c14)) as [s|]; [|discriminate]. cbn [mbind result_bind] in Hp.
  destruct (check_date_fields _ _ _) as [[]|] eqn:Hdate; [|discriminate].
  cbn [mbind result_bind] in Hp.
  destruct (check_time_fields _ _ _); [|discriminate]. cbn [mbind result_bind] in Hp.
  injection Hp as <-. cbn [year month day hour minute second].
  split; [|done].
  apply check_date_fields_year in Hdate as [Hy _]. by apply decimal_digits4.
Qed.

End DigitsTheorem.

(** ** The shared collection and the dedup index *)

Section SharedState.
Implicit Types (st : state) (rec : record) (k : key).

Local Ltac unchanged := eexists _, _; split; [reflexivity|by left].

Lemma records_print m st : records (print m st) = records st.
Proof. reflexivity. Qed.

Lemma seen_keys_print m st : seen_keys (print m st) = seen_keys st.
Proof. reflexivity. Qed.

Lemma records_progress n st : records (progress n st) = records st.
Proof. unfold progress. by destruct (milestone n). Qed.

Lemma seen_keys_progress n st : seen_keys (progress n st) = seen_keys st.
Proof. unfold progress. by destruct (milestone n). Qed.

Lemma progress_rtc n st : rtc step st (progress n st).
Proof.
  unfold progress. destruct (milestone n); [|reflexivity].
  apply rtc_once, step_print.
Qed.

(** One turn of the attribute-XML loop never raises; it leaves the locals
    and the state alone or inserts one unseen key with its record. *)
Lemma parse_export_xml_body_cases elem cnt st :
  ∃ cnt' st',
    parse_export_xml_body elem cnt st = (cnt', st', None) ∧
    ((cnt' = cnt ∧ st' = st) ∨
     (∃ rec, (key_of rec ∉ seen_keys st) ∧
             st' = progress (xc_count cnt') (add_and_append (key_of rec) rec st) ∧
             xc_count cnt' = xc_count cnt + 1)).
Proof.
  unfold parse_export_xml_body.
  destruct (String.eqb (tag elem) "Record").
  - destruct (get elem "type") as [record_type|]; [|unchanged].
    destruct (in_TARGET_TYPES (Some record_type)); [|unchanged].
    case_bool_decide as Hk; [|unchanged].
    eexists _, _; split; [reflexivity|]. right.
    eexists (mkRecord _ _ _ _ _); split; [exact Hk|]. split; reflexivity.
  - destruct (String.eqb (tag elem) "Workout"); [|unchanged].
    case_bool_decide as Hk; [|unchanged].
    eexists _, _; split; [reflexivity|]. right.
    eexists (mkRecord _ _ _ _ _); split; [exact Hk|]. split; reflexivity.
Qed.

Lemma cda_dates_returns elem : ∃ dates, cda_dates elem = Return dates.
Proof.
  unfold cda_dates. destruct (find elem _) as [et|]; [|eauto].
  destruct (find et (cda "low")) as [low|], (find et (cda "high")) as [high|].
  all: repeat match goal with
         | |- context [format_cda_date ?s] =>
             destruct (format_cda_date_total s) as [? ->]
         end; simpl; eauto.
Qed.

Lemma parse_export_cda_xml_body_cases total_count elem cnt st :
  ∃ cnt' st',
    parse_export_cda_xml_body total_count elem cnt st = (cnt', st', None) ∧
    ((cnt' = cnt ∧ st' = st) ∨
     (∃ rec, (key_of rec ∉ seen_keys st) ∧
             st' = progress (total_count + cc_count cnt') (add_and_append (key_of rec) rec st) ∧
             cc_count cnt' = cc_count cnt + 1 ∧
             cc_local_count cnt' = cc_local_count cnt + 1)).
Proof.
  unfold parse_export_cda_xml_body.
  destruct (cda_dates_returns elem) as [[start_date end_date] ->].
  destruct (String.eqb (tag elem) (cda "observation")); [|unchanged].
  destruct (find elem (cda "text")) as [text_elem|]; [|unchanged].
  destruct (find text_elem (cda "type")) as [type_elem|]; [|unchanged].
  destruct (text type_elem) as [record_type|]; [|unchanged].
  destruct (in_TARGET_TYPES (Some record_type)); [|unchanged].
  case_bool_decide as Hk; [|unchanged].
  eexists _, _; split; [reflexivity|]. right.
  eexists (mkRecord _ _ _ _ _); split; [exact Hk|]. repeat split; reflexivity.
Qed.

Lemma parse_ecg_files_body_cases total_count filepath f count st :
  ∃ count' st',
    parse_ecg_files_body total_count filepath f count st = (count', st') ∧
    ((count' = count ∧ (st' = st ∨ ∃ e, st' = print (MsgEcgWarning filepath e) st)) ∨
     (∃ rec, (key_of rec ∉ seen_keys st) ∧
             st' = progress (total_count + count') (add_and_append (key_of rec) rec st) ∧
             count' = count + 1)).
Proof.
  unfold parse_ecg_files_body.
  destruct (read_metadata f) as [metadata|e];
    [|eexists _, _; split; [reflexivity|left; split; [done|right; by exists e]]].
  destruct (Py.truthy _); [|eexists _, _; split; [reflexivity|left; split; [done|by left]]].
  case_bool_decide as Hk;
    [|eexists _, _; split; [reflexivity|left; split; [done|by left]]].
  eexists _, _; split; [reflexivity|]. right.
  eexists (mkRecord _ _ _ _ _); split; [exact Hk|]. split; reflexivity.
Qed.

Lemma step_paired_change st st' : step st st' → paired_change st st'.
Proof.
  destruct 1 as [m st|elem cnt st|total_count elem cnt st|total_count filepath f count st|st].
  - left. done.
  - destruct (parse_export_xml_body_cases elem cnt st)
      as (cnt' & st' & -> & [[_ ->]|(rec & Hk & -> & _)]); [by left|].
    right; left. exists rec. simpl.
    by rewrite records_progress, seen_keys_progress.
  - destruct (parse_export_cda_xml_body_cases total_count elem cnt st)
      as (cnt' & st' & -> & [[_ ->]|(rec & Hk & -> & _)]); [by left|].
    right; left. exists rec. simpl.
    by rewrite records_progress, seen_keys_progress.
  - destruct (parse_ecg_files_body_cases total_count filepath f count st)
      as (count' & st' & -> & [[_ [->|[e ->]]]|(rec & Hk & -> & _)]);
      [by left|by left|].
    right; left. exists rec. simpl.
    by rewrite records_progress, seen_keys_progress.
  - right; right. simpl. split; [|done].
    induction (records st) as [|x l IH]; simpl; [done|].
    rewrite <- IH at 2. clear IH. induction (sort_by_startDate l) as [|y l' IH]; simpl; [done|].
    destruct (String.leb _ _); [done|]. rewrite IH. apply Permutation_swap.
Qed.
End SharedState.

Section Invariant.
Implicit Types (st : state) (rec : record) (k : key).

Lemma initial_consistent : consistent initial.
Proof. split; simpl; [constructor|]. intros k. set_solver. Qed.

Lemma paired_change_consistent st st' :
  paired_change st st' → consistent st → consistent st'.
Proof.
  intros [[Hr Hs]|[(rec & Hk & Hr & Hs)|[Hr Hs]]] [Hnd Hin]; split.
  - by rewrite Hr.
  - intros k. by rewrite Hr, Hs.
  - rewrite Hr, fmap_app. simpl. apply NoDup_app. split; [done|]. split.
    + intros k Hk1 Hk2%list_elem_of_singleton. subst k. by apply Hk, Hin.
    + apply NoDup_singleton.
  - intros k. rewrite Hr, Hs, fmap_app, elem_of_union, elem_of_app, Hin. simpl.
    rewrite elem_of_singleton, list_elem_of_singleton. tauto.
  - by rewrite Hr.
  - intros k. by rewrite Hr, Hs.
Qed.

Lemma rtc_step_consistent st st' : rtc step st st' → consistent st → consistent st'.
Proof.
  induction 1 as [|st st1 st2 Hstep _ IH]; [done|].
  intros H. apply IH. eapply paired_change_consistent; [|done].
  by apply step_paired_change.
Qed.

Lemma reachable_consistent st : reachable st → consistent st.
Proof. intros H. eapply rtc_step_consistent; [exact H|apply initial_consistent]. Qed.


Lemma consistent_size st : consistent st → size (seen_keys st) = length (records st).
Proof.
  intros [Hnd Hin].
  assert (seen_keys st = list_to_set (key_of <$> records st)) as ->.
  { apply set_eq. intros k. by rewrite Hin, elem_of_list_to_set. }
  rewrite size_list_to_set by done. apply length_fmap.
Qed.


End Invariant.

(** ** The three parsers *)

Section Parsers.
Implicit Types (st : state) (rec : record) (k : key).

Lemma records_add_and_append k rec st :
  records (add_and_append k rec st) = records st ++ [rec].
Proof. reflexivity. Qed.

Lemma for_each_parse_export_xml elems cnt st :
  ∃ cnt' st',
    for_each parse_export_xml_body elems cnt st = (cnt', st', None) ∧
    rtc step st st' ∧
    ∃ added, records st' = records st ++ added ∧
             xc_count cnt' = xc_count cnt + length added.
Proof.
  revert cnt st. induction elems as [|elem elems IH]; intros cnt st; simpl.
  - exists cnt, st. split; [done|]. split; [done|]. exists []. by rewrite app_nil_r, Nat.add_0_r.
  - pose proof (step_export_xml elem cnt st) as Hstep.
    destruct (parse_export_xml_body_cases elem cnt st) as (cnt1 & st1 & Hb & Hcases).
    rewrite Hb in Hstep |- *. simpl in Hstep.
    destruct (IH cnt1 st1) as (cnt' & st' & -> & Hrtc & added & Hrec & Hcnt).
    exists cnt', st'. split; [done|]. split; [by eapply rtc_l|].
    destruct Hcases as [[-> ->]|(rec & _ & -> & Hc)]; [by exists added|].
    exists (rec :: added). rewrite Hrec, records_progress, records_add_and_append.
    rewrite <- app_assoc. split; [done|]. rewrite Hcnt, Hc. simpl. lia.
Qed.

Lemma for_each_parse_export_cda_xml total_count elems cnt st :
  ∃ cnt' st',
    for_each (parse_export_cda_xml_body total_count) elems cnt st = (cnt', st', None) ∧
    rtc step st st' ∧
    ∃ added, records st' = records st ++ added ∧
             cc_count cnt' = cc_count cnt + length added ∧
             cc_local_count cnt' = cc_local_count cnt + length added.
Proof.
  revert cnt st. induction elems as [|elem elems IH]; intros cnt st; simpl.
  - exists cnt, st. split; [done|]. split; [done|]. exists [].
    by rewrite app_nil_r, !Nat.add_0_r.
  - pose proof (step_export_cda_xml total_count elem cnt st) as Hstep.
    destruct (parse_export_cda_xml_body_cases total_count elem cnt st)
      as (cnt1 & st1 & Hb & Hcases).
    rewrite Hb in Hstep |- *. simpl in Hstep.
    destruct (IH cnt1 st1) as (cnt' & st' & -> & Hrtc & added & Hrec & Hcnt & Hloc).
    exists cnt', st'. split; [done|]. split; [by eapply rtc_l|].
    destruct Hcases as [[-> ->]|(rec & _ & -> & Hc & Hl)]; [by exists added|].
    exists (rec :: added). rewrite Hrec, records_progress, records_add_and_append.
    rewrite <- app_assoc. split; [done|]. rewrite Hcnt, Hc, Hloc, Hl. simpl. lia.
Qed.

Lemma parse_ecg_files_loop_run total_count ecg_files count st :
  ∃ count' st',
    parse_ecg_files_loop total_count ecg_files count st = (count', st') ∧
    rtc step st st' ∧
    ∃ added, records st' = records st ++ added ∧ count' = count + length added.
Proof.
  revert count st. induction ecg_files as [|[filepath f] ecg_files IH]; intros count st; simpl.
  - exists count, st. split; [done|]. split; [done|]. exists [].
    by rewrite app_nil_r, Nat.add_0_r.
  - pose proof (step_ecg_file total_count filepath f count st) as Hstep.
    destruct (parse_ecg_files_body_cases total_count filepath f count st)
      as (count1 & st1 & Hb & Hcases).
    rewrite Hb in Hstep |- *. simpl in Hstep.
    destruct (IH count1 st1) as (count' & st' & -> & Hrtc & added & Hrec & Hcnt).
    exists count', st'. split; [done|]. split; [by eapply rtc_l|].
    destruct Hcases as [[-> [->|[e ->]]]|(rec & _ & -> & Hc)];
      [by exists added|by exists added|].
    exists (rec :: added). rewrite Hrec, records_progress, records_add_and_append.
    rewrite <- app_assoc. split; [done|]. rewrite Hcnt, Hc. simpl. lia.
Qed.

Lemma parse_export_xml_counts filepath src :
  counts_what_it_adds (parse_export_xml filepath src).
Proof.
  intros st st' r. unfold parse_export_xml, for_iterparse.
  destruct (for_each_parse_export_xml (events src) (mkXmlCounts 0 0 0)
              (print (MsgProcessing filepath) st))
    as (cnt & st1 & -> & Hrtc & added & Hrec & Hcnt).
  assert (rtc step st st1) as Hrtc1 by (eapply rtc_l; [apply step_print|done]).
  destruct (syntax_error src) as [msg|]; intros [= <- <-].
  - split; [done|]. intros n; discriminate.
  - split; [eapply rtc_r; [done|apply step_print]|].
    intros n [= <-]. exists added. by rewrite records_print, Hrec.
Qed.

Lemma parse_export_cda_xml_counts filepath src :
  counts_what_it_adds (parse_export_cda_xml filepath src).
Proof.
  intros st st' r. unfold parse_export_cda_xml, for_iterparse.
  destruct (for_each_parse_export_cda_xml
              (length (records (print (MsgProcessing filepath) st)))
              (events src) (mkCdaCounts 0 0) (print (MsgProcessing filepath) st))
    as (cnt & st1 & -> & Hrtc & added & Hrec & Hcnt & _).
  assert (rtc step st st1) as Hrtc1 by (eapply rtc_l; [apply step_print|done]).
  destruct (syntax_error src) as [msg|]; intros [= <- <-].
  - split.
    + do 3 (eapply rtc_r; [|apply step_print]). done.
    + intros n [= <-]. exists added. by rewrite !records_print, Hrec.
  - split; [eapply rtc_r; [done|apply step_print]|].
    intros n [= <-]. exists added. by rewrite records_print, Hrec.
Qed.

Lemma parse_ecg_files_counts ecg_dir entries :
  counts_what_it_adds (parse_ecg_files ecg_dir entries).
Proof.
  intros st st' r. unfold parse_ecg_files.
  destruct (parse_ecg_files_loop_run
              (length (records (print (MsgProcessingEcg ecg_dir) st)))
              (glob_ecg ecg_dir entries) 0 (print (MsgProcessingEcg ecg_dir) st))
    as (count & st1 & -> & Hrtc & added & Hrec & Hcnt).
  intros [= <- <-]. split.
  - eapply rtc_r; [|apply step_print]. eapply rtc_l; [apply step_print|done].
  - intros n [= <-]. exists added. by rewrite records_print, Hrec.
Qed.

Lemma if_exists_counts {A} path (source : option A) parse :
  (∀ src, counts_what_it_adds (parse path src)) →
  counts_what_it_adds (if_exists path source parse).
Proof.
  intros Hp st st' r. unfold if_exists. destruct source as [src|]; [apply Hp|].
  intros [= <- <-]. split; [apply rtc_once, step_print|].
  intros n [= <-]. exists []. by rewrite app_nil_r.
Qed.
End Parsers.

(** ** The final sort *)

Section Sort.
Implicit Types (rec x y : record) (l : list record).

Lemma startDate_le_refl x : startDate_le x x.
Proof.
  unfold startDate_le. destruct (String.leb_total (startDate x) (startDate x)); done.
Qed.

Lemma startDate_le_trans x y z : startDate_le x y → startDate_le y z → startDate_le x z.
Proof.
  unfold startDate_le. intros H1%Is_true_true H2%Is_true_true. apply Is_true_true.
  exact (transitivity (R := String.le) H1 H2).
Qed.

Lemma startDate_le_total x y : startDate_le x y ∨ startDate_le y x.
Proof. apply String.leb_total. Qed.

Lemma sort_insert_Permutation x l : sort_insert x l ≡ₚ x :: l.
Proof.
  induction l as [|y l IH]; simpl; [done|].
  destruct (String.leb _ _); [done|]. rewrite IH. apply Permutation_swap.
Qed.

Lemma sort_by_startDate_Permutation l : sort_by_startDate l ≡ₚ l.
Proof.
  induction l as [|x l IH]; simpl; [done|]. by rewrite sort_insert_Permutation, IH.
Qed.

Lemma sort_insert_sorted x l :
  StronglySorted startDate_le l → StronglySorted startDate_le (sort_insert x l).
Proof.
  induction 1 as [|y l Hl IH Hy]; simpl.
  - repeat constructor.
  - destruct (String.leb (startDate x) (startDate y)) eqn:Hxy.
    + constructor; [by constructor|]. constructor; [done|].
      eapply Forall_impl; [exact Hy|]. intros z Hz.
      by apply (startDate_le_trans x y z).
    + constructor; [done|].
      assert (startDate_le y x) as Hyx.
      { destruct (startDate_le_total x y) as [H|H]; [|done].
        unfold startDate_le in H. congruence. }
      rewrite sort_insert_Permutation. by constructor.
Qed.

Lemma sort_by_startDate_sorted l : StronglySorted startDate_le (sort_by_startDate l).
Proof.
  induction l as [|x l IH]; simpl; [constructor|]. by apply sort_insert_sorted.
Qed.

Lemma StronglySorted_startDate_lookup l i j x y :
  StronglySorted startDate_le l → i ≤ j →
  l !! i = Some x → l !! j = Some y → startDate_le x y.
Proof.
  intros Hs. revert i j. induction Hs as [|z l Hl IH Hz]; intros i j Hij Hi Hj.
  - by rewrite lookup_nil in Hi.
  - destruct i as [|i], j as [|j]; simpl in *; simplify_eq.
    + apply startDate_le_refl.
    + apply (proj1 (Forall_forall _ _) Hz). by eapply list_elem_of_lookup_2.
    + lia.
    + apply (IH i j); [lia|done..].
Qed.
(** The sort is stable: records with the same [startDate] keep their
    relative order, as they do under Python's [list.sort]. *)
Lemma sort_insert_stable (s : string) x l :
  List.filter (λ rec, String.eqb (startDate rec) s) (sort_insert x l)
  = List.filter (λ rec, String.eqb (startDate rec) s) (x :: l).
Proof.
  induction l as [|y l IH]; [done|]. cbn [sort_insert].
  destruct (String.leb (startDate x) (startDate y)) eqn:Hxy; [done|].
  cbn [List.filter] in *. rewrite IH.
  destruct (String.eqb_spec (startDate x) s) as [Hx|Hx],
           (String.eqb_spec (startDate y) s) as [Hy|Hy]; try done.
  exfalso. rewrite Hx, <- Hy in Hxy.
  pose proof (startDate_le_refl y) as Hrefl. unfold startDate_le in Hrefl. congruence.
Qed.

Lemma sort_by_startDate_stable (s : string) l :
  List.filter (λ rec, String.eqb (startDate rec) s) (sort_by_startDate l)
  = List.filter (λ rec, String.eqb (startDate rec) s) l.
Proof.
  induction l as [|x l IH]; [done|]. cbn [sort_by_startDate].
  rewrite sort_insert_stable. cbn [List.filter]. by rewrite IH.
Qed.
End Sort.

(** ** The driver *)

Section Main.

Lemma main_run fs st out :
  main fs = (st, Return out) →
  ∃ st1 n1 st2 n2 st3 n3,
    if_exists (Py.path_join (base_dir fs) "export.xml") (export_xml fs) parse_export_xml initial
      = (st1, Return n1) ∧
    if_exists (Py.path_join (base_dir fs) "export_cda.xml") (export_cda_xml fs) parse_export_cda_xml st1
      = (st2, Return n2) ∧
    if_exists (Py.path_join (base_dir fs) "electrocardiograms") (electrocardiograms fs) parse_ecg_files st2
      = (st3, Return n3) ∧
    total_count out = n1 + n2 + n3 ∧
    records st = sort_by_startDate (records st3) ∧
    seen_keys st = seen_keys st3 ∧
    full_health_data_csv out = csv_rows (records st) ∧
    rtc step st3 st.
Proof.
  unfold main.
  destruct (if_exists _ (export_xml fs) _ _) as [st1 [n1|e]] eqn:H1; [|discriminate].
  destruct (if_exists _ (export_cda_xml fs) _ _) as [st2 [n2|e]] eqn:H2; [|discriminate].
  destruct (if_exists _ (electrocardiograms fs) _ _) as [st3 [n3|e]] eqn:H3; [|discriminate].
  intros [= <- <-]. exists st1, n1, st2, n2, st3, n3.
  repeat (split; [done|]).
  eapply rtc_r; [|apply step_print]. eapply rtc_r; [|apply step_print].
  eapply rtc_r; [|apply (step_sort (print (MsgSorting (length (records st3))) st3))].
  apply rtc_once, step_print.
Qed.

Lemma main_reachable fs : reachable (main fs).1.
Proof.
  unfold main, reachable.
  destruct (if_exists _ (export_xml fs) _ _) as [st1 r1] eqn:H1.
  apply (if_exists_counts _ _ parse_export_xml (parse_export_xml_counts _)) in H1 as [H1 _].
  destruct r1 as [n1|e]; [|exact H1].
  destruct (if_exists _ (export_cda_xml fs) _ _) as [st2 r2] eqn:H2.
  apply (if_exists_counts _ _ parse_export_cda_xml (parse_export_cda_xml_counts _)) in H2 as [H2 _].
  assert (rtc step initial st2) as H12 by (by etrans).
  destruct r2 as [n2|e]; [|exact H12].
  destruct (if_exists _ (electrocardiograms fs) _ _) as [st3 r3] eqn:H3.
  apply (if_exists_counts _ _ parse_ecg_files (parse_ecg_files_counts _)) in H3 as [H3 _].
  assert (rtc step initial st3) as H123 by (by etrans).
  destruct r3 as [n3|e]; [|exact H123].
  simpl.
  eapply rtc_r; [|apply step_print]. eapply rtc_r; [|apply step_print].
  eapply rtc_r; [|apply (step_sort (print (MsgSorting (length (records st3))) st3))].
  eapply rtc_r; [|apply step_print]. done.
Qed.
End Main.

(** ** The sample run *)

Lemma main_sample_run : main Sample.fs = ((main Sample.fs).1, Return SampleRun.out).
Proof.
  transitivity ((main Sample.fs).1, (main Sample.fs).2); [apply surjective_pairing|].
  refine (f_equal (pair (main Sample.fs).1) (_ : (main Sample.fs).2 = Return SampleRun.out)).
  vm_compute. reflexivity.
Qed.

(** * Main theorems *)

(** C10.  At every point of a run the records and the index are in
    bijection: there are as many records as keys, the key of every record
    is in the index, every key of the index is the key of a record, no
    two records share a key; and a step changes the two objects
    together: it leaves both alone, or adds one unseen key and appends
    its record, or only reorders the records.  The points of a run
    include the state after any number of turns of each parser's loop. *)
Theorem records_index_bijection (st : state) (Hrun : reachable st) :
  length (records st) = size (seen_keys st) ∧
  (∀ rec, rec ∈ records st → key_of rec ∈ seen_keys st) ∧
  (∀ k, k ∈ seen_keys st → ∃ rec, rec ∈ records st ∧ key_of rec = k) ∧
  NoDup (key_of <$> records st) ∧
  (∀ st', step st st' → paired_change st st') ∧
  (∀ elems cnt, reachable (for_each parse_export_xml_body elems cnt st).1.2) ∧
  (∀ total_count elems cnt,
     reachable (for_each (parse_export_cda_xml_body total_count) elems cnt st).1.2) ∧
  (∀ total_count ecg_files count,
     reachable (parse_ecg_files_loop total_count ecg_files count st).2).
Proof.
  pose proof (reachable_consistent st Hrun) as Hc.
  split; [by rewrite consistent_size|]. destruct Hc as [Hnd Hin].
  split; [|split; [|split; [done|split; [|split; [|split]]]]].
  - intros rec Hrec. apply Hin. by apply list_elem_of_fmap_2.
  - intros k Hk. apply Hin in Hk. apply list_elem_of_fmap in Hk as (rec & -> & Hrec).
    by exists rec.
  - apply step_paired_change.
  - intros elems cnt.
    destruct (for_each_parse_export_xml elems cnt st) as (cnt' & st' & -> & Hrtc & _).
    unfold reachable in *. by etrans.
  - intros total_count elems cnt.
    destruct (for_each_parse_export_cda_xml total_count elems cnt st)
      as (cnt' & st' & -> & Hrtc & _).
    unfold reachable in *. by etrans.
  - intros total_count ecg_files count.
    destruct (parse_ecg_files_loop_run total_count ecg_files count st)
      as (count' & st' & -> & Hrtc & _).
    unfold reachable in *. by etrans.
Qed.

Lemma records_index_bijection_witness :
  length (records (main Sample.fs).1) = size (seen_keys (main Sample.fs).1).
Proof.
  exact (proj1 (records_index_bijection (main Sample.fs).1 (main_reachable Sample.fs))).
Defined.






(** C3.  In the file written by a run, the rows after the header are in
    non-decreasing order of their [startDate] cell (the second one),
    compared as texts. *)
Theorem output_sorted_by_startDate (fs : filesystem) (st : state) (out : output)
    (Hrun : main fs = (st, Return out)) :
  ∀ i j row_i row_j,
    1 ≤ i → i ≤ j →
    full_health_data_csv out !! i = Some row_i →
    full_health_data_csv out !! j = Some row_j →
    ∃ start_i start_j,
      row_i !! 1 = Some start_i ∧ row_j !! 1 = Some start_j ∧
      String.leb start_i start_j = true.
Proof.
  destruct (main_run _ _ _ Hrun) as (?&?&?&?&st3&?&_&_&_&_&Hrec&_&Hcsv&_).
  intros i j row_i row_j Hi Hij. rewrite Hcsv. unfold csv_rows.
  destruct i as [|i]; [lia|]. destruct j as [|j]; [lia|]. simpl.
  rewrite !list_lookup_fmap.
  destruct (records st !! i) as [ri|] eqn:Ei; [|discriminate].
  destruct (records st !! j) as [rj|] eqn:Ej; [|discriminate].
  intros [= <-] [= <-]. exists (startDate ri), (startDate rj).
  split; [done|]. split; [done|].
  apply (StronglySorted_startDate_lookup (records st) i j); [|lia|done..].
  rewrite Hrec. apply sort_by_startDate_sorted.
Qed.

Lemma output_sorted_by_startDate_witness :
  ∃ start_i start_j,
    ["2023-06-14 08:05:00 -0500"; "2023-06-14 07:30:00 -0500";
     "2023-06-14 08:00:00 -0500"; "HKWorkoutActivityTypeRunning";
     "duration:30 min; calories:250 Cal"] !! 1 = Some start_i ∧
    ["2023-06-16 09:00:00 +0000"; "2023-06-16 09:00:00 +0000";
     "2023-06-16 09:00:00 +0000"; "ECG"; "Sinus Rhythm"] !! 1 = Some start_j ∧
    String.leb start_i start_j = true.
Proof.
  apply (output_sorted_by_startDate Sample.fs _ SampleRun.out main_sample_run 2 4);
    [lia|lia|reflexivity|reflexivity].
Defined.

(** C4.  Each parser returns the number of records it appended to the
    shared collection during the call; in a run the total is the sum of
    the counts of the three calls (0 for a source that is absent), it is
    the number of records of the final collection and the number of rows
    written after the header. *)
Theorem counts_add_up :
  (∀ filepath src, counts_what_it_adds (parse_export_xml filepath src)) ∧
  (∀ filepath src, counts_what_it_adds (parse_export_cda_xml filepath src)) ∧
  (∀ ecg_dir entries, counts_what_it_adds (parse_ecg_files ecg_dir entries)) ∧
  (∀ fs st out, main fs = (st, Return out) →
     ∃ st1 n1 st2 n2 st3 n3,
       if_exists (Py.path_join (base_dir fs) "export.xml") (export_xml fs)
         parse_export_xml initial = (st1, Return n1) ∧
       if_exists (Py.path_join (base_dir fs) "export_cda.xml") (export_cda_xml fs)
         parse_export_cda_xml st1 = (st2, Return n2) ∧
       if_exists (Py.path_join (base_dir fs) "electrocardiograms") (electrocardiograms fs)
         parse_ecg_files st2 = (st3, Return n3) ∧
       total_count out = n1 + n2 + n3 ∧
       n1 + n2 + n3 = length (records st) ∧
       length (full_health_data_csv out) = S (n1 + n2 + n3)).
Proof.
  split; [exact parse_export_xml_counts|]. split; [exact parse_export_cda_xml_counts|].
  split; [exact parse_ecg_files_counts|].
  intros fs st out Hrun.
  destruct (main_run _ _ _ Hrun) as (st1&n1&st2&n2&st3&n3&H1&H2&H3&Ht&Hrec&_&Hcsv&_).
  exists st1, n1, st2, n2, st3, n3. do 4 (split; [done|]).
  destruct (if_exists_counts _ _ parse_export_xml (parse_export_xml_counts _) _ _ _ H1)
    as [_ Ha1]. destruct (Ha1 n1 eq_refl) as (a1 & Hr1 & Hl1).
  destruct (if_exists_counts _ _ parse_export_cda_xml (parse_export_cda_xml_counts _) _ _ _ H2)
    as [_ Ha2]. destruct (Ha2 n2 eq_refl) as (a2 & Hr2 & Hl2).
  destruct (if_exists_counts _ _ parse_ecg_files (parse_ecg_files_counts _) _ _ _ H3)
    as [_ Ha3]. destruct (Ha3 n3 eq_refl) as (a3 & Hr3 & Hl3).
  assert (length (records st) = n1 + n2 + n3) as Hlen.
  { rewrite Hrec, sort_by_startDate_Permutation, Hr3, Hr2, Hr1. simpl.
    rewrite !length_app. simpl. lia. }
  split; [done|]. rewrite Hcsv. unfold csv_rows. simpl. by rewrite length_fmap, Hlen.
Qed.

Lemma counts_add_up_witness :
  ∃ n1 n2 n3, total_count SampleRun.out = n1 + n2 + n3 ∧
              n1 + n2 + n3 = length (records (main Sample.fs).1).
Proof.
  destruct counts_add_up as (_ & _ & _ & H).
  destruct (H Sample.fs _ SampleRun.out main_sample_run)
    as (_ & n1 & _ & n2 & _ & n3 & _ & _ & _ & Ht & Hl & _).
  exists n1, n2, n3. split; [exact Ht|exact Hl].
Defined.

(** C5.  In the attribute-XML parser a [Record] element whose type is
    not in the allow-list (or is missing) changes nothing: no record, no
    key, no count.  A [Workout] element is never tested against the
    allow-list: unless its key was seen before, its record, with the
    [workoutActivityType] text as type, is appended, its key added and
    the count raised by one. *)
Theorem allow_list_filters_records_not_workouts
    (elem : Element) (cnt : xml_counts) (st : state) :
  (tag elem = "Record" → in_TARGET_TYPES (get elem "type") = false →
   parse_export_xml_body elem cnt st = (cnt, st, None)) ∧
  (tag elem = "Workout" →
   type (workout_record elem) = get_default elem "workoutActivityType" "" ∧
   (key_of (workout_record elem) ∉ seen_keys st →
    ∃ cnt' st',
      parse_export_xml_body elem cnt st = (cnt', st', None) ∧
      records st' = records st ++ [workout_record elem] ∧
      seen_keys st' = {[ key_of (workout_record elem) ]} ∪ seen_keys st ∧
      xc_count cnt' = xc_count cnt + 1 ∧
      xc_workout_count cnt' = xc_workout_count cnt + 1) ∧
   (key_of (workout_record elem) ∈ seen_keys st →
    parse_export_xml_body elem cnt st = (cnt, st, None))).
Proof.
  split.
  - intros Htag Hty. unfold parse_export_xml_body. rewrite Htag.
    change (String.eqb "Record" "Record") with true. cbv iota.
    destruct (get elem "type") as [record_type|]; [|done]. by rewrite Hty.
  - intros Htag. split; [done|]. unfold parse_export_xml_body. rewrite Htag.
    change (String.eqb "Workout" "Record") with false.
    change (String.eqb "Workout" "Workout") with true. cbv iota zeta.
    fold (workout_record elem).
    change (_, _, _, _, Some (workout_value elem)) with (key_of (workout_record elem)).
    split; intros Hk.
    + rewrite bool_decide_true by done. eexists _, _. split; [reflexivity|].
      rewrite records_progress, seen_keys_progress. done.
    + rewrite bool_decide_false; [done|]. by intros H.
Qed.

Lemma allow_list_filters_records_not_workouts_witness :
  parse_export_xml_body Sample.headphone_audio (mkXmlCounts 0 0 0) initial
    = (mkXmlCounts 0 0 0, initial, None) ∧
  ∃ cnt' st',
    parse_export_xml_body Sample.running (mkXmlCounts 0 0 0) initial = (cnt', st', None) ∧
    records st' = records initial ++ [workout_record Sample.running] ∧
    seen_keys st' = {[ key_of (workout_record Sample.running) ]} ∪ seen_keys initial ∧
    xc_count cnt' = 0 + 1 ∧ xc_workout_count cnt' = 0 + 1.
Proof.
  split.
  - apply (proj1 (allow_list_filters_records_not_workouts Sample.headphone_audio _ _));
      vm_compute; reflexivity.
  - destruct (proj2 (allow_list_filters_records_not_workouts
                       Sample.running (mkXmlCounts 0 0 0) initial)) as (_ & H & _).
    + vm_compute; reflexivity.
    + apply H. simpl. apply not_elem_of_empty.
Defined.

(** C6, as stated, fails: a [duration] attribute that is present and
    empty contributes no part, where the statement asks for
    ["duration: min"]. *)
Lemma workout_value_empty_duration_counterexample :
  get Sample.empty_duration "duration" = Some "" ∧
  workout_value_by_presence Sample.empty_duration = "duration: min" ∧
  workout_value Sample.empty_duration = "".
Proof. vm_compute. repeat split; reflexivity. Qed.

(** C6, amended.  The value of a workout has a part
    [duration:<duration> <durationUnit, or min>] when the [duration]
    attribute is present and not empty, and a part
    [calories:<totalEnergyBurned> <totalEnergyBurnedUnit, or Cal>] when
    the [totalEnergyBurned] attribute is present and not empty; two parts
    are joined by ['; '], and the value is empty when there is no part.
    The sample workout gives ["duration:30 min; calories:250 Cal"]. *)
Theorem workout_value_parts (elem : Element) :
  let duration_unit := get_default elem "durationUnit" "min" in
  let energy_unit := get_default elem "totalEnergyBurnedUnit" "Cal" in
  (∀ duration total_energy,
     get elem "duration" = Some duration → duration ≠ "" →
     get elem "totalEnergyBurned" = Some total_energy → total_energy ≠ "" →
     workout_value elem =
       ("duration:" +:+ duration +:+ " " +:+ duration_unit) +:+ "; " +:+
       ("calories:" +:+ total_energy +:+ " " +:+ energy_unit)) ∧
  (∀ duration,
     get elem "duration" = Some duration → duration ≠ "" →
     get_default elem "totalEnergyBurned" "" = "" →
     workout_value elem = "duration:" +:+ duration +:+ " " +:+ duration_unit) ∧
  (∀ total_energy,
     get_default elem "duration" "" = "" →
     get elem "totalEnergyBurned" = Some total_energy → total_energy ≠ "" →
     workout_value elem = "calories:" +:+ total_energy +:+ " " +:+ energy_unit) ∧
  (get_default elem "duration" "" = "" →
   get_default elem "totalEnergyBurned" "" = "" →
   workout_value elem = "") ∧
  workout_value Sample.running = "duration:30 min; calories:250 Cal".
Proof.
  assert (∀ s, s ≠ "" → Py.truthy s = true) as Htruthy by (by intros [|??]).
  unfold workout_value, get_default, get. cbv zeta.
  split; [|split; [|split; [|split]]].
  - intros d e -> Hd -> He. simpl. rewrite !Htruthy by done.
    reflexivity.
  - intros d -> Hd ->. simpl. by rewrite Htruthy.
  - intros e -> -> He. simpl. by rewrite Htruthy.
  - by intros -> ->.
  - vm_compute. reflexivity.
Qed.

Lemma workout_value_parts_witness :
  workout_value Sample.running =
    ("duration:" +:+ "30" +:+ " " +:+ "min") +:+ "; " +:+ ("calories:" +:+ "250" +:+ " " +:+ "Cal").
Proof.
  apply (proj1 (workout_value_parts Sample.running) "30" "250");
    first [vm_compute; reflexivity | discriminate].
Defined.

(** C7.  When the clinical document stops being well formed after the
    loop has accepted N observations, [parse_export_cda_xml] does not
    raise: it prints the two warning lines, keeps the N records the loop
    appended and returns N; [main] then goes on to the session files and
    completes, unless the attribute-XML export itself is not well
    formed. *)
Theorem cda_syntax_error_keeps_partial_results
    (filepath : string) (src : xml_source) (st : state) (e : string)
    (Herr : syntax_error src = Some e) :
  ∃ cnt st1 added,
    for_each (parse_export_cda_xml_body (length (records st))) (events src)
      (mkCdaCounts 0 0) (print (MsgProcessing filepath) st) = (cnt, st1, None) ∧
    records st1 = records st ++ added ∧
    length added = cc_count cnt ∧
    parse_export_cda_xml filepath src st
      = (print (MsgExtractedCda (cc_local_count cnt) filepath)
           (print MsgCdaSameData (print (MsgCdaMalformed e) st1)),
         Return (cc_count cnt)) ∧
    (∀ fs, export_cda_xml fs = Some src →
           (∀ x, export_xml fs = Some x → syntax_error x = None) →
           ∃ st' out, main fs = (st', Return out)).
Proof.
  destruct (for_each_parse_export_cda_xml (length (records st)) (events src)
              (mkCdaCounts 0 0) (print (MsgProcessing filepath) st))
    as (cnt & st1 & Hloop & _ & added & Hrec & Hcnt & _).
  exists cnt, st1, added. split; [done|]. split; [done|]. split; [simpl in Hcnt; lia|].
  split.
  - unfold parse_export_cda_xml, for_iterparse. rewrite records_print, Hloop, Herr. done.
  - intros fs Hcda Hxml. unfold main.
    assert (∃ st1 n1, if_exists (Py.path_join (base_dir fs) "export.xml") (export_xml fs)
                        parse_export_xml initial = (st1, Return n1))
      as (sa & n1 & ->).
    { unfold if_exists. destruct (export_xml fs) as [x|]; [|eauto].
      unfold parse_export_xml, for_iterparse.
      destruct (for_each_parse_export_xml (events x) (mkXmlCounts 0 0 0)
                  (print (MsgProcessing (Py.path_join (base_dir fs) "export.xml")) initial))
        as (c & s & -> & _).
      rewrite (Hxml x eq_refl). eauto. }
    assert (∃ st2 n2, if_exists (Py.path_join (base_dir fs) "export_cda.xml") (export_cda_xml fs)
                        parse_export_cda_xml sa = (st2, Return n2))
      as (sb & n2 & ->).
    { rewrite Hcda. unfold if_exists, parse_export_cda_xml, for_iterparse.
      destruct (for_each_parse_export_cda_xml
                  (length (records (print (MsgProcessing (Py.path_join (base_dir fs) "export_cda.xml")) sa)))
                  (events src) (mkCdaCounts 0 0)
                  (print (MsgProcessing (Py.path_join (base_dir fs) "export_cda.xml")) sa))
        as (c & s & -> & _).
      rewrite Herr. eauto. }
    assert (∃ st3 n3, if_exists (Py.path_join (base_dir fs) "electrocardiograms") (electrocardiograms fs)
                        parse_ecg_files sb = (st3, Return n3))
      as (sc & n3 & ->).
    { unfold if_exists. destruct (electrocardiograms fs) as [entries|]; [|eauto].
      unfold parse_ecg_files. destruct (parse_ecg_files_loop _ _ _ _). eauto. }
    eauto.
Qed.

Lemma cda_syntax_error_keeps_partial_results_witness :
  ∃ st' out, main Sample.fs = (st', Return out).
Proof.
  destruct (cda_syntax_error_keeps_partial_results
              "export_cda.xml" Sample.export_cda_xml initial
              "mismatched tag: line 9, column 2" eq_refl)
    as (_ & _ & _ & _ & _ & _ & _ & H).
  apply H; [reflexivity|]. intros x [= <-]. reflexivity.
Defined.

(** C8, as stated, fails: a header with the line [Recorded Date,] holds
    the recorded-timestamp field, with an empty text, and the parser
    constructs no record for the file. *)
Lemma ecg_empty_recorded_date_counterexample :
  (metadata ← read_metadata Sample.ecg_empty_date;
   mret (metadata !! "Recorded Date", metadata !! "Classification"))
    = Return (Some "", Some "Sinus Rhythm") ∧
  parse_ecg_files_body 0 "ecg_2023-06-18.csv" Sample.ecg_empty_date 0 initial
    = (0, initial).
Proof. split; vm_compute; reflexivity. Qed.

(** C8, amended.  For every session file whose parsed header holds a
    recorded-timestamp field that is not empty, the parser builds the
    record with the three dates equal to that timestamp, type ["ECG"]
    and the classification as value, the empty text when the header has
    no [Classification]; unless its key was seen before, the record is
    appended, its key added and the count raised by one.  A file that
    cannot be opened or read only prints a warning: the loop goes on
    with the remaining files and [parse_ecg_files] never raises. *)
Theorem ecg_record_from_header
    (total_count : nat) (filepath : string) (f : text_file) (count : nat) (st : state)
    (metadata : gmap string string) (recorded_date : string)
    (Hread : read_metadata f = Return metadata)
    (Hdate : metadata !! "Recorded Date" = Some recorded_date)
    (Hne : recorded_date ≠ "") :
  let rec := ecg_record metadata in
  creationDate rec = recorded_date ∧ startDate rec = recorded_date ∧
  endDate rec = recorded_date ∧ type rec = "ECG" ∧
  value rec = Some (default "" (metadata !! "Classification")) ∧
  (metadata !! "Classification" = None → value rec = Some "") ∧
  (key_of rec ∉ seen_keys st →
   ∃ st', parse_ecg_files_body total_count filepath f count st = (count + 1, st') ∧
          records st' = records st ++ [rec] ∧
          seen_keys st' = {[ key_of rec ]} ∪ seen_keys st) ∧
  (key_of rec ∈ seen_keys st →
   parse_ecg_files_body total_count filepath f count st = (count, st)) ∧
  (∀ f' e ecg_files,
     read_metadata f' = Raise e →
     parse_ecg_files_loop total_count ((filepath, f') :: ecg_files) count st
     = parse_ecg_files_loop total_count ecg_files count
         (print (MsgEcgWarning filepath e) st)) ∧
  (∀ ecg_dir entries, ∃ st' n, parse_ecg_files ecg_dir entries st = (st', Return n)).
Proof.
  intros rec. subst rec. unfold ecg_record. rewrite Hdate. simpl.
  do 5 (split; [done|]).
  split; [by intros ->|].
  assert (Py.truthy recorded_date = true) as Ht by (by destruct recorded_date).
  split; [|split; [|split]].
  - intros Hk. unfold parse_ecg_files_body. rewrite Hread, Hdate. simpl. rewrite Ht.
    rewrite bool_decide_true by done. eexists. split; [reflexivity|].
    by rewrite records_progress, seen_keys_progress.
  - intros Hk. unfold parse_ecg_files_body. rewrite Hread, Hdate. simpl. rewrite Ht.
    rewrite bool_decide_false; [done|]. by intros H.
  - intros f' e ecg_files Hf'. simpl. unfold parse_ecg_files_body. by rewrite Hf'.
  - intros ecg_dir entries. unfold parse_ecg_files.
    destruct (parse_ecg_files_loop _ _ _ _). eauto.
Qed.

Lemma ecg_record_from_header_witness :
  ∃ st', parse_ecg_files_body 0 "ecg_2023-06-17.csv" Sample.ecg_unclassified 0 initial
           = (0 + 1, st') ∧
         records st' = [mkRecord "2023-06-17 09:00:00 +0000" "2023-06-17 09:00:00 +0000"
                                 "2023-06-17 09:00:00 +0000" "ECG" (Some "")].
Proof.
  pose (metadata := parse_metadata ["Name,Test"; "Recorded Date,2023-06-17 09:00:00 +0000"]).
  assert (read_metadata Sample.ecg_unclassified = Return metadata) as Hread
    by (vm_compute; reflexivity).
  assert (metadata !! "Recorded Date" = Some "2023-06-17 09:00:00 +0000") as Hdate
    by (vm_compute; reflexivity).
  assert (metadata !! "Classification" = None) as Hclass by (vm_compute; reflexivity).
  destruct (ecg_record_from_header 0 "ecg_2023-06-17.csv" Sample.ecg_unclassified 0 initial
              metadata "2023-06-17 09:00:00 +0000" Hread Hdate)
    as (_ & _ & _ & _ & _ & _ & H & _); [discriminate|].
  destruct H as (st' & Hb & Hr & _); [simpl; apply not_elem_of_empty|].
  exists st'. split; [exact Hb|]. rewrite Hr. unfold ecg_record. by rewrite Hdate, Hclass.
Defined.

Lemma parse_export_cda_xml_body_accepted total_count elem cnt st
    text_elem record_type start_date end_date :
  accepted_observation elem text_elem record_type start_date end_date →
  let value := match find text_elem (cda "value") with
               | Some value_elem => text value_elem
               | None => Some ""
               end in
  let rec := mkRecord start_date start_date end_date record_type value in
  key_of rec ∉ seen_keys st →
  parse_export_cda_xml_body total_count elem cnt st
  = (mkCdaCounts (cc_count cnt + 1) (cc_local_count cnt + 1),
     progress (total_count + (cc_count cnt + 1)) (add_and_append (key_of rec) rec st),
     None).
Proof.
  intros [Htag Htext (type_elem & Htype & Hty) Hallow Hdates] value rec Hk.
  unfold parse_export_cda_xml_body.
  rewrite Htag, String.eqb_refl, Htext, Htype, Hty, Hdates.
  unfold in_TARGET_TYPES. rewrite (bool_decide_true _ Hallow).
  fold value. change (start_date, start_date, end_date, record_type, value) with (key_of rec).
  by rewrite (bool_decide_true _ Hk).
Qed.

(** C9.  In the clinical-document parser an accepted observation whose
    [value] element has no text gets the value [None], the empty text
    being used only when there is no [value] element.  An observation
    with an empty [value] element and one with the same fields and no
    [value] element therefore have different identity keys and are both
    kept, though their rows in the file are the same, with an empty last
    cell. *)
Theorem cda_empty_value_is_None
    (total_count : nat) (cnt : cda_counts) (st : state)
    (elem text_elem value_elem : Element) (record_type start_date end_date : string)
    (Hacc : accepted_observation elem text_elem record_type start_date end_date)
    (Hvalue : find text_elem (cda "value") = Some value_elem)
    (Hempty : text value_elem = None) :
  let with_None := mkRecord start_date start_date end_date record_type None in
  let with_empty := mkRecord start_date start_date end_date record_type (Some "") in
  (key_of with_None ∉ seen_keys st →
   ∃ cnt' st',
     parse_export_cda_xml_body total_count elem cnt st = (cnt', st', None) ∧
     records st' = records st ++ [with_None] ∧
     seen_keys st' = {[ key_of with_None ]} ∪ seen_keys st) ∧
  (∀ elem' text_elem',
     accepted_observation elem' text_elem' record_type start_date end_date →
     find text_elem' (cda "value") = None →
     key_of with_None ∉ seen_keys st → key_of with_empty ∉ seen_keys st →
     ∃ cnt' st',
       for_each (parse_export_cda_xml_body total_count) [elem; elem'] cnt st
         = (cnt', st', None) ∧
       records st' = records st ++ [with_None; with_empty] ∧
       cc_count cnt' = cc_count cnt + 2) ∧
  key_of with_None ≠ key_of with_empty ∧
  csv_row with_None = csv_row with_empty ∧
  csv_cell (value with_None) = "".
Proof.
  intros with_None with_empty.
  pose proof (parse_export_cda_xml_body_accepted total_count elem cnt st _ _ _ _ Hacc) as Hb.
  rewrite Hvalue, Hempty in Hb. cbv zeta in Hb. fold with_None in Hb.
  split; [|split; [|split; [|split]]]; [| |done..].
  - intros Hk. rewrite (Hb Hk). eexists _, _. split; [reflexivity|].
    by rewrite records_progress, seen_keys_progress.
  - intros elem' text_elem' Hacc' Hvalue' Hk Hk'. simpl. rewrite (Hb Hk).
    pose proof (parse_export_cda_xml_body_accepted total_count elem'
                  (mkCdaCounts (cc_count cnt + 1) (cc_local_count cnt + 1))
                  (progress (total_count + (cc_count cnt + 1))
                     (add_and_append (key_of with_None) with_None st))
                  _ _ _ _ Hacc') as Hb'.
    rewrite Hvalue' in Hb'. cbv zeta in Hb'. fold with_empty in Hb'.
    rewrite Hb'.
    + eexists _, _. split; [reflexivity|].
      rewrite records_progress, records_add_and_append, records_progress,
        records_add_and_append, <- app_assoc. simpl. split; [done|lia].
    + rewrite seen_keys_progress. simpl. rewrite not_elem_of_union, not_elem_of_singleton.
      split; [|done]. intros [=].
Qed.

Lemma cda_empty_value_is_None_witness :
  ∃ cnt' st',
    for_each (parse_export_cda_xml_body 0) [Sample.cda_empty_value; Sample.cda_no_value]
      (mkCdaCounts 0 0) initial = (cnt', st', None) ∧
    records st' = records initial ++
      [mkRecord "2023-06-15 15:00:00 -0500" "2023-06-15 15:00:00 -0500"
                "2023-06-15 15:00:00 -0500" "HKQuantityTypeIdentifierHeartRate" None;
       mkRecord "2023-06-15 15:00:00 -0500" "2023-06-15 15:00:00 -0500"
                "2023-06-15 15:00:00 -0500" "HKQuantityTypeIdentifierHeartRate" (Some "")] ∧
    cc_count cnt' = 0 + 2.
Proof.
  assert (∀ text_children text_elem,
            text_elem = Sample.element (cda "text") [] None
                          (Sample.type_elem "HKQuantityTypeIdentifierHeartRate" :: text_children) →
            accepted_observation
              (Sample.observation
                 (Sample.type_elem "HKQuantityTypeIdentifierHeartRate" :: text_children)
                 "20230615150000-0500" "20230615150000-0500")
              text_elem "HKQuantityTypeIdentifierHeartRate"
              "2023-06-15 15:00:00 -0500" "2023-06-15 15:00:00 -0500") as Hacc.
  { intros text_children text_elem ->. split.
    - reflexivity.
    - reflexivity.
    - exists (Sample.type_elem "HKQuantityTypeIdentifierHeartRate"). split; reflexivity.
    - refine (bool_decide_unpack _ _). vm_compute. exact I.
    - vm_compute. reflexivity. }
  destruct (cda_empty_value_is_None 0 (mkCdaCounts 0 0) initial
              Sample.cda_empty_value _ Sample.empty_value_elem _ _ _
              (Hacc [Sample.empty_value_elem] _ eq_refl) eq_refl eq_refl)
    as (_ & H & _).
  apply (H Sample.cda_no_value _ (Hacc [] _ eq_refl) eq_refl);
    simpl; apply not_elem_of_empty.
Defined.

(** * Further properties *)

(** ** The date normalizer on its own results *)

Lemma zfill_2_chars n : ∃ a b, Py.zfill 2 n = two a b.
Proof. by eexists _, _. Qed.

Lemma length_append (s t : string) :
  String.length (s +:+ t) = String.length s + String.length t.
Proof.
  induction s as [|x s IH]; [done|].
  unfold String.append; simpl; fold String.append. by rewrite IH.
Qed.

Lemma append_assoc (s t u : string) : (s +:+ t) +:+ u = s +:+ (t +:+ u).
Proof.
  induction s as [|x s IH]; [done|].
  unfold String.append; simpl; fold String.append. by rewrite IH.
Qed.

Lemma length_lstrip_by p (s : string) :
  String.length (Py.lstrip_by p s) ≤ String.length s.
Proof.
  induction s as [|x s IH]; [done|]. cbn [Py.lstrip_by].
  destruct (p x); cbn [String.length]; [|done]. by apply Nat.le_le_succ_r.
Qed.

Lemma decimal_nonempty n : 1 ≤ String.length (Py.decimal n).
Proof.
  rewrite decimal_unfold, length_append. cbn [String.length].
  rewrite Nat.add_1_r. apply le_n_S, Nat.le_0_l.
Qed.

Lemma slice_to_append_short (ys t : string) n :
  String.length ys ≤ n →
  Py.slice_to n (ys +:+ t) = ys +:+ Py.slice_to (n - String.length ys) t.
Proof.
  revert n. induction ys as [|x ys IH]; intros n Hlen.
  - by rewrite Nat.sub_0_r.
  - destruct n as [|n]; [by apply Nat.nle_succ_0 in Hlen|].
    unfold String.append; simpl; fold String.append.
    rewrite IH; [done|]. by apply Nat.succ_le_mono.
Qed.

(** A text of 14 characters or more, character by character. *)
Lemma first_14_chars (s : string) :
  14 ≤ Py.len s →
  ∃ c1 c2 c3 c4 c5 c6 c7 c8 c9 c10 c11 c12 c13 c14 t,
    s = String c1 (String c2 (String c3 (String c4 (String c5 (String c6 (String c7
        (String c8 (String c9 (String c10 (String c11 (String c12 (String c13
        (String c14 t))))))))))))).
Proof.
  unfold Py.len. intros Hlen.
  do 14 (destruct s as [|? s]; [exfalso; cbn [String.length] in Hlen; clear -Hlen; lia|]).
  by eexists _, _, _, _, _, _, _, _, _, _, _, _, _, _, _.
Qed.

(** The date printed for 14 characters that parse: the year is the first
    four characters without their leading zeros, every other field has
    two characters. *)
Lemma strftime_parsed c1 c2 c3 c4 c5 c6 c7 c8 c9 c10 c11 c12 c13 c14 dt :
  Datetime.strptime
    (String c1 (String c2 (String c3 (String c4 (String c5 (String c6 (String c7
    (String c8 (String c9 (String c10 (String c11 (String c12 (String c13
    (String c14 "")))))))))))))) = Return dt →
  let year := Py.lstrip_by (Py.is_char "0") (four c1 c2 c3 c4) in
  1 ≤ String.length year ∧ String.length year ≤ 4 ∧
  ∃ m1 m2 d1 d2 h1 h2 n1 n2 s1 s2,
    Datetime.strftime dt =
      year +:+ "-" +:+ two m1 m2 +:+ "-" +:+ two d1 d2 +:+ " " +:+
      two h1 h2 +:+ ":" +:+ two n1 n2 +:+ ":" +:+ two s1 s2.
Proof.
  intros (_ & Hy & _)%strptime_year year. subst year.
  split; [rewrite <- Hy; apply decimal_nonempty|].
  split; [apply (length_lstrip_by _ (four c1 c2 c3 c4))|].
  unfold Datetime.strftime. rewrite Hy.
  destruct (zfill_2_chars (Datetime.month dt)) as (m1 & m2 & ->).
  destruct (zfill_2_chars (Datetime.day dt)) as (d1 & d2 & ->).
  destruct (zfill_2_chars (Datetime.hour dt)) as (h1 & h2 & ->).
  destruct (zfill_2_chars (Datetime.minute dt)) as (n1 & n2 & ->).
  destruct (zfill_2_chars (Datetime.second dt)) as (s1 & s2 & ->).
  by eexists _, _, _, _, _, _, _, _, _, _.
Qed.

(** No text with a dash among its first five characters, digits before
    it or not, matches the format. *)
Lemma regex_match_early_dash (ys t : string) :
  String.length ys ≤ 4 →
  Datetime.regex_match Datetime.format_YmdHMS (ys +:+ String "-" t) = None.
Proof.
  intros Hlen.
  destruct ys as [|a [|b [|c [|d [|e ys]]]]];
    [..|exfalso; cbn [String.length] in Hlen; clear -Hlen; lia].
  all: unfold String.append, Datetime.format_YmdHMS, Datetime.re_Y.
  all: cbn [Datetime.regex_match Datetime.first_alternative Datetime.match_alternative].
  all: repeat match goal with
              | |- context [Datetime.d ?x] => is_var x; destruct (Datetime.d x)
              end; reflexivity.
Qed.

(** Such a text is returned as it is. *)
Lemma format_cda_date_early_dash (ys t : string) :
  String.length ys ≤ 4 →
  format_cda_date (ys +:+ String "-" t) = Return (ys +:+ String "-" t).
Proof.
  intros Hlen.
  destruct (Nat.lt_ge_cases (Py.len (ys +:+ String "-" t)) 14) as [Hshort|Hlong];
    [by apply format_cda_date_short|].
  rewrite (format_cda_date_long _ Hlong).
  rewrite slice_to_append_short by (by etrans; [exact Hlen|repeat constructor]).
  replace (14 - String.length ys) with (S (13 - String.length ys))
    by (symmetry; apply Nat.sub_succ_l; etrans; [exact Hlen|repeat constructor]).
  cbn [Py.slice_to]. unfold Datetime.strptime.
  by rewrite regex_match_early_dash.
Qed.

(** X1.  Normalizing a date twice is the same as normalizing it once:
    [format_cda_date] leaves each of its results unchanged. *)
Theorem format_cda_date_idempotent (date_str : string) :
  format_cda_date date_str ≫= format_cda_date = format_cda_date date_str.
Proof.
  destruct (Nat.lt_ge_cases (Py.len date_str) 14) as [Hlen|Hlen].
  - rewrite (format_cda_date_short _ Hlen). simpl. by apply format_cda_date_short.
  - rewrite (format_cda_date_long _ Hlen).
    destruct (Datetime.strptime (Py.slice_to 14 date_str)) as [dt|e] eqn:Hp;
      cbn [mbind result_bind]; cbv zeta;
      [|by rewrite (format_cda_date_long _ Hlen), Hp].
    destruct (first_14_chars _ Hlen)
      as (c1 & c2 & c3 & c4 & c5 & c6 & c7 & c8 & c9 & c10 & c11 & c12 & c13 & c14 & t & ->).
    cbn [Py.slice_to] in Hp. cbn [Py.slice_from].
    destruct (strftime_parsed _ _ _ _ _ _ _ _ _ _ _ _ _ _ _ Hp)
      as (_ & Hyear & m1 & m2 & d1 & d2 & h1 & h2 & n1 & n2 & s1 & s2 & ->).
    destruct (Py.truthy t).
    + rewrite append_assoc. by apply format_cda_date_early_dash.
    + by apply format_cda_date_early_dash.
Qed.

(** X2.  [format_cda_date] either returns its argument unchanged or a
    year followed by the rest of the date.  The year is the first four
    characters of the argument without their leading zeros: one to four
    digits, all four when the argument does not start with [0].  The
    rest has [-] in places 0 and 3, a space in place 6 and [:] in places
    9 and 12, and from place 16 on the characters of the argument after
    its first 14, which a space in place 15 sets off when there are
    any. *)
Theorem format_cda_date_layout (date_str : string) :
  ∃ out,
    format_cda_date date_str = Return out ∧
    (out = date_str ∨
     ∃ year rest,
       out = year +:+ rest ∧
       year = Py.lstrip_by (Py.is_char "0") (Py.slice_to 4 date_str) ∧
       1 ≤ String.length year ∧ String.length year ≤ 4 ∧
       (String.get 0 date_str ≠ Some "0"%char → year = Py.slice_to 4 date_str) ∧
       String.length rest
         = String.length date_str + (if 14 <? Py.len date_str then 2 else 1) ∧
       String.get 0 rest = Some "-"%char ∧ String.get 3 rest = Some "-"%char ∧
       String.get 6 rest = Some " "%char ∧
       String.get 9 rest = Some ":"%char ∧ String.get 12 rest = Some ":"%char ∧
       Py.slice_from 16 rest = Py.slice_from 14 date_str).
Proof.
  destruct (Nat.lt_ge_cases (Py.len date_str) 14) as [Hlen|Hlen].
  { exists date_str. split; [by apply format_cda_date_short|by left]. }
  rewrite (format_cda_date_long _ Hlen).
  destruct (Datetime.strptime (Py.slice_to 14 date_str)) as [dt|e] eqn:Hp;
    [|exists date_str; split; [done|by left]].
  eexists. split; [reflexivity|]. right. cbv zeta.
  destruct (first_14_chars _ Hlen)
    as (c1 & c2 & c3 & c4 & c5 & c6 & c7 & c8 & c9 & c10 & c11 & c12 & c13 & c14 & t & ->).
  cbn [Py.slice_to] in Hp. cbn [Py.slice_from Py.slice_to String.get].
  fold (four c1 c2 c3 c4).
  destruct (strftime_parsed _ _ _ _ _ _ _ _ _ _ _ _ _ _ _ Hp)
    as (Hyear1 & Hyear4 & m1 & m2 & d1 & d2 & h1 & h2 & n1 & n2 & s1 & s2 & ->).
  assert (Some c1 ≠ Some "0"%char →
          Py.lstrip_by (Py.is_char "0") (four c1 c2 c3 c4) = four c1 c2 c3 c4) as Hfull.
  { intros Hc1. unfold four. cbn [Py.lstrip_by]. unfold Py.is_char.
    by rewrite (proj2 (Ascii.eqb_neq "0" c1)) by (by intros <-). }
  unfold Py.len. cbn [String.length].
  destruct t as [|x t]; cbn [Py.truthy].
  - eexists _, _. split; [reflexivity|]. repeat split; done.
  - eexists _, _. split; [apply append_assoc|]. repeat split; try done.
    rewrite !length_append. unfold two. cbn [String.length].
    generalize (String.length t). clear. intros n.
    match goal with |- context [14 <? ?m] => destruct (Nat.ltb_spec 14 m) end; lia.
Qed.

Lemma format_cda_date_layout_witness :
  ∃ year rest,
    format_cda_date "20240229235959+0100" = Return (year +:+ rest) ∧
    year = "2024" ∧ Py.slice_from 16 rest = "+0100".
Proof.
  destruct (format_cda_date_layout "20240229235959+0100")
    as (out & Hout & [Hsame|(year & rest & -> & _ & _ & _ & Hfull & _ & _ & _ & _ & _ & _ & Hrest)]).
  - exfalso. rewrite Hsame in Hout. vm_compute in Hout. discriminate Hout.
  - exists year, rest. split; [exact Hout|]. split; [apply Hfull; discriminate|exact Hrest].
Defined.

(** ** The header of a session file *)

Lemma read_header_from i f_lines err lines :
  i ≤ 10 →
  read_header i f_lines err lines =
    if 11 - i <=? length f_lines
    then Return (lines ++ (Py.strip <$> take (11 - i) f_lines))
    else match err with
         | Some e => Raise e
         | None => Return (lines ++ (Py.strip <$> f_lines))
         end.
Proof.
  revert i lines. induction f_lines as [|line f_lines IH]; intros i lines Hi.
  - simpl. destruct (Nat.leb_spec (11 - i) 0); [lia|]. by rewrite app_nil_r.
  - cbn [read_header length].
    destruct (Nat.leb_spec 10 i) as [H10|H10].
    + assert (i = 10) as -> by lia. simpl. done.
    + rewrite IH by lia.
      replace (11 - i) with (S (11 - S i)) by lia. cbn [take fmap list_fmap].
      destruct (Nat.leb_spec (11 - S i) (length f_lines)),
               (Nat.leb_spec (S (11 - S i)) (S (length f_lines))); try lia.
      * by rewrite <- app_assoc.
      * destruct err; [done|]. by rewrite <- app_assoc.
Qed.

(** X3.  Only the first 11 lines that a session file delivers are
    used.  Once the file has delivered 11 lines the header is built from
    these lines alone and the file is not read further: the lines that
    would follow, and an error that a later read would raise, have no
    effect.  A file that delivers fewer lines gives the header of all of
    them, or the error of the read that follows them; a file that does
    not open gives its error. *)
Theorem read_metadata_first_11_lines (f : text_file) :
  read_metadata f =
    match open_error f with
    | Some e => Raise e
    | None =>
        if 11 <=? length (file_lines f)
        then Return (parse_metadata (Py.strip <$> take 11 (file_lines f)))
        else match read_error f with
             | Some e => Raise e
             | None => Return (parse_metadata (Py.strip <$> file_lines f))
             end
    end ∧
  ∀ lines rest err,
    length lines = 11 →
    read_metadata (mkFile None (lines ++ rest) err)
    = Return (parse_metadata (Py.strip <$> lines)).
Proof.
  split.
  - unfold read_metadata. destruct (open_error f); [done|].
    rewrite read_header_from by lia. change (11 - 0) with 11.
    destruct (11 <=? length (file_lines f)); [done|]. by destruct (read_error f).
  - intros lines rest err Hlen. unfold read_metadata. simpl.
    rewrite read_header_from by lia. change (11 - 0) with 11.
    rewrite length_app. destruct (Nat.leb_spec 11 (length lines + length rest)); [|lia].
    by rewrite take_app_length' by done.
Qed.

(** A recording of 2000 samples after its header, of which a later
    block cannot be decoded: the header is read all the same. *)
Lemma read_metadata_first_11_lines_witness :
  read_metadata
    (mkFile None
       (["Name,Test"; "Date of Birth,1990"; "Recorded Date,2023-06-16 09:00:00 +0000";
         "Classification,Sinus Rhythm"; "Symptoms,"; "Software Version,9.5";
         "Device,Watch"; "Sample Rate,512 hertz"; ""; ""; "Lead,Lead I"] ++
        ("Unit,uV" :: replicate 2000 "-12.345"))
       (Some (UnicodeDecodeError "invalid start byte")))
  = Return (parse_metadata
              (Py.strip <$>
               ["Name,Test"; "Date of Birth,1990"; "Recorded Date,2023-06-16 09:00:00 +0000";
                "Classification,Sinus Rhythm"; "Symptoms,"; "Software Version,9.5";
                "Device,Watch"; "Sample Rate,512 hertz"; ""; ""; "Lead,Lead I"])).
Proof.
  apply (proj2 (read_metadata_first_11_lines (mkFile None [] None))). reflexivity.
Defined.

Lemma contains_char_append sep (k v : string) :
  Py.contains_char sep (k +:+ v) = Py.contains_char sep k || Py.contains_char sep v.
Proof.
  induction k as [|x k IH]; [done|].
  unfold String.append; simpl; fold String.append. rewrite IH. by rewrite orb_assoc.
Qed.

(** Splitting cuts a text at the first separator. *)
Lemma split1_first sep (k v : string) :
  Py.contains_char sep k = false → Py.split1 sep (k +:+ String sep v) = [k; v].
Proof.
  induction k as [|x k IH]; intros Hk.
  - unfold String.append. simpl. by rewrite Ascii.eqb_refl.
  - simpl in Hk. apply orb_false_iff in Hk as [Hx Hk].
    unfold String.append; simpl; fold String.append. rewrite Hx. by rewrite IH.
Qed.

Lemma contains_char_split sep (s : string) :
  Py.contains_char sep s = true →
  ∃ k v, s = k +:+ String sep v ∧ Py.contains_char sep k = false.
Proof.
  induction s as [|x s IH]; [done|]. simpl.
  destruct (Ascii.eqb_spec sep x) as [->|Hne]; simpl.
  - intros _. by exists "", s.
  - intros (k & v & -> & Hk)%IH. exists (String x k), v. split; [done|].
    simpl. rewrite Hk. by destruct (Ascii.eqb_spec sep x).
Qed.

Lemma parse_metadata_snoc lines line :
  parse_metadata (lines ++ [line]) =
    if Py.contains_char "," line then
      match Py.split1 "," line with
      | [part0; part1] =>
          <[ Py.strip part0 := Py.strip_chars dquote (Py.strip part1) ]> (parse_metadata lines)
      | _ => parse_metadata lines
      end
    else parse_metadata lines.
Proof. unfold parse_metadata. by rewrite fold_left_app. Qed.

Lemma parse_metadata_line_facts lines :
  (∀ name text,
     Py.contains_char "," name = false →
     parse_metadata (lines ++ [name +:+ "," +:+ text])
     = <[ Py.strip name := Py.strip_chars dquote (Py.strip text) ]> (parse_metadata lines)) ∧
  (∀ line,
     Py.contains_char "," line = false →
     parse_metadata (lines ++ [line]) = parse_metadata lines).
Proof.
  split.
  - intros name text Hname. rewrite parse_metadata_snoc.
    change (name +:+ "," +:+ text) with (name +:+ String "," text).
    rewrite contains_char_append, Hname, split1_first by done. reflexivity.
  - intros line Hline. by rewrite parse_metadata_snoc, Hline.
Qed.

(** X4.  A header line is cut at its first comma: the text before it,
    stripped of white space, is the field name, and the text after it,
    further commas included, stripped of white space and then of double
    quotes at both ends, is the value.  Every line with a comma is of this
    form, and a line without a comma adds nothing. *)
Theorem parse_metadata_line (lines : list string) :
  (∀ name text,
     Py.contains_char "," name = false →
     parse_metadata (lines ++ [name +:+ "," +:+ text])
     = <[ Py.strip name := Py.strip_chars dquote (Py.strip text) ]> (parse_metadata lines)) ∧
  (∀ line,
     Py.contains_char "," line = true →
     ∃ name text, line = name +:+ "," +:+ text ∧ Py.contains_char "," name = false) ∧
  (∀ line,
     Py.contains_char "," line = false →
     parse_metadata (lines ++ [line]) = parse_metadata lines).
Proof.
  split; [|split].
  - apply parse_metadata_line_facts.
  - intros line Hline. apply contains_char_split in Hline as (k & v & -> & Hk).
    by exists k, v.
  - apply parse_metadata_line_facts.
Qed.

Lemma parse_metadata_line_witness :
  parse_metadata (["Name,Test"] ++ ["Recorded Date" +:+ "," +:+ "2023-06-17, 09:00"])
  = <[ Py.strip "Recorded Date" := Py.strip_chars dquote (Py.strip "2023-06-17, 09:00") ]>
      (parse_metadata ["Name,Test"]).
Proof. apply (proj1 (parse_metadata_line ["Name,Test"])). reflexivity. Defined.

Lemma parse_metadata_snoc_other key lines line :
  ¬ has_field key line →
  parse_metadata (lines ++ [line]) !! key = parse_metadata lines !! key.
Proof.
  intros Hno. destruct (Py.contains_char "," line) eqn:Hc.
  - destruct (contains_char_split _ _ Hc) as (name & text & -> & Hname).
    change (name +:+ String "," text) with (name +:+ "," +:+ text).
    rewrite (proj1 (parse_metadata_line_facts lines)) by done.
    apply lookup_insert_ne. intros Hk. apply Hno. by exists name, text.
  - by rewrite (proj2 (parse_metadata_line_facts lines)).
Qed.

Lemma parse_metadata_app_other key lines lines2 :
  (∀ line, line ∈ lines2 → ¬ has_field key line) →
  parse_metadata (lines ++ lines2) !! key = parse_metadata lines !! key.
Proof.
  induction lines2 as [|line lines2 IH] using rev_ind; intros Hno.
  - by rewrite app_nil_r.
  - rewrite app_assoc, parse_metadata_snoc_other.
    + apply IH. intros l Hl. apply Hno. apply elem_of_app. by left.
    + apply Hno. apply elem_of_app. right. by apply list_elem_of_singleton.
Qed.

(** X5.  The header is a dictionary: the value of a field is the one of
    the last line that carries the field, and a field that no line
    carries is absent, so that [metadata.get] gives its default. *)
Theorem parse_metadata_lookup (key : string) :
  (∀ lines,
     (∀ line, line ∈ lines → ¬ has_field key line) →
     parse_metadata lines !! key = None) ∧
  (∀ lines1 name text lines2,
     Py.contains_char "," name = false → Py.strip name = key →
     (∀ line, line ∈ lines2 → ¬ has_field key line) →
     parse_metadata (lines1 ++ (name +:+ "," +:+ text) :: lines2) !! key
     = Some (Py.strip_chars dquote (Py.strip text))).
Proof.
  split.
  - intros lines Hno. exact (parse_metadata_app_other key [] lines Hno).
  - intros lines1 name text lines2 Hname Hkey Hno.
    change (lines1 ++ (name +:+ "," +:+ text) :: lines2)
      with (lines1 ++ [name +:+ "," +:+ text] ++ lines2).
    rewrite app_assoc.
    rewrite parse_metadata_app_other by done.
    rewrite (proj1 (parse_metadata_line_facts lines1)) by done.
    rewrite Hkey. apply lookup_insert_eq.
Qed.

Lemma has_field_split1 key line name text :
  Py.split1 "," line = [name; text] → has_field key line → Py.strip name = key.
Proof.
  intros Hs (name' & text' & -> & Hname & Hkey).
  change (name' +:+ "," +:+ text') with (name' +:+ String "," text') in Hs.
  rewrite split1_first in Hs by done. by simplify_eq.
Qed.

Lemma parse_metadata_lookup_witness :
  parse_metadata (["Recorded Date,2001-01-01"] ++
                  ("Recorded Date " +:+ "," +:+ " 2023-06-17 09:00:00 +0000") ::
                  ["Device,Watch"]) !! "Recorded Date"
  = Some (Py.strip_chars dquote (Py.strip " 2023-06-17 09:00:00 +0000")).
Proof.
  apply (proj2 (parse_metadata_lookup "Recorded Date")); [reflexivity|reflexivity|].
  intros line ->%list_elem_of_singleton Hf.
  apply (has_field_split1 _ _ "Device" "Watch") in Hf; [discriminate|reflexivity].
Defined.

(** ** The session files that are read *)

Lemma slice_from_append (s t : string) n :
  Py.slice_from (String.length s + n) (s +:+ t) = Py.slice_from n t.
Proof.
  induction s as [|x s IH]; [done|].
  unfold String.append; simpl; fold String.append. apply IH.
Qed.

Lemma prefix_ecg name :
  String.prefix "ecg_" name = true ↔ ∃ rest, name = "ecg_" +:+ rest.
Proof.
  split.
  - intros H%String.prefix_correct.
    destruct name as [|a [|b [|c [|d rest]]]]; try discriminate H.
    cbn [String.length String.substring] in H.
    replace (String.substring 0 0 rest) with "" in H by (by destruct rest).
    injection H as -> -> -> ->. by exists rest.
  - intros [rest ->]. apply String.prefix_correct.
    cbn [String.length String.substring String.append]. by destruct rest.
Qed.

Lemma fnmatch_ecg_iff (name : string) :
  fnmatch_ecg name = true ↔ ∃ middle, name = "ecg_" +:+ middle +:+ ".csv".
Proof.
  split.
  - unfold fnmatch_ecg. intros H.
    apply andb_true_iff in H as [H Hsuf]. apply andb_true_iff in H as [Hlen Hpre].
    apply Nat.leb_le in Hlen. apply prefix_ecg in Hpre as [rest ->].
    apply String.eqb_eq in Hsuf. unfold Py.len in *. rewrite length_append in *.
    cbn [String.length] in *.
    replace (4 + String.length rest - 4) with (String.length "ecg_" + (String.length rest - 4))
      in Hsuf by (simpl; lia).
    rewrite slice_from_append in Hsuf.
    exists (Py.slice_to (String.length rest - 4) rest).
    by rewrite <- Hsuf, slice_to_from.
  - intros [middle ->]. unfold fnmatch_ecg, Py.len.
    rewrite !length_append. cbn [String.length].
    apply andb_true_iff. split; [apply andb_true_iff; split|].
    + apply Nat.leb_le. lia.
    + apply prefix_ecg. by eexists.
    + apply String.eqb_eq.
      replace (4 + (String.length middle + 4) - 4)
        with (String.length "ecg_" + (String.length middle + 0)) by (simpl; lia).
      by rewrite !slice_from_append.
Qed.

Section GlobFacts.
Implicit Types (a b s : string) (c x : ascii) (fs : Glob.file_system).

(** A name that matches is not hidden, so that leaving out the hidden
    names first changes nothing. *)
Lemma glob1_filter fs dirname :
  Glob.glob1 fs dirname
  = List.filter (λ '(name, _), fnmatch_ecg name) (Glob.scandir fs dirname).
Proof.
  unfold Glob.glob1. induction (Glob.scandir fs dirname) as [|[name f] l IH]; [done|].
  cbn [List.filter]. destruct (Glob.ishidden name) eqn:Hh; cbn [negb List.filter].
  - rewrite IH. destruct (fnmatch_ecg name) eqn:Hm; [|done].
    apply fnmatch_ecg_iff in Hm as [middle ->]. discriminate Hh.
  - by rewrite IH.
Qed.

Lemma after_last_sep_none b : Py.contains_char "/" b = false → Glob.after_last_sep b = 0.
Proof.
  induction b as [|x b IH]; [done|]. cbn [Py.contains_char Glob.after_last_sep].
  intros [Hx Hb]%orb_false_iff. rewrite (IH Hb).
  rewrite Ascii.eqb_sym. by rewrite Hx.
Qed.

Lemma after_last_sep_append a b :
  Py.contains_char "/" b = false →
  Glob.after_last_sep (a +:+ String "/" b) = S (String.length a).
Proof.
  intros Hb. induction a as [|x a IH].
  - unfold String.append. cbn [Glob.after_last_sep]. by rewrite (after_last_sep_none b Hb).
  - unfold String.append; cbn [Glob.after_last_sep String.length]; fold String.append.
    by rewrite IH.
Qed.

Lemma rstrip_by_snoc p a x :
  p x = true → Py.rstrip_by p (a +:+ String x "") = Py.rstrip_by p a.
Proof.
  intros Hx. induction a as [|y a IH].
  - unfold String.append. cbn [Py.rstrip_by]. by rewrite Hx.
  - unfold String.append; cbn [Py.rstrip_by]; fold String.append. by rewrite IH.
Qed.

Lemma rstrip_by_last p a c :
  String.get (String.length a - 1) a = Some c → p c = false → Py.rstrip_by p a = a.
Proof.
  intros Hget Hc. induction a as [|y a IH]; [done|].
  destruct a as [|z a].
  - cbn in Hget. injection Hget as ->. cbn [Py.rstrip_by]. by rewrite Hc.
  - assert (String.get (String.length (String z a) - 1) (String z a) = Some c) as Hget'.
    { cbn [String.length]. rewrite Nat.sub_succ, Nat.sub_0_r. exact Hget. }
    specialize (IH Hget'). cbn [Py.rstrip_by] in *. by rewrite IH.
Qed.

Lemma rstrip_by_seps n : Py.rstrip_by (Py.is_char "/") (Glob.seps n) = "".
Proof. induction n as [|n IH]; [done|]. cbn [Glob.seps Py.rstrip_by]. by rewrite IH. Qed.

Lemma get_last_None a : String.get (String.length a - 1) a = None → a = "".
Proof.
  induction a as [|y a IH]; [done|]. destruct a as [|z a]; [done|].
  intros H.
  assert (String.get (String.length (String z a) - 1) (String z a) = None) as H'.
  { cbn [String.length]. rewrite Nat.sub_succ, Nat.sub_0_r. exact H. }
  by specialize (IH H').
Qed.

Lemma get_last_append a b :
  b ≠ "" →
  String.get (String.length (a +:+ b) - 1) (a +:+ b) = String.get (String.length b - 1) b.
Proof.
  intros Hb. induction a as [|y a IH]; [done|].
  unfold String.append; cbn [String.length]; fold String.append.
  destruct (a +:+ b) as [|z t] eqn:Hab.
  - exfalso. destruct a; [by apply Hb|discriminate].
  - rewrite <- IH. cbn [String.length]. by rewrite !Nat.sub_succ, !Nat.sub_0_r.
Qed.

Lemma path_join_cases a b :
  Py.path_join a b =
    match String.get (String.length a - 1) a with
    | None => b
    | Some c => if Ascii.eqb c "/" then a +:+ b else a +:+ "/" +:+ b
    end.
Proof.
  unfold Py.path_join. destruct (String.get _ a) as [c|]; [|done].
  by destruct c as [[] [] [] [] [] [] [] []].
Qed.

(** The pattern is split into the directory and [ecg_*.csv]. *)
Lemma split_pattern (ecg_dir : string) :
  String.get (String.length ecg_dir - 1) ecg_dir ≠ Some "/"%char →
  Glob.split (Py.path_join ecg_dir "ecg_*.csv") = (ecg_dir, "ecg_*.csv").
Proof.
  intros Hsep. rewrite path_join_cases.
  destruct (String.get _ ecg_dir) as [c|] eqn:Hget;
    [|by rewrite (get_last_None _ Hget)].
  destruct (Ascii.eqb_spec c "/") as [->|Hc]; [done|].
  assert (Py.is_char "/" c = false) as Hc' by (apply Ascii.eqb_neq; by intros <-).
  change (ecg_dir +:+ "/" +:+ "ecg_*.csv") with (ecg_dir +:+ String "/" "ecg_*.csv").
  unfold Glob.split. rewrite after_last_sep_append by done.
  rewrite slice_to_append_short by apply Nat.le_succ_diag_r.
  replace (S (String.length ecg_dir) - String.length ecg_dir) with 1
    by (by rewrite Nat.sub_succ_l, Nat.sub_diag).
  replace (S (String.length ecg_dir)) with (String.length ecg_dir + 1)
    by apply Nat.add_1_r.
  rewrite slice_from_append. cbn [Py.slice_to Py.slice_from]. cbv zeta.
  assert (Py.rstrip_by (Py.is_char "/") (ecg_dir +:+ "/") = ecg_dir) as Hstrip.
  { rewrite rstrip_by_snoc by done. by eapply rstrip_by_last. }
  assert (Py.truthy (ecg_dir +:+ "/") = true) as -> by (by destruct ecg_dir).
  destruct (String.eqb_spec (ecg_dir +:+ "/") (Glob.seps (Py.len (ecg_dir +:+ "/"))))
    as [Heq|_]; cbn [negb andb]; [|by rewrite Hstrip].
  exfalso. rewrite Heq, rstrip_by_seps in Hstrip. by subst ecg_dir.
Qed.

Lemma length_path_join a b : String.length a < String.length (Py.path_join a b) ∨ b = "".
Proof.
  destruct b as [|x b]; [by right|left]. rewrite path_join_cases.
  destruct (String.get _ a) as [c|] eqn:Hget.
  - destruct (Ascii.eqb c "/"); rewrite !length_append; cbn [String.length]; lia.
  - rewrite (get_last_None _ Hget). cbn [String.length]. lia.
Qed.

Lemma has_magic_append a b :
  Glob.has_magic (a +:+ b) = Glob.has_magic a || Glob.has_magic b.
Proof.
  unfold Glob.has_magic. rewrite !contains_char_append.
  by destruct (Py.contains_char "*" a), (Py.contains_char "?" a), (Py.contains_char "[" a),
             (Py.contains_char "*" b), (Py.contains_char "?" b).
Qed.

Lemma has_magic_path_join a b :
  Glob.has_magic b = false → Glob.has_magic (Py.path_join a b) = Glob.has_magic a.
Proof.
  intros Hb. rewrite path_join_cases.
  destruct (String.get _ a) as [c|] eqn:Hget.
  - destruct (Ascii.eqb c "/"); rewrite !has_magic_append, Hb;
      cbn [Glob.has_magic Py.contains_char Ascii.eqb Bool.eqb orb]; by rewrite !orb_false_r.
  - by rewrite (get_last_None _ Hget).
Qed.

(** The directory that [main] hands to [parse_ecg_files] is taken
    literally whenever the base directory has no magic character. *)
Lemma ecg_dir_literal (base_dir : string) :
  Glob.has_magic base_dir = false →
  Glob.literal (Py.path_join base_dir "electrocardiograms").
Proof.
  intros Hbase. split; [by rewrite has_magic_path_join|].
  rewrite path_join_cases.
  destruct (String.get _ base_dir) as [c|]; [|by cbn].
  destruct (Ascii.eqb c "/"); rewrite <- ?append_assoc, get_last_append by done; by cbn.
Qed.

Lemma glob_dirs fs (ecg_dir : string) :
  String.get (String.length ecg_dir - 1) ecg_dir ≠ Some "/"%char →
  Glob.glob fs ecg_dir =
    flat_map (λ dirname, map (λ '(name, f), (Py.path_join dirname name, f))
                             (List.filter (λ '(name, _), fnmatch_ecg name)
                                          (Glob.scandir fs dirname)))
      (if Glob.has_magic ecg_dir then Glob.expand fs ecg_dir else [ecg_dir]).
Proof.
  intros Hsep. unfold Glob.glob. cbv zeta. rewrite (split_pattern _ Hsep). cbn [fst].
  assert (String.eqb ecg_dir (Py.path_join ecg_dir "ecg_*.csv") = false) as ->.
  { apply String.eqb_neq. intros Heq.
    destruct (length_path_join ecg_dir "ecg_*.csv") as [Hlt|]; [|done].
    rewrite <- Heq in Hlt. by apply Nat.lt_irrefl in Hlt. }
  cbn [negb andb]. apply List.flat_map_ext. intros dirname. by rewrite glob1_filter.
Qed.

Lemma glob_literal fs (ecg_dir : string) :
  Glob.literal ecg_dir →
  Glob.glob fs ecg_dir = glob_ecg ecg_dir (Glob.scandir fs ecg_dir).
Proof.
  intros [Hmagic Hsep]. rewrite (glob_dirs _ _ Hsep), Hmagic.
  cbn [flat_map]. apply app_nil_r.
Qed.
End GlobFacts.

(** X6.  The session files that are read.  The pattern handed to
    [glob] is split into the directory and [ecg_*.csv].  When the path
    of the directory has none of the characters [*], [?] and [[], and no
    [/] at its end, the files listed are the entries of that directory,
    in listing order, whose name is [ecg_], any text, [.csv], each under
    the path of the directory joined with its name: this is the list
    [parse_ecg_files] works on, and an entry with another name is not
    opened and changes nothing.  The directory that [main] passes is of
    this kind whenever its base directory has no such character.  When
    the path has one of the characters, the files listed are instead
    those of the directories that the path matches as a pattern. *)
Theorem only_ecg_csv_files_are_read (fs : Glob.file_system) :
  (∀ ecg_dir,
     String.get (String.length ecg_dir - 1) ecg_dir ≠ Some "/"%char →
     Glob.split (Py.path_join ecg_dir "ecg_*.csv") = (ecg_dir, "ecg_*.csv")) ∧
  (∀ ecg_dir,
     Glob.literal ecg_dir →
     Glob.glob fs ecg_dir = glob_ecg ecg_dir (Glob.scandir fs ecg_dir) ∧
     (∀ path f,
        (path, f) ∈ Glob.glob fs ecg_dir ↔
        ∃ middle, path = Py.path_join ecg_dir ("ecg_" +:+ middle +:+ ".csv") ∧
                  ("ecg_" +:+ middle +:+ ".csv", f) ∈ Glob.scandir fs ecg_dir) ∧
     (∀ entries1 name f entries2 st,
        Glob.scandir fs ecg_dir = entries1 ++ (name, f) :: entries2 →
        (∀ middle, name ≠ "ecg_" +:+ middle +:+ ".csv") →
        parse_ecg_files ecg_dir (Glob.scandir fs ecg_dir) st
        = parse_ecg_files ecg_dir (entries1 ++ entries2) st)) ∧
  (∀ base_dir,
     Glob.has_magic base_dir = false →
     Glob.literal (Py.path_join base_dir "electrocardiograms")) ∧
  (∀ ecg_dir,
     Glob.has_magic ecg_dir = true →
     String.get (String.length ecg_dir - 1) ecg_dir ≠ Some "/"%char →
     ∀ path f,
       (path, f) ∈ Glob.glob fs ecg_dir ↔
       ∃ dirname middle,
         dirname ∈ Glob.expand fs ecg_dir ∧
         path = Py.path_join dirname ("ecg_" +:+ middle +:+ ".csv") ∧
         ("ecg_" +:+ middle +:+ ".csv", f) ∈ Glob.scandir fs dirname).
Proof.
  assert (∀ dirname path f,
            (path, f) ∈ map (λ '(name, f), (Py.path_join dirname name, f))
                          (List.filter (λ '(name, _), fnmatch_ecg name)
                                       (Glob.scandir fs dirname)) ↔
            ∃ middle, path = Py.path_join dirname ("ecg_" +:+ middle +:+ ".csv") ∧
                      ("ecg_" +:+ middle +:+ ".csv", f) ∈ Glob.scandir fs dirname)
    as Hlisted.
  { intros dirname path f. rewrite list_elem_of_fmap. split.
    - intros ([name f'] & [= -> ->] & Hin).
      apply list_elem_of_In, List.filter_In in Hin as [Hin Hmatch].
      apply fnmatch_ecg_iff in Hmatch as [middle ->].
      exists middle. split; [done|]. by apply list_elem_of_In.
    - intros (middle & -> & Hin). exists ("ecg_" +:+ middle +:+ ".csv", f).
      split; [done|]. apply list_elem_of_In, List.filter_In.
      split; [by apply list_elem_of_In|]. apply fnmatch_ecg_iff. by exists middle. }
  split; [apply split_pattern|]. split; [|split; [apply ecg_dir_literal|]].
  - intros ecg_dir Hlit. split; [by apply glob_literal|]. split.
    + intros path f. rewrite (glob_literal _ _ Hlit). apply Hlisted.
    + intros entries1 name f entries2 st -> Hname.
      unfold parse_ecg_files, glob_ecg. rewrite !List.filter_app. cbn [List.filter].
      destruct (fnmatch_ecg name) eqn:Hmatch; [|done].
      apply fnmatch_ecg_iff in Hmatch as [middle ->]. by destruct (Hname middle).
  - intros ecg_dir Hmagic Hsep path f. rewrite (glob_dirs _ _ Hsep), Hmagic.
    rewrite list_elem_of_In, List.in_flat_map. setoid_rewrite <- list_elem_of_In.
    setoid_rewrite Hlisted. split.
    + intros (dirname & Hdir & middle & Hpath & Hin). by exists dirname, middle.
    + intros (dirname & middle & Hdir & Hpath & Hin). exists dirname.
      split; [done|]. by exists middle.
Qed.

Lemma only_ecg_csv_files_are_read_witness :
  Glob.glob sample_file_system "/home/user/apple_health_export/electrocardiograms"
  = [("/home/user/apple_health_export/electrocardiograms/ecg_2023-06-16.csv",
      Sample.ecg_sinus);
     ("/home/user/apple_health_export/electrocardiograms/ecg_2023-06-17.csv",
      Sample.ecg_unclassified)].
Proof.
  destruct (only_ecg_csv_files_are_read sample_file_system) as (_ & H & _).
  destruct (H "/home/user/apple_health_export/electrocardiograms") as (Hglob & _).
  - split; [reflexivity|]. vm_compute. discriminate.
  - rewrite Hglob. vm_compute. reflexivity.
Defined.


(** ** What the loops append *)

Section Candidates.
Implicit Types (st : state) (rec : record) (k : key).

Lemma shared_progress n st : shared (progress n st) = shared st.
Proof. unfold shared. by rewrite records_progress, seen_keys_progress. Qed.

Lemma shared_print m st : shared (print m st) = shared st.
Proof. reflexivity. Qed.

Lemma append_unseen_app cands1 cands2 recs seen :
  append_unseen (cands1 ++ cands2) recs seen
  = append_unseen cands2 (append_unseen cands1 recs seen).1 (append_unseen cands1 recs seen).2.
Proof.
  revert recs seen. induction cands1 as [|c cands1 IH]; intros recs seen; [done|].
  cbn [app append_unseen]. destruct (bool_decide (key_of c ∈ seen)); apply IH.
Qed.

Lemma omap_cons_option_list {A B} (f : A → option B) x l :
  omap f (x :: l) = option_list (f x) ++ omap f l.
Proof. simpl. by destruct (f x). Qed.

Lemma parse_export_xml_body_candidate elem cnt st :
  shared (parse_export_xml_body elem cnt st).1.2
  = append_unseen (option_list (xml_candidate elem)) (records st) (seen_keys st).
Proof.
  unfold parse_export_xml_body, xml_candidate, workout_record.
  destruct (String.eqb (tag elem) "Record").
  - destruct (get elem "type") as [record_type|]; [|done].
    destruct (in_TARGET_TYPES (Some record_type)); [|done].
    cbv zeta. cbv [option_list option_rect].
    cbn [append_unseen key_of creationDate startDate endDate type value].
    do 2 case_bool_decide; try done. cbn [fst snd]. by rewrite shared_progress.
  - destruct (String.eqb (tag elem) "Workout"); [|done].
    cbv zeta. cbv [option_list option_rect].
    cbn [append_unseen key_of creationDate startDate endDate type value].
    do 2 case_bool_decide; try done. cbn [fst snd]. by rewrite shared_progress.
Qed.

Lemma parse_export_cda_xml_body_candidate total_count elem cnt st :
  shared (parse_export_cda_xml_body total_count elem cnt st).1.2
  = append_unseen (option_list (cda_candidate elem)) (records st) (seen_keys st).
Proof.
  unfold parse_export_cda_xml_body, cda_candidate.
  destruct (String.eqb (tag elem) (cda "observation")); [|done].
  destruct (find elem (cda "text")) as [text_elem|]; [|done].
  destruct (find text_elem (cda "type")) as [type_elem|]; [|done].
  destruct (text type_elem) as [record_type|]; [|done].
  destruct (in_TARGET_TYPES (Some record_type)); [|done].
  destruct (cda_dates elem) as [[start_date end_date]|e]; [|done].
  cbv zeta. cbv [option_list option_rect].
    cbn [append_unseen key_of creationDate startDate endDate type value].
  do 2 case_bool_decide; try done. cbn [fst snd]. by rewrite shared_progress.
Qed.

Lemma parse_ecg_files_body_candidate total_count filepath f count st :
  shared (parse_ecg_files_body total_count filepath f count st).2
  = append_unseen (option_list (ecg_candidate f)) (records st) (seen_keys st).
Proof.
  unfold parse_ecg_files_body, ecg_candidate, ecg_record.
  destruct (read_metadata f) as [metadata|e]; [|done].
  destruct (Py.truthy _); [|done].
  cbv zeta. cbv [option_list option_rect].
    cbn [append_unseen key_of creationDate startDate endDate type value].
  do 2 case_bool_decide; try done. cbn [snd]. by rewrite shared_progress.
Qed.

Lemma for_each_parse_export_xml_candidates elems cnt st :
  shared (for_each parse_export_xml_body elems cnt st).1.2
  = append_unseen (omap xml_candidate elems) (records st) (seen_keys st).
Proof.
  revert cnt st. induction elems as [|elem elems IH]; intros cnt st; [done|].
  cbn [for_each]. pose proof (parse_export_xml_body_candidate elem cnt st) as Hb.
  destruct (parse_export_xml_body_cases elem cnt st) as (cnt1 & st1 & Heq & _).
  rewrite Heq in Hb |- *. cbn [fst snd] in Hb. rewrite IH.
  rewrite omap_cons_option_list, append_unseen_app, <- Hb. reflexivity.
Qed.

Lemma for_each_parse_export_cda_xml_candidates total_count elems cnt st :
  shared (for_each (parse_export_cda_xml_body total_count) elems cnt st).1.2
  = append_unseen (omap cda_candidate elems) (records st) (seen_keys st).
Proof.
  revert cnt st. induction elems as [|elem elems IH]; intros cnt st; [done|].
  cbn [for_each]. pose proof (parse_export_cda_xml_body_candidate total_count elem cnt st) as Hb.
  destruct (parse_export_cda_xml_body_cases total_count elem cnt st) as (cnt1 & st1 & Heq & _).
  rewrite Heq in Hb |- *. cbn [fst snd] in Hb. rewrite IH.
  rewrite omap_cons_option_list, append_unseen_app, <- Hb. reflexivity.
Qed.

Lemma parse_ecg_files_loop_candidates total_count ecg_files count st :
  shared (parse_ecg_files_loop total_count ecg_files count st).2
  = append_unseen (omap (λ file, ecg_candidate file.2) ecg_files) (records st) (seen_keys st).
Proof.
  revert count st. induction ecg_files as [|[filepath f] ecg_files IH]; intros count st; [done|].
  cbn [parse_ecg_files_loop].
  pose proof (parse_ecg_files_body_candidate total_count filepath f count st) as Hb.
  destruct (parse_ecg_files_body total_count filepath f count st) as [count1 st1].
  cbn [snd] in Hb. rewrite IH.
  rewrite omap_cons_option_list, append_unseen_app. cbn beta. cbn [snd].
  rewrite <- Hb. reflexivity.
Qed.
End Candidates.

Section AppendUnseen.
Implicit Types (cands recs : list record) (seen : gset key).

Lemma append_unseen_seen cands recs seen :
  (append_unseen cands recs seen).2 = seen ∪ list_to_set (key_of <$> cands).
Proof.
  revert recs seen. induction cands as [|c cands IH]; intros recs seen; simpl.
  - by rewrite union_empty_r_L.
  - case_bool_decide as Hc; rewrite IH.
    + apply set_eq. intros k. rewrite !elem_of_union, elem_of_singleton.
      split; [tauto|]. intros [?|[->|?]]; tauto.
    + by rewrite (union_comm_L {[ key_of c ]} seen), <- union_assoc_L.
Qed.

Lemma append_unseen_all_seen cands recs seen :
  (∀ c, c ∈ cands → key_of c ∈ seen) → append_unseen cands recs seen = (recs, seen).
Proof.
  induction cands as [|c cands IH]; intros Hall; [done|]. simpl.
  rewrite bool_decide_true by (apply Hall; left).
  apply IH. intros c' Hc'. apply Hall. by right.
Qed.

Lemma append_unseen_records cands recs seen :
  ∃ added, (append_unseen cands recs seen).1 = recs ++ added ∧
           added ⊆+ cands ∧
           (∀ c, c ∈ added → key_of c ∉ seen).
Proof.
  revert recs seen. induction cands as [|c cands IH]; intros recs seen; simpl.
  - exists []. split; [by rewrite app_nil_r|]. split; [done|].
    intros c Hc. by apply elem_of_nil in Hc.
  - case_bool_decide as Hc.
    + destruct (IH recs seen) as (added & -> & Hsub & Hnew). exists added.
      split; [done|]. split; [by apply submseteq_cons|done].
    + destruct (IH (recs ++ [c]) ({[ key_of c ]} ∪ seen)) as (added & -> & Hsub & Hnew).
      exists (c :: added). rewrite <- app_assoc. split; [done|]. split.
      * by apply submseteq_skip.
      * intros c' [->|Hc']%elem_of_cons; [done|].
        apply Hnew in Hc'. intros Hin. apply Hc'. apply elem_of_union. by right.
Qed.
End AppendUnseen.

Lemma parse_export_xml_state filepath src st :
  ∃ cnt, (parse_export_xml filepath src st).1 =
           match syntax_error src with
           | Some _ => (for_each parse_export_xml_body (events src) (mkXmlCounts 0 0 0)
                          (print (MsgProcessing filepath) st)).1.2
           | None => print (MsgExtractedXml (xc_local_count cnt) (xc_workout_count cnt) filepath)
                       (for_each parse_export_xml_body (events src) (mkXmlCounts 0 0 0)
                          (print (MsgProcessing filepath) st)).1.2
           end.
Proof.
  unfold parse_export_xml, for_iterparse.
  destruct (for_each_parse_export_xml (events src) (mkXmlCounts 0 0 0)
              (print (MsgProcessing filepath) st)) as (cnt & st1 & -> & _).
  exists cnt. by destruct (syntax_error src).
Qed.

Lemma parse_export_xml_shared (filepath : string) (src : xml_source) (st : state) :
  shared (parse_export_xml filepath src st).1
  = append_unseen (omap xml_candidate (events src)) (records st) (seen_keys st) ∧
  seen_keys (parse_export_xml filepath src st).1
  = seen_keys st ∪ list_to_set (key_of <$> omap xml_candidate (events src)).
Proof.
  assert (shared (parse_export_xml filepath src st).1
          = append_unseen (omap xml_candidate (events src)) (records st) (seen_keys st)) as H.
  { destruct (parse_export_xml_state filepath src st) as [cnt ->].
    destruct (syntax_error src); rewrite ?shared_print;
      exact (for_each_parse_export_xml_candidates (events src) (mkXmlCounts 0 0 0)
               (print (MsgProcessing filepath) st)). }
  split; [done|].
  rewrite <- append_unseen_seen with (recs := records st). by rewrite <- H.
Qed.

(** X7.  [parse_export_xml] goes through the elements in document
    order: for each [Record] element with an allow-listed type and for
    each [Workout] element it appends the record of the element unless
    its key is in the index, and adds the key; nothing else changes the
    records or the index, also when the document ends in a syntax
    error.  The index afterwards is the index before together with the
    keys of all these elements. *)
Theorem parse_export_xml_appends_unseen (filepath : string) (src : xml_source) (st : state) :
  shared (parse_export_xml filepath src st).1
  = append_unseen (omap xml_candidate (events src)) (records st) (seen_keys st) ∧
  seen_keys (parse_export_xml filepath src st).1
  = seen_keys st ∪ list_to_set (key_of <$> omap xml_candidate (events src)).
Proof. apply parse_export_xml_shared. Qed.

Lemma parse_export_cda_xml_state filepath src st :
  shared (parse_export_cda_xml filepath src st).1
  = shared (for_each (parse_export_cda_xml_body (length (records st))) (events src)
              (mkCdaCounts 0 0) (print (MsgProcessing filepath) st)).1.2.
Proof.
  unfold parse_export_cda_xml, for_iterparse. rewrite records_print.
  destruct (for_each_parse_export_cda_xml (length (records st)) (events src)
              (mkCdaCounts 0 0) (print (MsgProcessing filepath) st)) as (cnt & st1 & -> & _).
  by destruct (syntax_error src).
Qed.

Lemma parse_export_cda_xml_shared
    (filepath : string) (src : xml_source) (st : state) :
  shared (parse_export_cda_xml filepath src st).1
  = append_unseen (omap cda_candidate (events src)) (records st) (seen_keys st) ∧
  seen_keys (parse_export_cda_xml filepath src st).1
  = seen_keys st ∪ list_to_set (key_of <$> omap cda_candidate (events src)).
Proof.
  assert (shared (parse_export_cda_xml filepath src st).1
          = append_unseen (omap cda_candidate (events src)) (records st) (seen_keys st)) as H.
  { rewrite parse_export_cda_xml_state.
    exact (for_each_parse_export_cda_xml_candidates _ (events src) (mkCdaCounts 0 0)
             (print (MsgProcessing filepath) st)). }
  split; [done|].
  rewrite <- append_unseen_seen with (recs := records st). by rewrite <- H.
Qed.

(** X8.  [parse_export_cda_xml] goes through the elements in document
    order: for each [observation] with a [text] child whose [type] child
    has an allow-listed text it appends the record of the observation
    unless its key is in the index, and adds the key; nothing else
    changes the records or the index, also when the document ends in a
    syntax error. *)
Theorem parse_export_cda_xml_appends_unseen
    (filepath : string) (src : xml_source) (st : state) :
  shared (parse_export_cda_xml filepath src st).1
  = append_unseen (omap cda_candidate (events src)) (records st) (seen_keys st) ∧
  seen_keys (parse_export_cda_xml filepath src st).1
  = seen_keys st ∪ list_to_set (key_of <$> omap cda_candidate (events src)).
Proof. apply parse_export_cda_xml_shared. Qed.

Lemma parse_ecg_files_shared
    (ecg_dir : string) (entries : list (string * text_file)) (st : state) :
  shared (parse_ecg_files ecg_dir entries st).1
  = append_unseen (omap (λ file, ecg_candidate file.2) (glob_ecg ecg_dir entries))
      (records st) (seen_keys st) ∧
  seen_keys (parse_ecg_files ecg_dir entries st).1
  = seen_keys st ∪
    list_to_set (key_of <$> omap (λ file, ecg_candidate file.2) (glob_ecg ecg_dir entries)).
Proof.
  assert (shared (parse_ecg_files ecg_dir entries st).1
          = append_unseen (omap (λ file, ecg_candidate file.2) (glob_ecg ecg_dir entries))
              (records st) (seen_keys st)) as H.
  { pose proof (parse_ecg_files_loop_candidates
                  (length (records (print (MsgProcessingEcg ecg_dir) st)))
                  (glob_ecg ecg_dir entries) 0 (print (MsgProcessingEcg ecg_dir) st)) as Hl.
    unfold parse_ecg_files. destruct (parse_ecg_files_loop _ _ _ _). exact Hl. }
  split; [done|].
  rewrite <- append_unseen_seen with (recs := records st). by rewrite <- H.
Qed.

(** X9.  [parse_ecg_files] goes through the matching files in listing
    order: for each file that can be read and whose header has a
    recorded date that is not empty it appends the record of the file
    unless its key is in the index, and adds the key; nothing else
    changes the records or the index. *)
Theorem parse_ecg_files_appends_unseen
    (ecg_dir : string) (entries : list (string * text_file)) (st : state) :
  shared (parse_ecg_files ecg_dir entries st).1
  = append_unseen (omap (λ file, ecg_candidate file.2) (glob_ecg ecg_dir entries))
      (records st) (seen_keys st) ∧
  seen_keys (parse_ecg_files ecg_dir entries st).1
  = seen_keys st ∪
    list_to_set (key_of <$> omap (λ file, ecg_candidate file.2) (glob_ecg ecg_dir entries)).
Proof. apply parse_ecg_files_shared. Qed.

Lemma app_eq_self {A} (l added : list A) : l ++ added = l → added = [].
Proof. intros H. apply (app_inv_head l). by rewrite app_nil_r. Qed.

Lemma append_unseen_again cands recs seen seen2 recs2 :
  (append_unseen cands recs seen).2 ⊆ seen2 →
  append_unseen cands recs2 seen2 = (recs2, seen2).
Proof.
  rewrite append_unseen_seen. intros Hsub. apply append_unseen_all_seen.
  intros c Hc. apply Hsub, elem_of_union. right.
  apply elem_of_list_to_set. by apply list_elem_of_fmap_2.
Qed.

(** X10.  Reading a source again adds nothing: once a parser has run on
    a source, running the same parser on the same source in any later
    state, one whose index holds the keys of that first run, leaves the
    records and the index as they are and returns 0. *)
Theorem reading_again_adds_nothing (st st2 : state) :
  (∀ filepath src,
     seen_keys (parse_export_xml filepath src st).1 ⊆ seen_keys st2 →
     shared (parse_export_xml filepath src st2).1 = shared st2 ∧
     ∀ n, (parse_export_xml filepath src st2).2 = Return n → n = 0) ∧
  (∀ filepath src,
     seen_keys (parse_export_cda_xml filepath src st).1 ⊆ seen_keys st2 →
     shared (parse_export_cda_xml filepath src st2).1 = shared st2 ∧
     ∀ n, (parse_export_cda_xml filepath src st2).2 = Return n → n = 0) ∧
  (∀ ecg_dir entries,
     seen_keys (parse_ecg_files ecg_dir entries st).1 ⊆ seen_keys st2 →
     shared (parse_ecg_files ecg_dir entries st2).1 = shared st2 ∧
     ∀ n, (parse_ecg_files ecg_dir entries st2).2 = Return n → n = 0).
Proof.
  assert (∀ parse : state → state * result nat,
            counts_what_it_adds parse →
            shared (parse st2).1 = shared st2 →
            ∀ n, (parse st2).2 = Return n → n = 0) as Hzero.
  { intros parse Hcounts Hsh n Hn.
    destruct (parse st2) as [st' r] eqn:Hp. simpl in *. subst r.
    destruct (Hcounts _ _ _ Hp) as [_ Hadd].
    destruct (Hadd n eq_refl) as (added & Hrec & <-).
    injection Hsh as Hrec' _. rewrite Hrec in Hrec'.
    by rewrite (app_eq_self _ _ Hrec'). }
  split; [|split].
  - intros filepath src Hsub.
    assert (shared (parse_export_xml filepath src st2).1 = shared st2) as Hsh.
    { rewrite (proj1 (parse_export_xml_shared filepath src st2)).
      apply (append_unseen_again _ (records st) (seen_keys st)).
      by rewrite <- (proj1 (parse_export_xml_shared filepath src st)). }
    split; [done|]. by apply Hzero; [apply parse_export_xml_counts|].
  - intros filepath src Hsub.
    assert (shared (parse_export_cda_xml filepath src st2).1 = shared st2) as Hsh.
    { rewrite (proj1 (parse_export_cda_xml_shared filepath src st2)).
      apply (append_unseen_again _ (records st) (seen_keys st)).
      by rewrite <- (proj1 (parse_export_cda_xml_shared filepath src st)). }
    split; [done|]. by apply Hzero; [apply parse_export_cda_xml_counts|].
  - intros ecg_dir entries Hsub.
    assert (shared (parse_ecg_files ecg_dir entries st2).1 = shared st2) as Hsh.
    { rewrite (proj1 (parse_ecg_files_shared ecg_dir entries st2)).
      apply (append_unseen_again _ (records st) (seen_keys st)).
      by rewrite <- (proj1 (parse_ecg_files_shared ecg_dir entries st)). }
    split; [done|]. by apply Hzero; [apply parse_ecg_files_counts|].
Qed.

Lemma reading_again_adds_nothing_witness :
  shared (parse_export_xml "export.xml" Sample.export_xml
            (parse_export_xml "export.xml" Sample.export_xml initial).1).1
  = shared (parse_export_xml "export.xml" Sample.export_xml initial).1.
Proof.
  apply (proj1 (reading_again_adds_nothing initial
                  (parse_export_xml "export.xml" Sample.export_xml initial).1)).
  reflexivity.
Defined.

Lemma key_of_inj rec1 rec2 : key_of rec1 = key_of rec2 → rec1 = rec2.
Proof. destruct rec1, rec2. unfold key_of. simpl. by intros [= -> -> -> -> ->]. Qed.

Lemma consistent_same_index st1 st2 :
  consistent st1 → consistent st2 → seen_keys st1 = seen_keys st2 →
  records st1 ≡ₚ records st2.
Proof.
  intros [Hnd1 Hin1] [Hnd2 Hin2] Hseen.
  apply NoDup_Permutation; [by eapply NoDup_fmap_1|by eapply NoDup_fmap_1|].
  assert (∀ st rec, (∀ k, k ∈ seen_keys st ↔ k ∈ key_of <$> records st) →
                    rec ∈ records st ↔ key_of rec ∈ seen_keys st) as Hmem.
  { intros st rec Hin. rewrite Hin. split; [apply list_elem_of_fmap_2|].
    intros (rec' & Hk & Hrec')%list_elem_of_fmap. by rewrite (key_of_inj _ _ Hk). }
  intros rec. by rewrite (Hmem st1), (Hmem st2), Hseen.
Qed.

(** X11.  The order in which the attribute-XML export and the clinical
    document are read does not matter for what is kept: from a state in
    which records and index agree, both orders end with the same index
    and with the same records up to their order. *)
Theorem sources_commute
    (filepath1 filepath2 : string) (xml cda_doc : xml_source) (st : state)
    (Hst : consistent st) :
  let xml_first :=
    (parse_export_cda_xml filepath2 cda_doc (parse_export_xml filepath1 xml st).1).1 in
  let cda_first :=
    (parse_export_xml filepath1 xml (parse_export_cda_xml filepath2 cda_doc st).1).1 in
  seen_keys xml_first = seen_keys cda_first ∧
  records xml_first ≡ₚ records cda_first.
Proof.
  intros xml_first cda_first.
  assert (seen_keys xml_first = seen_keys cda_first) as Hseen.
  { subst xml_first cda_first.
    rewrite (proj2 (parse_export_cda_xml_shared _ _ _)), (proj2 (parse_export_xml_shared _ _ _)),
      (proj2 (parse_export_xml_shared _ _ _)), (proj2 (parse_export_cda_xml_shared _ _ _)).
    rewrite <- !union_assoc_L. f_equal. apply union_comm_L. }
  split; [done|].
  assert (∀ parse : state → state * result nat,
            counts_what_it_adds parse → ∀ s, consistent s → consistent (parse s).1) as Hkeep.
  { intros parse Hcounts s Hs. destruct (parse s) as [s' r] eqn:Hp.
    destruct (Hcounts _ _ _ Hp) as [Hrtc _]. by eapply rtc_step_consistent. }
  apply consistent_same_index; [| |done]; subst xml_first cda_first.
  - apply (Hkeep _ (parse_export_cda_xml_counts _ _)).
    by apply (Hkeep _ (parse_export_xml_counts _ _)).
  - apply (Hkeep _ (parse_export_xml_counts _ _)).
    by apply (Hkeep _ (parse_export_cda_xml_counts _ _)).
Qed.

Lemma sources_commute_witness :
  seen_keys (parse_export_cda_xml "export_cda.xml" Sample.export_cda_xml
               (parse_export_xml "export.xml" Sample.export_xml initial).1).1
  = seen_keys (parse_export_xml "export.xml" Sample.export_xml
                 (parse_export_cda_xml "export_cda.xml" Sample.export_cda_xml initial).1).1.
Proof.
  apply (sources_commute "export.xml" "export_cda.xml" Sample.export_xml
           Sample.export_cda_xml initial initial_consistent).
Defined.

(** ** The counters and the summary lines *)

Lemma parse_export_xml_body_counters elem cnt st :
  xc_count cnt = xc_local_count cnt + xc_workout_count cnt →
  let cnt' := (parse_export_xml_body elem cnt st).1.1 in
  xc_count cnt' = xc_local_count cnt' + xc_workout_count cnt'.
Proof.
  intros Hcnt. unfold parse_export_xml_body.
  destruct (String.eqb (tag elem) "Record").
  - destruct (get elem "type") as [record_type|]; [|done].
    destruct (in_TARGET_TYPES (Some record_type)); [|done].
    cbv zeta. case_bool_decide; [|done]. simpl. lia.
  - destruct (String.eqb (tag elem) "Workout"); [|done].
    cbv zeta. case_bool_decide; [|done]. simpl. lia.
Qed.

Lemma for_each_parse_export_xml_counters elems cnt st :
  xc_count cnt = xc_local_count cnt + xc_workout_count cnt →
  let cnt' := (for_each parse_export_xml_body elems cnt st).1.1 in
  xc_count cnt' = xc_local_count cnt' + xc_workout_count cnt'.
Proof.
  revert cnt st. induction elems as [|elem elems IH]; intros cnt st Hcnt; [done|].
  cbn [for_each]. pose proof (parse_export_xml_body_counters elem cnt st Hcnt) as Hb.
  destruct (parse_export_xml_body_cases elem cnt st) as (cnt1 & st1 & Heq & _).
  rewrite Heq in Hb |- *. by apply IH.
Qed.

(** X12.  The summary line a parser prints last agrees with the count
    it returns: the records and the workouts reported by
    [parse_export_xml] add up to its count, and the new records reported
    by [parse_export_cda_xml] and by [parse_ecg_files] are their
    counts. *)
Theorem summary_line_agrees_with_count (st st' : state) (n : nat) :
  (∀ filepath src,
     parse_export_xml filepath src st = (st', Return n) →
     ∃ local_count workout_count,
       last (console st') = Some (MsgExtractedXml local_count workout_count filepath) ∧
       local_count + workout_count = n) ∧
  (∀ filepath src,
     parse_export_cda_xml filepath src st = (st', Return n) →
     last (console st') = Some (MsgExtractedCda n filepath)) ∧
  (∀ ecg_dir entries,
     parse_ecg_files ecg_dir entries st = (st', Return n) →
     last (console st') = Some (MsgExtractedEcg n)).
Proof.
  split; [|split].
  - intros filepath src. unfold parse_export_xml, for_iterparse.
    pose proof (for_each_parse_export_xml_counters (events src) (mkXmlCounts 0 0 0)
                  (print (MsgProcessing filepath) st) eq_refl) as Hcnt.
    destruct (for_each_parse_export_xml (events src) (mkXmlCounts 0 0 0)
                (print (MsgProcessing filepath) st)) as (cnt & st1 & Heq & _).
    rewrite Heq in Hcnt |- *. cbn [fst snd] in Hcnt.
    destruct (syntax_error src); intros [= <- <-].
    exists (xc_local_count cnt), (xc_workout_count cnt).
    split; [apply last_snoc|done].
  - intros filepath src. unfold parse_export_cda_xml, for_iterparse.
    destruct (for_each_parse_export_cda_xml
                (length (records (print (MsgProcessing filepath) st))) (events src)
                (mkCdaCounts 0 0) (print (MsgProcessing filepath) st))
      as (cnt & st1 & -> & _ & added & _ & Hc & Hl).
    assert (cc_local_count cnt = cc_count cnt) as Hloc by (simpl in *; lia).
    destruct (syntax_error src); intros [= <- <-]; rewrite Hloc; apply last_snoc.
  - intros ecg_dir entries. unfold parse_ecg_files.
    destruct (parse_ecg_files_loop _ _ _ _) as [count st1].
    intros [= <- <-]. apply last_snoc.
Qed.

Lemma summary_line_agrees_with_count_witness :
  ∃ local_count workout_count,
    last (console (parse_export_xml "export.xml" Sample.export_xml initial).1)
    = Some (MsgExtractedXml local_count workout_count "export.xml") ∧
    local_count + workout_count = 2.
Proof.
  apply (proj1 (summary_line_agrees_with_count initial _ 2) "export.xml" Sample.export_xml).
  transitivity ((parse_export_xml "export.xml" Sample.export_xml initial).1,
                (parse_export_xml "export.xml" Sample.export_xml initial).2);
    [apply surjective_pairing|].
  refine (f_equal (pair _) (_ : (parse_export_xml "export.xml" Sample.export_xml initial).2
                               = Return 2)).
  vm_compute. reflexivity.
Defined.

(** ** The records each parser can add *)

Lemma append_unseen_Forall (P : record → Prop) cands recs seen :
  Forall P cands →
  ∃ added, (append_unseen cands recs seen).1 = recs ++ added ∧ Forall P added.
Proof.
  intros HP. destruct (append_unseen_records cands recs seen) as (added & Heq & Hsub & _).
  exists added. split; [done|]. apply Forall_forall. intros c Hc.
  apply (proj1 (Forall_forall _ _) HP). by eapply elem_of_submseteq.
Qed.

Lemma Forall_omap {A} (P : record → Prop) (f : A → option record) (l : list A) :
  (∀ a c, f a = Some c → P c) → Forall P (omap f l).
Proof.
  intros Hf. apply Forall_forall. intros c (a & _ & Ha)%list_elem_of_omap. by eapply Hf.
Qed.

Lemma xml_candidate_value elem c : xml_candidate elem = Some c → is_Some (value c).
Proof.
  unfold xml_candidate, workout_record.
  destruct (String.eqb (tag elem) "Record").
  - destruct (get elem "type"); [|done]. destruct (in_TARGET_TYPES _); [|done].
    intros [= <-]. by eexists.
  - destruct (String.eqb (tag elem) "Workout"); [|done]. intros [= <-]. by eexists.
Qed.

Lemma cda_candidate_shape elem c :
  cda_candidate elem = Some c → creationDate c = startDate c ∧ type c ∈ TARGET_TYPES.
Proof.
  unfold cda_candidate.
  destruct (String.eqb (tag elem) (cda "observation")); [|done].
  destruct (find elem (cda "text")) as [text_elem|]; [|done].
  destruct (find text_elem (cda "type")) as [type_elem|]; [|done].
  destruct (text type_elem) as [record_type|]; [|done].
  destruct (in_TARGET_TYPES (Some record_type)) eqn:Hty; [|done].
  destruct (cda_dates elem) as [[start_date end_date]|e]; [|done].
  intros [= <-]. split; [done|]. simpl. by apply bool_decide_eq_true in Hty.
Qed.

Lemma ecg_candidate_shape f c :
  ecg_candidate f = Some c →
  type c = "ECG" ∧ creationDate c = startDate c ∧ endDate c = startDate c ∧
  startDate c ≠ "" ∧ is_Some (value c).
Proof.
  unfold ecg_candidate, ecg_record.
  destruct (read_metadata f) as [metadata|e]; [|done].
  destruct (Py.truthy _) eqn:Ht; [|done]. intros [= <-]. simpl.
  repeat split; [|by eexists]. intros Hempty. by rewrite Hempty in Ht.
Qed.

(** X13.  What the parsers can add.  A record from [parse_export_xml]
    always has a text as value, never [None].  A record from
    [parse_export_cda_xml] has an allow-listed type and its
    [creationDate] is its [startDate].  A record from [parse_ecg_files]
    has the type ["ECG"], its three dates are the same text, which is
    not empty, and its value is a text. *)
Theorem records_added_by_each_parser (st : state) :
  (∀ filepath src,
     ∃ added, records (parse_export_xml filepath src st).1 = records st ++ added ∧
              Forall (λ rec, is_Some (value rec)) added) ∧
  (∀ filepath src,
     ∃ added, records (parse_export_cda_xml filepath src st).1 = records st ++ added ∧
              Forall (λ rec, creationDate rec = startDate rec ∧ type rec ∈ TARGET_TYPES)
                added) ∧
  (∀ ecg_dir entries,
     ∃ added, records (parse_ecg_files ecg_dir entries st).1 = records st ++ added ∧
              Forall (λ rec, type rec = "ECG" ∧ creationDate rec = startDate rec ∧
                             endDate rec = startDate rec ∧ startDate rec ≠ "" ∧
                             is_Some (value rec)) added).
Proof.
  split; [|split].
  - intros filepath src.
    change (records (parse_export_xml filepath src st).1) with (shared (parse_export_xml filepath src st).1).1.
    rewrite (proj1 (parse_export_xml_shared filepath src st)).
    apply append_unseen_Forall, Forall_omap, xml_candidate_value.
  - intros filepath src.
    change (records (parse_export_cda_xml filepath src st).1) with (shared (parse_export_cda_xml filepath src st).1).1.
    rewrite (proj1 (parse_export_cda_xml_shared filepath src st)).
    apply append_unseen_Forall, Forall_omap, cda_candidate_shape.
  - intros ecg_dir entries.
    change (records (parse_ecg_files ecg_dir entries st).1) with (shared (parse_ecg_files ecg_dir entries st).1).1.
    rewrite (proj1 (parse_ecg_files_shared ecg_dir entries st)).
    apply append_unseen_Forall, Forall_omap. intros file c. apply ecg_candidate_shape.
Qed.

(** ** When the run is abandoned *)





(** ** The order of the rows *)

(** X15.  The sort of [main] only reorders: the records written are the
    records the three parsers appended, each once.  It is stable: the
    records with any one [startDate] are written in the order in which
    they were appended, those of the attribute-XML export first, then
    those of the clinical document, then those of the session files. *)
Theorem main_sorts_stably (fs : filesystem) (st : state) (out : output)
    (Hrun : main fs = (st, Return out)) :
  ∃ st1 n1 st2 n2 st3 n3 from_xml from_cda from_ecg,
    if_exists (Py.path_join (base_dir fs) "export.xml") (export_xml fs)
      parse_export_xml initial = (st1, Return n1) ∧
    if_exists (Py.path_join (base_dir fs) "export_cda.xml") (export_cda_xml fs)
      parse_export_cda_xml st1 = (st2, Return n2) ∧
    if_exists (Py.path_join (base_dir fs) "electrocardiograms") (electrocardiograms fs)
      parse_ecg_files st2 = (st3, Return n3) ∧
    records st1 = from_xml ∧
    records st2 = from_xml ++ from_cda ∧
    records st3 = from_xml ++ from_cda ++ from_ecg ∧
    records st ≡ₚ from_xml ++ from_cda ++ from_ecg ∧
    ∀ start,
      List.filter (λ rec, String.eqb (startDate rec) start) (records st)
      = List.filter (λ rec, String.eqb (startDate rec) start)
          (from_xml ++ from_cda ++ from_ecg).
Proof.
  destruct (main_run _ _ _ Hrun) as (st1&n1&st2&n2&st3&n3&H1&H2&H3&_&Hrec&_&_&_).
  destruct (if_exists_counts _ _ parse_export_xml (parse_export_xml_counts _) _ _ _ H1)
    as [_ Ha1]. destruct (Ha1 n1 eq_refl) as (a1 & Hr1 & _).
  destruct (if_exists_counts _ _ parse_export_cda_xml (parse_export_cda_xml_counts _) _ _ _ H2)
    as [_ Ha2]. destruct (Ha2 n2 eq_refl) as (a2 & Hr2 & _).
  destruct (if_exists_counts _ _ parse_ecg_files (parse_ecg_files_counts _) _ _ _ H3)
    as [_ Ha3]. destruct (Ha3 n3 eq_refl) as (a3 & Hr3 & _).
  simpl in Hr1.
  exists st1, n1, st2, n2, st3, n3, a1, a2, a3.
  assert (records st3 = a1 ++ a2 ++ a3) as Hall
    by (by rewrite Hr3, Hr2, Hr1, <- app_assoc).
  do 3 (split; [done|]). split; [done|]. split; [by rewrite Hr2, Hr1|]. split; [done|].
  rewrite Hrec, Hall. split; [apply sort_by_startDate_Permutation|].
  intros start. apply sort_by_startDate_stable.
Qed.

Lemma main_sorts_stably_witness :
  ∃ recs, records (main Sample.fs).1 ≡ₚ recs ∧ length recs = 5.
Proof.
  destruct (main_sorts_stably Sample.fs _ SampleRun.out main_sample_run)
    as (st1&n1&st2&n2&st3&n3&a1&a2&a3&_&_&_&_&_&_&Hperm&_).
  exists (a1 ++ a2 ++ a3). split; [exact Hperm|].
  rewrite <- Hperm. vm_compute. reflexivity.
Defined.

(** ** The tally by type *)

Section Tally.
Implicit Types (recs : list record) (m : gmap string nat) (t : string).

Lemma type_counts_fold_lookup recs m t :
  fold_left (λ (tc : gmap string nat) r,
               <[ type r := default 0 (tc !! type r) + 1 ]> tc) recs m !! t
  = match m !! t, count_type t recs with
    | None, 0 => None
    | o, c => Some (default 0 o + c)
    end.
Proof.
  revert m. induction recs as [|r recs IH]; intros m.
  - unfold count_type. simpl. destruct (m !! t); simpl; [by rewrite Nat.add_0_r|done].
  - cbn [fold_left]. rewrite IH. unfold count_type. cbn [List.filter].
    destruct (String.eqb_spec (type r) t) as [->|Hne].
    + rewrite lookup_insert_eq. cbn [length].
      destruct (m !! t) as [n|]; simpl; [|done]. f_equal.
      generalize (length (List.filter (λ rec, String.eqb (type rec) t) recs)).
      clear. intros c. lia.
    + rewrite lookup_insert_ne by done.
      by destruct (m !! t), (length _).
Qed.

Lemma type_counts_lookup recs t :
  type_counts recs !! t
  = if count_type t recs =? 0 then None else Some (count_type t recs).
Proof.
  unfold type_counts. cbv zeta. rewrite type_counts_fold_lookup, lookup_empty.
  by destruct (count_type t recs).
Qed.

Lemma total_insert m t :
  sum_list (map_to_list (<[ t := default 0 (m !! t) + 1 ]> m)).*2
  = sum_list (map_to_list m).*2 + 1.
Proof.
  destruct (m !! t) as [n|] eqn:Ht; simpl.
  - rewrite <- (insert_delete_eq m).
    rewrite <- (insert_delete_id m t n) at 2 by done.
    rewrite !map_to_list_insert by apply lookup_delete_eq.
    rewrite !fmap_cons. cbn [sum_list_with snd id].
    generalize (sum_list (map_to_list (delete t m)).*2). clear. intros s. lia.
  - rewrite map_to_list_insert by done.
    rewrite !fmap_cons. cbn [sum_list_with snd id].
    generalize (sum_list (map_to_list m).*2). clear. intros s. lia.
Qed.

Lemma type_counts_fold_total recs m :
  sum_list (map_to_list
              (fold_left (λ (tc : gmap string nat) r,
                            <[ type r := default 0 (tc !! type r) + 1 ]> tc) recs m)).*2
  = sum_list (map_to_list m).*2 + length recs.
Proof.
  revert m. induction recs as [|r recs IH]; intros m; [by rewrite Nat.add_0_r|].
  cbn [fold_left length]. rewrite IH, total_insert.
  generalize (sum_list (map_to_list m).*2), (length recs). clear. intros a b. lia.
Qed.

Lemma sorted_insert_Permutation (x : string) (l : list string) : sorted_insert x l ≡ₚ x :: l.
Proof.
  induction l as [|y l IH]; simpl; [done|].
  destruct (String.leb x y); [done|]. rewrite IH. apply Permutation_swap.
Qed.

Lemma sorted_Permutation (l : list string) : sorted l ≡ₚ l.
Proof.
  induction l as [|x l IH]; simpl; [done|]. by rewrite sorted_insert_Permutation, IH.
Qed.

Lemma string_leb_ltb (x y : string) : String.leb x y = true → x ≠ y → String.ltb x y = true.
Proof.
  unfold String.leb, String.ltb. destruct (String.compare x y) eqn:Hc; try done.
  apply String.compare_eq_iff in Hc. done.
Qed.

Lemma sorted_insert_strict (x : string) (l : list string) :
  x ∉ l →
  StronglySorted (λ a b, String.ltb a b = true) l →
  StronglySorted (λ a b, String.ltb a b = true) (sorted_insert x l).
Proof.
  intros Hx Hs. induction Hs as [|y l Hl IH Hy]; simpl.
  - repeat constructor.
  - apply not_elem_of_cons in Hx as [Hxy Hx].
    destruct (String.leb x y) eqn:Hleb.
    + pose proof (string_leb_ltb _ _ Hleb Hxy) as Hlt.
      constructor; [by constructor|]. constructor; [done|].
      eapply Forall_impl; [exact Hy|]. intros z Hz. simpl in Hz.
      unfold String.ltb in *.
      destruct (String.compare x y) eqn:C1; try done.
      destruct (String.compare y z) eqn:C2; try done.
      assert (String.le x z) as Hle.
      { etrans; unfold String.le, String.leb; [by rewrite C1|by rewrite C2]. }
      unfold String.le, String.leb in Hle.
      destruct (String.compare x z) eqn:C3; try done.
      apply String.compare_eq_iff in C3 as ->.
      rewrite String.compare_antisym in C2. by rewrite C1 in C2.
    + constructor; [by apply IH|].
      rewrite sorted_insert_Permutation. constructor; [|done].
      destruct (String.leb_total x y) as [H|H]; [congruence|].
      apply string_leb_ltb; [done|]. by intros ->.
Qed.

Lemma sorted_strict (l : list string) :
  NoDup l → StronglySorted (λ a b, String.ltb a b = true) (sorted l).
Proof.
  induction 1 as [|x l Hx Hnd IH]; simpl; [constructor|].
  apply sorted_insert_strict; [|done]. by rewrite sorted_Permutation.
Qed.
End Tally.

(** X16.  The closing tally.  [type_counts] maps each type that occurs
    among the records to the number of records of that type, and no
    other type.  The lines of the tally are in strictly increasing order
    of type, there is exactly one line for each type that occurs, with
    its number of records, and the numbers add up to the number of
    records. *)
Theorem tally_by_type (recs : list record) :
  (∀ t, type_counts recs !! t
        = if count_type t recs =? 0 then None else Some (count_type t recs)) ∧
  StronglySorted (λ a b, String.ltb a b = true) (tally recs).*1 ∧
  (∀ t n, (t, n) ∈ tally recs ↔ n = count_type t recs ∧ 0 < n) ∧
  sum_list (tally recs).*2 = length recs.
Proof.
  split; [apply type_counts_lookup|].
  assert (∀ t, t ∈ (map_to_list (type_counts recs)).*1 ↔ is_Some (type_counts recs !! t))
    as Hkeys.
  { intros t. rewrite list_elem_of_fmap. split.
    - intros ([t' n] & -> & Hin). apply elem_of_map_to_list in Hin. by exists n.
    - intros [n Hn]. exists (t, n). split; [done|]. by apply elem_of_map_to_list. }
  unfold tally. cbv zeta. split; [|split].
  - rewrite <- list_fmap_compose.
    rewrite (list_fmap_ext _ id (sorted (map_to_list (type_counts recs)).*1))
      by (by intros).
    rewrite list_fmap_id. apply sorted_strict, NoDup_fst_map_to_list.
  - intros t n. rewrite list_elem_of_fmap. setoid_rewrite sorted_Permutation.
    setoid_rewrite Hkeys. split.
    + intros (t' & [= <- ->] & Hsome). rewrite type_counts_lookup in Hsome |- *.
      destruct (count_type t recs) as [|c]; simpl in *; [by destruct Hsome|].
      split; [done|]. clear. lia.
    + intros [-> Hpos]. exists t. rewrite type_counts_lookup.
      destruct (count_type t recs) as [|c]; [clear -Hpos; lia|]. simpl. by split; [|eexists].
  - rewrite <- list_fmap_compose, sorted_Permutation, <- list_fmap_compose.
    rewrite (list_fmap_ext _ snd (map_to_list (type_counts recs))).
    + unfold type_counts. cbv zeta. rewrite type_counts_fold_total.
      by rewrite map_to_list_empty.
    + intros i [t n] Hin. apply list_elem_of_lookup_2, elem_of_map_to_list in Hin.
      simpl. by rewrite Hin.
Qed.

(** ** Rows that are the same *)

Lemma csv_row_inj rec1 rec2 :
  value rec1 ≠ None → value rec2 ≠ None → csv_row rec1 = csv_row rec2 → rec1 = rec2.
Proof.
  destruct rec1 as [c1 s1 e1 t1 [v1|]], rec2 as [c2 s2 e2 t2 [v2|]]; try done.
  unfold csv_row, csv_cell. simpl. by intros _ _ [= -> -> -> -> ->].
Qed.

(** X17.  The rows written after the header are pairwise different as
    long as no record has the value [None], which only
    [parse_export_cda_xml] can give a record.  The header always comes
    first. *)
Theorem rows_are_distinct (fs : filesystem) (st : state) (out : output)
    (Hrun : main fs = (st, Return out))
    (Hvalues : Forall (λ rec, value rec ≠ None) (records st)) :
  ∃ rows, full_health_data_csv out = fieldnames :: rows ∧
          length rows = length (records st) ∧ NoDup rows.
Proof.
  destruct (main_run _ _ _ Hrun) as (?&?&?&?&?&?&_&_&_&_&_&_&Hcsv&_).
  exists (csv_row <$> records st). split; [done|]. split; [apply length_fmap|].
  assert (reachable st) as Hst.
  { pose proof (main_reachable fs) as H. by rewrite Hrun in H. }
  destruct (reachable_consistent _ Hst) as [Hnd _].
  apply NoDup_fmap_1 in Hnd.
  apply NoDup_fmap_2_strong; [|done].
  intros rec1 rec2 H1 H2. apply csv_row_inj.
  - by apply (proj1 (Forall_forall _ _) Hvalues).
  - by apply (proj1 (Forall_forall _ _) Hvalues).
Qed.

Lemma rows_are_distinct_witness :
  ∃ rows, full_health_data_csv SampleRun.out = fieldnames :: rows ∧
          length rows = length (records (main Sample.fs).1) ∧ NoDup rows.
Proof.
  apply (rows_are_distinct Sample.fs _ SampleRun.out main_sample_run).
  apply Forall_forall. intros rec Hrec.
  assert (bool_decide (Forall (λ rec, is_Some (value rec)) (records (main Sample.fs).1)) = true)
    as H by (vm_compute; reflexivity).
  apply bool_decide_eq_true in H.
  destruct (proj1 (Forall_forall _ _) H rec Hrec) as [v ->]. done.
Defined.
